(** * Payment-request verification (lib/paymentrequest.py)

    A shallow embedding of the verification engine of
    [lib/paymentrequest.py]: the [PaymentRequest] entity with its
    [verify], [verify_x509], [verify_dnssec], [has_expired] and
    [get_requestor] methods, and the lookup side of [InvoiceStore].

    Python objects become records, the dictionaries [ca_list], [ca_keyID],
    [info] and [invoices] become finite maps, and a method body becomes a
    computation in a small monad that threads the object [self], records
    the calls made to the signature primitives, and distinguishes the three
    ways a Python statement can end: fall through, [return], or raise. *)

From stdpp Require Import gmap strings list fin_maps.
From Stdlib Require Import ZArith Ascii.

Local Open Scope string_scope.
Local Open Scope Z_scope.

(** ** Python values and exceptions *)

(** The values the methods under study return or inspect. *)
Inductive pyval :=
  | PyNone
  | PyBool (b : bool)
  | PyInt (n : Z)
  | PyStr (s : string).

#[global] Instance pyval_eq_dec : EqDecision pyval.
Proof. solve_decision. Defined.

(** Python truthiness, as used by [if v:] and [if not v:]. *)
Definition truthy (v : pyval) : bool :=
  match v with
  | PyNone => false
  | PyBool b => b
  | PyInt n => negb (n =? 0)
  | PyStr s => negb (bool_decide (s = ""))
  end.

(** The exceptions that can leave the methods. [DecodeError] is raised by
    the protobuf codec's [ParseFromString], [CertificateParseError] stands
    for whatever [X509.parseBinary] raises on a malformed DER blob. *)
Inductive exn :=
  | DecodeError
  | CertificateParseError
  | KeyError
  | IndexError
  | AttributeError
  | UnboundLocalError.

(** How a call ends. *)
Inductive outcome :=
  | Returned (v : pyval)
  | Raised (e : exn).

(** ** Strings *)

(** [s[n:]] *)
Fixpoint slice_from (n : nat) (s : string) : string :=
  match n, s with
  | O, _ => s
  | S n', String _ s' => slice_from n' s'
  | S _, EmptyString => EmptyString
  end.

(** [s.startswith(p)] *)
Fixpoint startswith (s p : string) : bool :=
  match p, s with
  | EmptyString, _ => true
  | String a p', String b s' => Ascii.eqb a b && startswith s' p'
  | String _ _, EmptyString => false
  end.

(** ** Certificates (the abstraction consumed from the [x509] module) *)

(** Signature-algorithm identifiers carried by a certificate. The four
    named constants are the ones [verify_x509] compares against; every
    other identifier is an [ALGO_OTHER]. Of such an identifier the method
    asks one thing, [algo.getComponentByName('algorithm')], to print it
    (line 180): [algorithm] is what that call evaluates to, and [None]
    when the call raises, as it does with [AttributeError] on an
    identifier that is a plain dotted-decimal string and has no such
    method. *)
Inductive sig_algo :=
  | ALGO_RSA_SHA1
  | ALGO_RSA_SHA256
  | ALGO_RSA_SHA384
  | ALGO_RSA_SHA512
  | ALGO_OTHER (algorithm : option string).

(** An RSA public-key object with the two methods the verifier calls. *)
Record RSAKey := {
  rsa_verify : string -> string -> bool;        (* pubkey.verify(sig, padded) *)
  hashAndVerify : string -> string -> bool      (* pubkey.hashAndVerify(sig, data) *)
}.

(** A parsed [x509.X509] object, as seen through its methods.
    [check_date] is [None] when the call passes and [Some msg] when it
    raises an exception whose [str] is [msg]. *)
Record X509 := {
  get_common_name : string;
  check_date : option string;
  check_ca : bool;
  getFingerprint : string;
  get_issuer_keyID : string;
  publicKey : RSAKey;
  get_signature : sig_algo * string * string     (* algo, sig, data *)
}.

(** The module-level trust store, [ca_list, ca_keyID =
    x509.load_certificates(ca_path)]: fingerprint to certificate, and key
    identifier to fingerprint. *)
Record TrustStore := {
  ca_list : gmap string X509;
  ca_keyID : gmap string string
}.

(** ** Wire records *)

(** [pb2.PaymentRequest] *)
Record Envelope := {
  pki_type : string;
  pki_data : string;
  serialized_payment_details : string;
  signature : string
}.

(** [paymntreq.signature = ''] *)
Definition clear_signature (e : Envelope) : Envelope :=
  {| pki_type := pki_type e;
     pki_data := pki_data e;
     serialized_payment_details := serialized_payment_details e;
     signature := "" |}.

(** [pb2.PaymentDetails], the field read by the methods modelled here. *)
Record PaymentDetails := {
  expires : Z
}.

(** ** The [PaymentRequest] entity *)

(** The attributes of a [PaymentRequest] object. An attribute that has not
    been assigned ([error] before any failure, [details] after a failed
    parse) is [None]; [requestor] and [tx] are [None] for Python's [None]. *)
Record PaymentRequest := {
  raw : string;
  details : option PaymentDetails;
  error : option string;
  requestor : option string;
  tx : option string
}.

(** ** External collaborators *)

(** The calls made to signature primitives and to the alias resolver, in
    the order they happen. *)
Inductive call :=
  | CallRsaVerify
  | CallHashAndVerify
  | CallVerifyMessage
  | CallResolve (alias : string).

(** The libraries the module imports: the protobuf codec ([pb2]), the
    certificate parser and digest prefixes ([x509]), [hashlib] and
    [bitcoin.verify_message]. A parser returns [None] where the Python
    call raises. *)
Class Externals := {
  pb2_PaymentRequest_ParseFromString : string -> option Envelope;
  pb2_PaymentDetails_ParseFromString : string -> option PaymentDetails;
  pb2_X509Certificates_ParseFromString : string -> option (list string);
  pb2_SerializeToString : Envelope -> string;
  x509_parseBinary : string -> option X509;
  PREFIX_RSA_SHA256 : string;
  PREFIX_RSA_SHA384 : string;
  PREFIX_RSA_SHA512 : string;
  hashlib_sha256 : string -> string;
  hashlib_sha384 : string -> string;
  hashlib_sha512 : string -> string;
  bitcoin_verify_message : pyval -> string -> string -> bool
}.

(** [contacts.resolve(alias)] returns a dictionary. *)
Definition Contacts := string -> gmap string pyval.

(** [info.get(k)] *)
Definition dict_get (info : gmap string pyval) (k : string) : pyval :=
  default PyNone (info !! k).

(** ** The method monad *)

(** What a method body works on: the object and the log of external calls. *)
Record world := {
  self : PaymentRequest;
  calls : list call
}.

(** How a statement ends: control reaches the next statement with a value,
    the enclosing method returns, or an exception propagates. *)
Inductive flow (A : Type) :=
  | Next (a : A)
  | Return (v : pyval)
  | Raise (e : exn).
Arguments Next {A} a.
Arguments Return {A} v.
Arguments Raise {A} e.

Definition M (A : Type) : Type := world -> flow A * world.

Definition ret {A} (a : A) : M A := fun w => (Next a, w).

Definition bind {A B} (m : M A) (k : A -> M B) : M B :=
  fun w =>
    match m w with
    | (Next a, w') => k a w'
    | (Return v, w') => (Return v, w')
    | (Raise e, w') => (Raise e, w')
    end.

Notation "x <- m ;; k" := (bind m (fun x => k))
  (at level 100, m at next level, right associativity).
Notation "m ;;; k" := (bind m (fun _ => k))
  (at level 100, right associativity).

(** [return v] *)
Definition return_ {A} (v : pyval) : M A := fun w => (Return v, w).

(** [raise e] *)
Definition raise {A} (e : exn) : M A := fun w => (Raise e, w).

(** The value of a partial operation, raising [e] where it has none. *)
Definition or_raise {A} (o : option A) (e : exn) : M A :=
  match o with
  | Some a => ret a
  | None => raise e
  end.

(** [self.error = msg] *)
Definition with_error (msg : string) (w : world) : world :=
  {| self := {| raw := raw (self w);
                details := details (self w);
                error := Some msg;
                requestor := requestor (self w);
                tx := tx (self w) |};
     calls := calls w |}.

Definition set_error (msg : string) : M unit :=
  fun w => (Next tt, with_error msg w).

(** [self.requestor = r] *)
Definition with_requestor (r : string) (w : world) : world :=
  {| self := {| raw := raw (self w);
                details := details (self w);
                error := error (self w);
                requestor := Some r;
                tx := tx (self w) |};
     calls := calls w |}.

Definition set_requestor (r : string) : M unit :=
  fun w => (Next tt, with_requestor r w).

(** Reading an attribute of [self]. *)
Definition get_self : M PaymentRequest := fun w => (Next (self w), w).

(** External calls are appended to the log. *)
Definition with_calls (cs : list call) (w : world) : world :=
  {| self := self w; calls := (calls w ++ cs)%list |}.

Definition log (c : call) : M unit :=
  fun w => (Next tt, with_calls [c] w).

(** [for a in l: s = body(a, s)], where [s] holds the local variables the
    loop updates. *)
Fixpoint for_each {A St} (l : list A) (body : A -> St -> M St) (s : St) : M St :=
  match l with
  | [] => ret s
  | a :: l' => s' <- body a s ;; for_each l' body s'
  end.

(** [range(a, b)] *)
Definition range (a b : nat) : list nat := seq a (b - a).

(** Running a method body: falling off the end returns [None]. *)
Definition run (body : M unit) (w : world) : outcome * world :=
  match body w with
  | (Next _, w') => (Returned PyNone, w')
  | (Return v, w') => (Returned v, w')
  | (Raise e, w') => (Raised e, w')
  end.

(** ** The methods of [PaymentRequest] *)

Section Methods.
Context `{Ext : Externals}.
Variable ts : TrustStore.

(** The common name recorded as requestor: a leading ["*."] is dropped
    (lines 138-140). *)
Definition requestor_of_common_name (cn : string) : string :=
  if startswith cn "*." then slice_from 2 cn else cn.

(** One pass of the first loop of [verify_x509] (lines 128-144): parse
    certificate [i], append it to [x509_chain], then check the leaf's
    dates and record the requestor, or check the CA flag. *)
Definition parse_step (certificate : list string) (i : nat)
    (x509_chain : list X509) : M (list X509) :=
  blob <- or_raise (certificate !! i) IndexError ;;
  x <- or_raise (x509_parseBinary blob) CertificateParseError ;;
  let x509_chain := (x509_chain ++ [x])%list in
  (if bool_decide (i = 0%nat) then
     match check_date x with
     | Some e => set_error e ;;; return_ PyNone
     | None => set_requestor (requestor_of_common_name (get_common_name x))
     end
   else
     if negb (check_ca x) then
       set_error "ERROR: Supplied CA Certificate Error" ;;; return_ PyNone
     else ret tt) ;;;
  ret x509_chain.

(** The [if]/[elif] chain of lines 167-181 computing [verify] for one
    link: on the left the primitive called and its answer; on the right
    the final [else] (algorithm not supported), with what
    [algo.getComponentByName('algorithm')] evaluates to there. *)
Definition link_verify (prev_x x : X509) : call * bool + option string :=
  let '(algo, sig, data) := get_signature prev_x in
  let pubkey := publicKey x in
  match algo with
  | ALGO_RSA_SHA1 =>
      inl (CallHashAndVerify, hashAndVerify pubkey sig data)
  | ALGO_RSA_SHA256 =>
      let hashBytes := hashlib_sha256 data in
      inl (CallRsaVerify, rsa_verify pubkey sig (PREFIX_RSA_SHA256 +:+ hashBytes))
  | ALGO_RSA_SHA384 =>
      let hashBytes := hashlib_sha384 data in
      inl (CallRsaVerify, rsa_verify pubkey sig (PREFIX_RSA_SHA384 +:+ hashBytes))
  | ALGO_RSA_SHA512 =>
      let hashBytes := hashlib_sha512 data in
      inl (CallRsaVerify, rsa_verify pubkey sig (PREFIX_RSA_SHA512 +:+ hashBytes))
  | ALGO_OTHER algorithm => inr algorithm
  end.

(** One pass of the second loop (lines 161-184). The loop-carried local
    is [verify], unbound ([None]) before the first pass. In the final
    [else] the status is assigned first (line 179); the arguments of
    [util.print_error] are evaluated next (line 180), so an identifier
    without [getComponentByName] ends the method with [AttributeError]
    and [return False] (line 181) is not reached. *)
Definition link_step (x509_chain : list X509) (i : nat)
    (verify : option bool) : M (option bool) :=
  x <- or_raise (x509_chain !! i) IndexError ;;
  prev_x <- or_raise (x509_chain !! (i - 1)%nat) IndexError ;;
  match link_verify prev_x x with
  | inl (c, verify) =>
      log c ;;;
      if negb verify then
        set_error "Certificate not Signed by Provided CA Certificate Chain" ;;;
        return_ (PyBool false)
      else ret (Some verify)
  | inr algorithm =>
      set_error "Algorithm not supported" ;;;
      or_raise algorithm AttributeError ;;;
      return_ (PyBool false)
  end.

(** Lines 148-158: if the last supplied certificate is not a trusted
    root, look its issuer up by key identifier and append the root. *)
Definition resolve_anchor (ca : X509) (x509_chain : list X509) : M (list X509) :=
  if bool_decide (ca_list ts !! getFingerprint ca = None) then
    let keyID := get_issuer_keyID ca in
    match ca_keyID ts !! keyID with
    | Some f =>
        if bool_decide (f = "") then
          set_error "Supplied CA Not Found in Trusted CA Store." ;;;
          return_ (PyBool false)
        else
          root <- or_raise (ca_list ts !! f) KeyError ;;
          ret (x509_chain ++ [root])%list
    | None =>
        set_error "Supplied CA Not Found in Trusted CA Store." ;;;
        return_ (PyBool false)
    end
  else ret x509_chain.

(** Lines 186-199: the signature over the envelope, checked with the
    leaf's key. For a [pki_type] other than the two handled, [verify]
    keeps the value the second loop left in it. *)
Definition envelope_verify (pubkey0 : RSAKey) (paymntreq : Envelope)
    (verify : option bool) : option call * option bool :=
  let sig := signature paymntreq in
  let paymntreq := clear_signature paymntreq in
  let s := pb2_SerializeToString paymntreq in
  if bool_decide (pki_type paymntreq = "x509+sha256") then
    let hashBytes := hashlib_sha256 s in
    (Some CallRsaVerify, Some (rsa_verify pubkey0 sig (PREFIX_RSA_SHA256 +:+ hashBytes)))
  else if bool_decide (pki_type paymntreq = "x509+sha1") then
    (Some CallHashAndVerify, Some (hashAndVerify pubkey0 sig s))
  else (None, verify).

(** The second half of [verify_x509] (lines 159-202): the chain of
    signatures, the signature of the envelope, and the success status,
    which names [ca], the last certificate that was supplied. *)
Definition check_signatures (paymntreq : Envelope) (ca : X509)
    (x509_chain : list X509) : M unit :=
  let cert_num := length x509_chain in
  verify <- for_each (range 1 cert_num) (link_step x509_chain) None ;;
  x0 <- or_raise (x509_chain !! 0%nat) IndexError ;;
  let pubkey0 := publicKey x0 in
  let '(c, verify) := envelope_verify pubkey0 paymntreq verify in
  match c with Some c => log c | None => ret tt end ;;;
  verify <- or_raise verify UnboundLocalError ;;
  if negb verify then
    set_error "ERROR: Invalid Signature for Payment Request Data" ;;;
    return_ (PyBool false)
  else
    set_error ("Signed by Trusted CA: " +:+ get_common_name ca) ;;;
    return_ (PyBool true).

(** [PaymentRequest.verify_x509] (lines 119-202). *)
Definition verify_x509 (paymntreq : Envelope) : M unit :=
  if bool_decide (ca_list ts = ∅) then
    set_error "Trusted certificate authorities list not found" ;;;
    return_ (PyBool false)
  else
    certificate <-
      or_raise (pb2_X509Certificates_ParseFromString (pki_data paymntreq))
               DecodeError ;;
    let cert_num := length certificate in
    x509_chain <- for_each (range 0 cert_num) (parse_step certificate) [] ;;
    if negb (bool_decide (1 < cert_num)%nat) then
      set_error "ERROR: CA Certificate Chain Not Provided by Payment Processor" ;;;
      return_ (PyBool false)
    else
      ca <- or_raise (x509_chain !! (cert_num - 1)%nat) IndexError ;;
      x509_chain <- resolve_anchor ca x509_chain ;;
      check_signatures paymntreq ca x509_chain.

(** [PaymentRequest.verify_dnssec] (lines 204-224). *)
Definition verify_dnssec (pr : Envelope) (contacts : Contacts) : M unit :=
  let sig := signature pr in
  let alias := pki_data pr in
  log (CallResolve alias) ;;;
  let info := contacts alias in
  if negb (bool_decide (dict_get info "validated" = PyBool true)) then
    set_error "Alias verification failed (DNSSEC)" ;;;
    return_ (PyBool false)
  else if bool_decide (pki_type pr = "dnssec+btc") then
    set_requestor alias ;;;
    let address := dict_get info "address" in
    let pr := clear_signature pr in
    let message := pb2_SerializeToString pr in
    log CallVerifyMessage ;;;
    if bitcoin_verify_message address sig message then
      set_error "Verified with DNSSEC" ;;;
      return_ (PyBool true)
    else
      set_error "verify failed" ;;;
      return_ (PyBool false)
  else
    set_error "unknown algo" ;;;
    return_ (PyBool false).

(** [PaymentRequest.verify] (lines 101-117). *)
Definition verify (contacts : Contacts) : M unit :=
  me <- get_self ;;
  if bool_decide (raw me = "") then
    set_error "Empty request" ;;; return_ PyNone
  else
    pr <- or_raise (pb2_PaymentRequest_ParseFromString (raw me)) DecodeError ;;
    if bool_decide (signature pr = "") then
      set_error "No signature" ;;; return_ PyNone
    else if bool_decide (pki_type pr ∈ ["x509+sha256"; "x509+sha1"]) then
      verify_x509 pr
    else if bool_decide (pki_type pr ∈ ["dnssec+btc"; "dnssec+ecdsa"]) then
      verify_dnssec pr contacts
    else
      set_error "ERROR: Unsupported PKI Type for Message Signature" ;;;
      return_ (PyBool false).

(** [PaymentRequest.has_expired] (lines 226-227), with [now] the value of
    [int(time.time())]. Python's [a and b] is [a] when [a] is falsy. *)
Definition has_expired (now : Z) (me : PaymentRequest) : outcome :=
  match details me with
  | None => Raised AttributeError
  | Some d =>
      if truthy (PyInt (expires d)) then Returned (PyBool (expires d <? now))
      else Returned (PyInt (expires d))
  end.

(** [PaymentRequest.get_requestor] (lines 235-236). *)
Definition get_requestor (me : PaymentRequest) : string :=
  match requestor me with
  | Some r => if truthy (PyStr r) then r else "unknown"
  | None => "unknown"
  end.

(** [PaymentRequest.get_verify_status] (lines 238-239). *)
Definition get_verify_status (me : PaymentRequest) : option string := error me.

(** [PaymentRequest.__init__] with [parse] (lines 75-99), restricted to
    the attributes above: a request that does not decode is kept with
    [error] set and no [details]; a failure to decode the details is not
    caught and leaves the constructor as an exception ([None]). *)
Definition PaymentRequest_init (data : string) : option PaymentRequest :=
  match pb2_PaymentRequest_ParseFromString data with
  | None =>
      Some {| raw := data; details := None;
              error := Some "cannot parse payment request";
              requestor := None; tx := None |}
  | Some data_ =>
      match pb2_PaymentDetails_ParseFromString (serialized_payment_details data_) with
      | None => None
      | Some d =>
          Some {| raw := data; details := Some d; error := None;
                  requestor := None; tx := None |}
      end
  end.

End Methods.

(** ** InvoiceStore *)

(** Status of payment requests (lines 49-53). *)
Definition PR_UNPAID : Z := 0.
Definition PR_EXPIRED : Z := 1.
Definition PR_UNKNOWN : Z := 2.
Definition PR_PAID : Z := 3.
Definition PR_ERROR : Z := 4.

(** The in-memory side of [InvoiceStore]: [self.invoices]. *)
Record InvoiceStore := {
  invoices : gmap string PaymentRequest
}.

(** [InvoiceStore.get] (lines 430-431): [dict.get], [None] when absent. *)
Definition get (store : InvoiceStore) (k : string) : option PaymentRequest :=
  invoices store !! k.

(** [InvoiceStore.get_status] (lines 409-415). Reading [pr.tx] on the
    [None] that [get] returns for an absent key raises [AttributeError]. *)
Definition get_status (now : Z) (store : InvoiceStore) (key : string) : outcome :=
  match get store key with
  | None => Raised AttributeError
  | Some pr =>
      if bool_decide (tx pr ≠ None) then Returned (PyInt PR_PAID)
      else
        match has_expired now pr with
        | Raised e => Raised e
        | Returned v =>
            if truthy v then Returned (PyInt PR_EXPIRED)
            else Returned (PyInt PR_UNPAID)
        end
  end.

(** ** What the checks of [verify_x509] mean *)

Section Validity.
Context `{Ext : Externals}.

(** [prev_x] carries a signature that verifies under the public key of
    [x], by one of the four supported algorithms: SHA1 through
    hash-and-verify, the others through the prefixed digest. *)
Inductive signed_by (prev_x x : X509) : Prop :=
  | signed_sha1 sig data :
      get_signature prev_x = (ALGO_RSA_SHA1, sig, data) ->
      hashAndVerify (publicKey x) sig data = true ->
      signed_by prev_x x
  | signed_sha256 sig data :
      get_signature prev_x = (ALGO_RSA_SHA256, sig, data) ->
      rsa_verify (publicKey x) sig (PREFIX_RSA_SHA256 +:+ hashlib_sha256 data) = true ->
      signed_by prev_x x
  | signed_sha384 sig data :
      get_signature prev_x = (ALGO_RSA_SHA384, sig, data) ->
      rsa_verify (publicKey x) sig (PREFIX_RSA_SHA384 +:+ hashlib_sha384 data) = true ->
      signed_by prev_x x
  | signed_sha512 sig data :
      get_signature prev_x = (ALGO_RSA_SHA512, sig, data) ->
      rsa_verify (publicKey x) sig (PREFIX_RSA_SHA512 +:+ hashlib_sha512 data) = true ->
      signed_by prev_x x.

(** The signature on [prev_x] uses one of the four supported algorithms
    and the RSA primitive answers [False] for it under the public key of
    [x]. *)
Inductive badly_signed_by (prev_x x : X509) : Prop :=
  | refused_sha1 sig data :
      get_signature prev_x = (ALGO_RSA_SHA1, sig, data) ->
      hashAndVerify (publicKey x) sig data = false ->
      badly_signed_by prev_x x
  | refused_sha256 sig data :
      get_signature prev_x = (ALGO_RSA_SHA256, sig, data) ->
      rsa_verify (publicKey x) sig (PREFIX_RSA_SHA256 +:+ hashlib_sha256 data) = false ->
      badly_signed_by prev_x x
  | refused_sha384 sig data :
      get_signature prev_x = (ALGO_RSA_SHA384, sig, data) ->
      rsa_verify (publicKey x) sig (PREFIX_RSA_SHA384 +:+ hashlib_sha384 data) = false ->
      badly_signed_by prev_x x
  | refused_sha512 sig data :
      get_signature prev_x = (ALGO_RSA_SHA512, sig, data) ->
      rsa_verify (publicKey x) sig (PREFIX_RSA_SHA512 +:+ hashlib_sha512 data) = false ->
      badly_signed_by prev_x x.

(** The envelope's signature verifies under the leaf's key over the
    envelope serialized with its signature cleared, by the algorithm its
    [pki_type] declares. *)
Inductive envelope_signed_by (leaf : X509) (p : Envelope) : Prop :=
  | envelope_sha256 :
      pki_type p = "x509+sha256" ->
      rsa_verify (publicKey leaf) (signature p)
        (PREFIX_RSA_SHA256 +:+ hashlib_sha256 (pb2_SerializeToString (clear_signature p))) = true ->
      envelope_signed_by leaf p
  | envelope_sha1 :
      pki_type p = "x509+sha1" ->
      hashAndVerify (publicKey leaf) (signature p)
        (pb2_SerializeToString (clear_signature p)) = true ->
      envelope_signed_by leaf p.

(** The supplied blobs parse to [chain], whose leaf is within its validity
    window and whose other certificates all carry the CA flag. *)
Record supplied_chain (certificate : list string) (chain : list X509) : Prop := {
  supplied_parse : Forall2 (fun b x => x509_parseBinary b = Some x) certificate chain;
  supplied_dates : forall leaf, chain !! 0%nat = Some leaf -> check_date leaf = None;
  supplied_ca : forall i x, (1 <= i)%nat -> chain !! i = Some x -> check_ca x = true
}.

(** Every certificate of [chain] but the last is signed by its successor. *)
Definition chain_signed (chain : list X509) : Prop :=
  forall i prev_x x, (1 <= i)%nat ->
    chain !! (i - 1)%nat = Some prev_x -> chain !! i = Some x -> signed_by prev_x x.

(** The trust store holds [root] under the key identifier [keyID]: the
    identifier leads to a fingerprint, and the fingerprint to [root]. *)
Definition trusted_root_by_keyID (ts : TrustStore) (keyID : string) (root : X509) : Prop :=
  exists f, ca_keyID ts !! keyID = Some f /\ f <> "" /\ ca_list ts !! f = Some root.

(** The identity an envelope claims for its sender: for the certificate
    types, the common name of the first certificate, without a leading
    ["*."]; for [dnssec+btc], the alias. *)
Definition claimed_identity (p : Envelope) : option string :=
  if bool_decide (pki_type p ∈ ["x509+sha256"; "x509+sha1"]) then
    match pb2_X509Certificates_ParseFromString (pki_data p) with
    | Some (b :: _) =>
        match x509_parseBinary b with
        | Some x => Some (requestor_of_common_name (get_common_name x))
        | None => None
        end
    | _ => None
    end
  else if bool_decide (pki_type p = "dnssec+btc") then Some (pki_data p)
  else None.

(** The identity that has been assigned to [self.requestor] by the time
    [verify] is done with the decoded envelope [p], whichever way it
    ends. An envelope without a signature is turned away before either
    verifier is called (lines 107-109). For the certificate types the
    assignment of lines 138-140 is reached when the trust store is not
    empty (line 121), the certificate list decodes (line 125) and is not
    empty, and its first blob parses (line 130) to a certificate that is
    within its validity window (lines 133-137); what is assigned is that
    certificate's common name, without a leading ["*."]. For
    [dnssec+btc] the assignment of line 212 is reached when the resolver
    reports the alias as validated (line 208); what is assigned is the
    alias. Nothing is assigned for [dnssec+ecdsa] or any other type. *)
Definition recorded_identity (ts : TrustStore) (contacts : Contacts)
    (p : Envelope) : option string :=
  if bool_decide (signature p = "") then None
  else if bool_decide (pki_type p ∈ ["x509+sha256"; "x509+sha1"]) then
    if bool_decide (ca_list ts = ∅) then None
    else
      match pb2_X509Certificates_ParseFromString (pki_data p) with
      | Some (b :: _) =>
          match x509_parseBinary b with
          | Some x =>
              match check_date x with
              | None => Some (requestor_of_common_name (get_common_name x))
              | Some _ => None
              end
          | None => None
          end
      | _ => None
      end
  else if bool_decide (pki_type p = "dnssec+btc") then
    if bool_decide (dict_get (contacts (pki_data p)) "validated" = PyBool true)
    then Some (pki_data p)
    else None
  else None.

End Validity.

(** The requestor is as it was ([r0]) or is the claimed identity [c]. *)
Definition stays_or_claims (r0 c : option string) (w : world) : Prop :=
  requestor (self w) = r0 \/ (is_Some c /\ requestor (self w) = c).

(** A computation that keeps a property of the world, however it ends. *)
Definition preserves {A} (P : world -> Prop) (m : M A) : Prop :=
  forall w, P w -> P (snd (m w)).

(** ** A concrete instantiation

    A small, fully computable stand-in for the external libraries, used to
    run the methods on concrete requests: a table-driven codec, a toy RSA
    in which the signature of [m] under the key named [k] is the string
    [k/m], and digests that wrap their input. *)

Module Fixture.

Definition lookup_table {A} (t : list (string * A)) (k : string) : option A :=
  snd <$> List.find (fun e => String.eqb (fst e) k) t.

Definition toy_key (name : string) : RSAKey :=
  {| rsa_verify := fun sig padded => bool_decide (sig = name +:+ "/" +:+ padded);
     hashAndVerify := fun sig data => bool_decide (sig = name +:+ "/sha1/" +:+ data) |}.

Definition toy_sha256 (d : string) : string := "h256(" +:+ d +:+ ")".
Definition toy_sha384 (d : string) : string := "h384(" +:+ d +:+ ")".
Definition toy_sha512 (d : string) : string := "h512(" +:+ d +:+ ")".

Definition toy_serialize (e : Envelope) : string :=
  pki_type e +:+ "|" +:+ pki_data e +:+ "|" +:+
  serialized_payment_details e +:+ "|" +:+ signature e.

(** Certificates: a root, an intermediate CA signed by the root, a leaf
    signed by the intermediate, a leaf signed directly by the root, and a
    leaf outside its validity window. *)
Definition root_cert : X509 :=
  {| get_common_name := "Example Root CA";
     check_date := None; check_ca := true;
     getFingerprint := "fp-root"; get_issuer_keyID := "kid-root";
     publicKey := toy_key "root";
     get_signature := (ALGO_RSA_SHA1, "root/sha1/tbs-root", "tbs-root") |}.

Definition inter_cert : X509 :=
  {| get_common_name := "Example Issuing CA";
     check_date := None; check_ca := true;
     getFingerprint := "fp-inter"; get_issuer_keyID := "kid-root";
     publicKey := toy_key "inter";
     get_signature := (ALGO_RSA_SHA1, "root/sha1/tbs-inter", "tbs-inter") |}.

Definition leaf_cert : X509 :=
  {| get_common_name := "*.merchant.example";
     check_date := None; check_ca := false;
     getFingerprint := "fp-leaf"; get_issuer_keyID := "kid-inter";
     publicKey := toy_key "leaf";
     get_signature :=
       (ALGO_RSA_SHA256, "inter/p256:h256(tbs-leaf)", "tbs-leaf") |}.

Definition shop_cert : X509 :=
  {| get_common_name := "*.shop.example";
     check_date := None; check_ca := false;
     getFingerprint := "fp-shop"; get_issuer_keyID := "kid-root";
     publicKey := toy_key "shop";
     get_signature :=
       (ALGO_RSA_SHA256, "root/p256:h256(tbs-shop)", "tbs-shop") |}.

Definition stale_cert : X509 :=
  {| get_common_name := "stale.example";
     check_date := Some "Certificate has expired.";
     check_ca := false;
     getFingerprint := "fp-stale"; get_issuer_keyID := "kid-root";
     publicKey := toy_key "stale";
     get_signature :=
       (ALGO_RSA_SHA256, "root/p256:h256(tbs-stale)", "tbs-stale") |}.

Definition der_table : list (string * X509) :=
  [("der-root", root_cert); ("der-inter", inter_cert); ("der-leaf", leaf_cert);
   ("der-shop", shop_cert); ("der-stale", stale_cert)].

Definition certs_table : list (string * list string) :=
  [("certs:shop,root", ["der-shop"; "der-root"]);
   ("certs:leaf,inter", ["der-leaf"; "der-inter"]);
   ("certs:shop", ["der-shop"]);
   ("certs:stale", ["der-stale"]);
   ("certs:garbage,root", ["not a certificate"; "der-root"])].

(** An envelope signed with the key named [k] over its cleared form. *)
Definition signed_envelope (k ty data dets : string) : Envelope :=
  let unsigned :=
    {| pki_type := ty; pki_data := data;
       serialized_payment_details := dets; signature := "" |} in
  {| pki_type := ty; pki_data := data; serialized_payment_details := dets;
     signature := k +:+ "/p256:" +:+ toy_sha256 (toy_serialize unsigned) |}.

Definition shop_request : Envelope :=
  signed_envelope "shop" "x509+sha256" "certs:shop,root" "details".
Definition leaf_request : Envelope :=
  signed_envelope "leaf" "x509+sha256" "certs:leaf,inter" "details".
Definition lone_request : Envelope :=
  signed_envelope "shop" "x509+sha256" "certs:shop" "details".
Definition stale_request : Envelope :=
  signed_envelope "stale" "x509+sha256" "certs:stale" "details".
Definition garbage_cert_request : Envelope :=
  signed_envelope "shop" "x509+sha256" "certs:garbage,root" "details".

(** Alias-signed envelopes; the toy message signature of [m] for the
    address [a] is [a/m]. *)
Definition alias_envelope (ty alias addr dets : string) : Envelope :=
  let unsigned :=
    {| pki_type := ty; pki_data := alias;
       serialized_payment_details := dets; signature := "" |} in
  {| pki_type := ty; pki_data := alias; serialized_payment_details := dets;
     signature := addr +:+ "/" +:+ toy_serialize unsigned |}.

Definition mallory_request : Envelope :=
  alias_envelope "dnssec+btc" "mallory@example.org" "1Mallory" "details".
Definition alice_ecdsa_request : Envelope :=
  alias_envelope "dnssec+ecdsa" "alice@example.org" "1Alice" "details".
Definition alice_forged_request : Envelope :=
  {| pki_type := "dnssec+btc"; pki_data := "alice@example.org";
     serialized_payment_details := "details"; signature := "forged" |}.

Definition raw_table : list (string * Envelope) :=
  [("raw:shop", shop_request); ("raw:leaf", leaf_request);
   ("raw:lone", lone_request); ("raw:stale", stale_request);
   ("raw:garbage-cert", garbage_cert_request);
   ("raw:mallory", mallory_request); ("raw:alice-ecdsa", alice_ecdsa_request);
   ("raw:alice-forged", alice_forged_request)].

Definition toy_verify_message (address : pyval) (sig message : string) : bool :=
  match address with
  | PyStr a => bool_decide (sig = a +:+ "/" +:+ message)
  | _ => false
  end.

#[export] Instance toy : Externals :=
  {| pb2_PaymentRequest_ParseFromString := lookup_table raw_table;
     pb2_PaymentDetails_ParseFromString :=
       fun s => if String.eqb s "details" then Some {| expires := 0 |} else None;
     pb2_X509Certificates_ParseFromString := lookup_table certs_table;
     pb2_SerializeToString := toy_serialize;
     x509_parseBinary := lookup_table der_table;
     PREFIX_RSA_SHA256 := "p256:";
     PREFIX_RSA_SHA384 := "p384:";
     PREFIX_RSA_SHA512 := "p512:";
     hashlib_sha256 := toy_sha256;
     hashlib_sha384 := toy_sha384;
     hashlib_sha512 := toy_sha512;
     bitcoin_verify_message := toy_verify_message |}.

Definition store : TrustStore :=
  {| ca_list := {[ "fp-root" := root_cert ]};
     ca_keyID := {[ "kid-root" := "fp-root" ]} |}.

Definition contacts : Contacts :=
  fun alias =>
    if String.eqb alias "alice@example.org" then
      {[ "validated" := PyBool true; "address" := PyStr "1Alice" ]}
    else if String.eqb alias "mallory@example.org" then
      {[ "validated" := PyBool false; "address" := PyStr "1Mallory" ]}
    else ∅.

(** The request object the constructor builds from [data]. *)
Definition fresh (data : string) : PaymentRequest :=
  default {| raw := data; details := None; error := None;
             requestor := None; tx := None |}
          (PaymentRequest_init data).

Definition start (data : string) : world :=
  {| self := fresh data; calls := [] |}.

End Fixture.


(** ** Further vocabulary for the verification methods *)

(** Trust-anchor resolution (lines 148-158) as a relation between the
    chain as supplied and the chain whose signatures are then checked:
    either the last supplied certificate is in the trust store and the
    chain is kept, or it is not and the root found under its issuer key
    identifier is appended. *)
Inductive anchored (ts : TrustStore) (chain : list X509) : list X509 -> Prop :=
  | anchored_supplied ca :
      last chain = Some ca ->
      is_Some (ca_list ts !! getFingerprint ca) ->
      anchored ts chain chain
  | anchored_recovered ca root :
      last chain = Some ca ->
      ca_list ts !! getFingerprint ca = None ->
      trusted_root_by_keyID ts (get_issuer_keyID ca) root ->
      anchored ts chain (chain ++ [root]).

(** What a computation guarantees about the way it ends: [Q] on falling
    through, [R] on [return]; nothing is said about exceptions. *)
Definition ends_with {A} (R : pyval -> world -> Prop) (Q : A -> world -> Prop)
    (m : M A) : Prop :=
  forall w,
    match m w with
    | (Next a, w') => Q a w'
    | (Return v, w') => R v w'
    | (Raise _, _) => True
    end.

(** A status has been set, the value returned is [None], [False] or
    [True], and [True] comes with one of the two success statuses. *)
Definition status_reported (v : pyval) (w : world) : Prop :=
  (exists msg, error (self w) = Some msg) /\
  (v = PyNone \/ v = PyBool false \/
   (v = PyBool true /\
    (error (self w) = Some "Verified with DNSSEC" \/
     exists cn, error (self w) = Some ("Signed by Trusted CA: " +:+ cn)))).

(** The attributes of the object that [verify] has no business with. *)
Definition same_payload (me : PaymentRequest) (w : world) : Prop :=
  raw (self w) = raw me /\ details (self w) = details me /\ tx (self w) = tx me.

(** The certificate list of [p] decodes and parses to a chain of at least
    two certificates from [leaf] to [ca] that passes the per-certificate
    checks, and [chain'] is the chain it is anchored to. *)
Definition presented_chain `{Ext : Externals} (ts : TrustStore) (p : Envelope)
    (leaf ca : X509) (chain' : list X509) : Prop :=
  exists certificate chain,
    pb2_X509Certificates_ParseFromString (pki_data p) = Some certificate /\
    supplied_chain certificate chain /\
    (2 <= length chain)%nat /\
    chain !! 0%nat = Some leaf /\
    last chain = Some ca /\
    anchored ts chain chain'.

(** A presented chain whose anchored form is signed link by link. *)
Definition accepted_chain `{Ext : Externals} (ts : TrustStore) (p : Envelope)
    (leaf ca : X509) : Prop :=
  exists chain', presented_chain ts p leaf ca chain' /\ chain_signed chain'.

(** ** More sample requests

    The tables of [Fixture] extended with chains that fail in the middle
    (a second certificate without the CA flag, a leaf its successor did
    not sign, a signature algorithm that is not handled), with an
    envelope of no PKI type, a forged certificate-signed envelope and a
    correctly signed alias envelope. *)

Module Samples.

(** A leaf signed with ECDSA; its algorithm identifier is the string
    ['1.2.840.10045.4.3.2'], which has no [getComponentByName]. *)
Definition odd_cert : X509 :=
  {| get_common_name := "odd.example";
     check_date := None; check_ca := false;
     getFingerprint := "fp-odd"; get_issuer_keyID := "kid-root";
     publicKey := Fixture.toy_key "odd";
     get_signature := (ALGO_OTHER None, "ecdsa-sig", "tbs-odd") |}.

Definition more_der : list (string * X509) :=
  (Fixture.der_table ++ [("der-odd", odd_cert)])%list.

Definition more_certs : list (string * list string) :=
  (Fixture.certs_table ++
   [("certs:shop,leaf", ["der-shop"; "der-leaf"]);
    ("certs:leaf,root", ["der-leaf"; "der-root"]);
    ("certs:odd,root", ["der-odd"; "der-root"]);
    ("certs:stale,garbage", ["der-stale"; "not a certificate"])])%list.

Definition untyped_request : Envelope :=
  {| pki_type := "none"; pki_data := "certs:shop,root";
     serialized_payment_details := "details"; signature := "anything" |}.

Definition forged_shop_request : Envelope :=
  {| pki_type := "x509+sha256"; pki_data := "certs:shop,root";
     serialized_payment_details := "details"; signature := "forged" |}.

Definition unflagged_request : Envelope :=
  Fixture.signed_envelope "shop" "x509+sha256" "certs:shop,leaf" "details".
Definition mislinked_request : Envelope :=
  Fixture.signed_envelope "leaf" "x509+sha256" "certs:leaf,root" "details".
Definition odd_request : Envelope :=
  Fixture.signed_envelope "odd" "x509+sha256" "certs:odd,root" "details".
Definition stale_chain_request : Envelope :=
  Fixture.signed_envelope "stale" "x509+sha256" "certs:stale,garbage" "details".
Definition alice_request : Envelope :=
  Fixture.alias_envelope "dnssec+btc" "alice@example.org" "1Alice" "details".

Definition more_raw : list (string * Envelope) :=
  (Fixture.raw_table ++
   [("raw:untyped", untyped_request); ("raw:shop-forged", forged_shop_request);
    ("raw:unflagged", unflagged_request); ("raw:mislinked", mislinked_request);
    ("raw:odd", odd_request); ("raw:stale-chain", stale_chain_request);
    ("raw:alice", alice_request)])%list.

Definition ext : Externals :=
  {| pb2_PaymentRequest_ParseFromString := Fixture.lookup_table more_raw;
     pb2_PaymentDetails_ParseFromString :=
       fun s => if String.eqb s "details" then Some {| expires := 0 |} else None;
     pb2_X509Certificates_ParseFromString := Fixture.lookup_table more_certs;
     pb2_SerializeToString := Fixture.toy_serialize;
     x509_parseBinary := Fixture.lookup_table more_der;
     PREFIX_RSA_SHA256 := "p256:";
     PREFIX_RSA_SHA384 := "p384:";
     PREFIX_RSA_SHA512 := "p512:";
     hashlib_sha256 := Fixture.toy_sha256;
     hashlib_sha384 := Fixture.toy_sha384;
     hashlib_sha512 := Fixture.toy_sha512;
     bitcoin_verify_message := Fixture.toy_verify_message |}.

(** The world in which the request built from [data] is about to be
    verified. *)
Definition start (data : string) : world :=
  {| self := default {| raw := data; details := None; error := None;
                        requestor := None; tx := None |}
                     (PaymentRequest_init (Ext := ext) data);
     calls := [] |}.

End Samples.

(** * The rest of the module

    The constructor with everything [parse] computes, the amount of a
    request, the functions that build and sign requests, the submission of
    a payment, and [InvoiceStore] with its file. *)

(** ** Hexadecimal strings *)

(** [s[:n]] *)
Fixpoint slice_to (n : nat) (s : string) : string :=
  match n, s with
  | O, _ => EmptyString
  | S _, EmptyString => EmptyString
  | S n', String a s' => String a (slice_to n' s')
  end.

(** The digit for a value below 16, lower case as [binascii.hexlify]
    writes it. *)
Definition hex_digit (n : N) : ascii :=
  if (n <? 10)%N then ascii_of_N (48 + n) else ascii_of_N (87 + n).

(** The value of a digit; [unhexlify] takes both cases. *)
Definition hex_value (c : ascii) : option N :=
  let n := N_of_ascii c in
  if ((48 <=? n) && (n <=? 57))%N then Some (n - 48)%N
  else if ((97 <=? n) && (n <=? 102))%N then Some (n - 87)%N
  else if ((65 <=? n) && (n <=? 70))%N then Some (n - 55)%N
  else None.

(** [s.encode('hex')] *)
Fixpoint hex_encode (s : string) : string :=
  match s with
  | EmptyString => EmptyString
  | String a s' =>
      String (hex_digit (N_of_ascii a / 16)%N)
        (String (hex_digit (N_of_ascii a mod 16)%N) (hex_encode s'))
  end.

(** [s.decode('hex')]; [None] is the [TypeError] raised for an odd length
    or a character that is not a digit. *)
Fixpoint hex_decode (s : string) : option string :=
  match s with
  | EmptyString => Some EmptyString
  | String _ EmptyString => None
  | String a (String b s') =>
      match hex_value a, hex_value b, hex_decode s' with
      | Some h, Some l, Some r => Some (String (ascii_of_N (16 * h + l)%N) r)
      | _, _, _ => None
      end
  end.

(** ** Messages *)

(** [pb2.Output] *)
Record Output := {
  amount : Z;
  script : string
}.

(** [pb2.PaymentDetails] with the fields the module reads or writes. *)
Record DetailsMessage := {
  msg_outputs : list Output;
  msg_time : Z;
  msg_expires : Z;
  msg_memo : string;
  msg_payment_url : string;
  msg_merchant_data : string
}.

(** The view of the details that the verification methods use. *)
Definition details_of (m : DetailsMessage) : PaymentDetails :=
  {| expires := msg_expires m |}.

(** [pb2.Payment]; a refund output is given by its script, its amount is
    left unset. *)
Record Payment := {
  pay_merchant_data : string;
  pay_transactions : list string;
  pay_refund_to : list string;
  pay_memo : string
}.

(** A value fits a [uint64] field; the codec raises [ValueError] on
    assignment otherwise. *)
Definition uint64 (z : Z) : bool := (0 <=? z) && (z <? 2 ^ 64).

(** The rest of the protobuf codec. [pb2_PaymentDetails_message] is the
    same [ParseFromString] as [pb2_PaymentDetails_ParseFromString], with
    all the fields. [unset_pki_type] and [unset_pki_data] are what a
    [pb2.PaymentRequest] holds in fields that were never assigned. *)
Class Messages `{Ext : Externals} := {
  pb2_PaymentDetails_message : string -> option DetailsMessage;
  pb2_PaymentDetails_agree : forall s,
    pb2_PaymentDetails_ParseFromString s
    = details_of <$> pb2_PaymentDetails_message s;
  pb2_PaymentDetails_SerializeToString : DetailsMessage -> string;
  pb2_X509Certificates_SerializeToString : list string -> string;
  pb2_Payment_SerializeToString : Payment -> string;
  pb2_PaymentACK_ParseFromString : string -> option string;
  unset_pki_type : string;
  unset_pki_data : string
}.

(** What the module takes from [bitcoin] and [transaction].
    [sign_message k m] is [regenerate_key(k).sign_message(m, is_compressed(k),
    address_from_private_key(k))]; [pay_script a] is
    [Transaction.pay_script('address', a)]. *)
Class Bitcoin := {
  bitcoin_sha256 : string -> string;
  get_address_from_output_script : string -> option (string * string);
  pay_script : string -> string;
  sign_message : string -> string -> string;
  address_from_private_key : string -> string
}.

(** An RSA private key object ([tlslite]'s [Python_RSAKey]). *)
Record RSAPrivateKey := {
  rsa_sign : string -> string
}.

(** ** The constructor, in full *)

(** The attributes [parse] sets once the details are decoded. *)
Record Attributes := {
  outputs : list (string * string * Z);
  memo : string;
  payment_url : string;
  message : DetailsMessage
}.

Section Entity.
Context `{Msg : Messages} `{Btc : Bitcoin}.

(** [self.id], computed from the raw bytes (line 85) and never assigned
    again: [get_id] is a function of [raw]. *)
Definition request_id (r : string) : string :=
  hex_encode (slice_to 16 (bitcoin_sha256 r)).

Definition get_id (me : PaymentRequest) : string := request_id (raw me).

(** The loop of lines 95-97; [None] when [get_address_from_output_script]
    raises. *)
Fixpoint parse_outputs (os : list Output) : option (list (string * string * Z)) :=
  match os with
  | [] => Some []
  | o :: os' =>
      match get_address_from_output_script (script o), parse_outputs os' with
      | Some (_, addr), Some rest => Some (("address", addr, amount o) :: rest)
      | _, _ => None
      end
  end.

(** [PaymentRequest.__init__] with [parse] (lines 75-99): the object and,
    when the envelope decoded, the attributes computed from its details.
    [None] when the constructor raises. *)
Definition PaymentRequest_new (data : string)
    : option (PaymentRequest * option Attributes) :=
  match pb2_PaymentRequest_ParseFromString data with
  | None =>
      Some ({| raw := data; details := None;
               error := Some "cannot parse payment request";
               requestor := None; tx := None |}, None)
  | Some data_ =>
      match pb2_PaymentDetails_message (serialized_payment_details data_) with
      | None => None
      | Some m =>
          match parse_outputs (msg_outputs m) with
          | None => None
          | Some outs =>
              Some ({| raw := data; details := Some (details_of m);
                       error := None; requestor := None; tx := None |},
                    Some {| outputs := outs; memo := msg_memo m;
                            payment_url := msg_payment_url m; message := m |})
          end
      end
  end.

(** [PaymentRequest.get_amount] (lines 232-233) *)
Definition get_amount (a : Attributes) : Z :=
  foldr Z.add 0 (map (fun x => x.2) (outputs a)).

(** [PaymentRequest.get_expiration_date] (lines 229-230) *)
Definition get_expiration_date (a : Attributes) : Z := msg_expires (message a).

End Entity.

(** ** Building and signing requests *)

(** The dictionary [req] with the keys the functions read; [amount],
    [expiration], [signature] and [requestor] may be [None]. *)
Record RequestDict := {
  req_address : string;
  req_timestamp : Z;
  req_amount : option Z;
  req_expiration : option Z;
  req_memo : string;
  req_signature : option string;
  req_requestor : option string
}.

(** [str(x)] for a string or [None] *)
Definition py_str (o : option string) : string := default "None" o.

Section Building.
Context `{Msg : Messages} `{Btc : Bitcoin}.

(** The details [pd] that [make_unsigned_request] fills in (lines
    291-306), for a memo the codec takes as text; [None] when the script
    is not hexadecimal or a number does not fit its [uint64] field. *)
Definition request_details (req : RequestDict) : option DetailsMessage :=
  let addr := req_address req in
  let time := req_timestamp req in
  let amount := default 0 (req_amount req) in
  let expires := req_expiration req in
  let memo := req_memo req in
  match hex_decode (pay_script addr) with
  | None => None
  | Some script =>
      let expires_at :=
        match expires with
        | Some e => if truthy (PyInt e) then time + e else 0
        | None => 0
        end in
      if uint64 amount && uint64 time && uint64 expires_at then
        Some {| msg_outputs := [{| amount := amount; script := script |}];
                msg_time := time;
                msg_expires := expires_at;
                msg_memo := memo;
                msg_payment_url := "";
                msg_merchant_data := "" |}
      else None
  end.

(** [make_unsigned_request] (lines 290-310) *)
Definition make_unsigned_request (req : RequestDict) : option Envelope :=
  match request_details req with
  | None => None
  | Some pd =>
      Some {| pki_type := unset_pki_type;
              pki_data := unset_pki_data;
              serialized_payment_details := pb2_PaymentDetails_SerializeToString pd;
              signature := "" |}
  end.

(** [sign_request_with_alias] (lines 313-321) *)
Definition sign_request_with_alias (pr : Envelope) (alias alias_privkey : string)
    : Envelope :=
  let pr := {| pki_type := "dnssec+btc"; pki_data := alias;
               serialized_payment_details := serialized_payment_details pr;
               signature := signature pr |} in
  let message := pb2_SerializeToString pr in
  {| pki_type := pki_type pr; pki_data := pki_data pr;
     serialized_payment_details := serialized_payment_details pr;
     signature := sign_message alias_privkey message |}.

(** [sign_request_with_x509] from line 331 on, with the key and the
    certificate chain as read from the two files. *)
Definition sign_request_with_x509 (pr : Envelope) (rsakey : RSAPrivateKey)
    (x509List : list string) : Envelope :=
  let pr := {| pki_type := "x509+sha256";
               pki_data := pb2_X509Certificates_SerializeToString x509List;
               serialized_payment_details := serialized_payment_details pr;
               signature := signature pr |} in
  let msgBytes := pb2_SerializeToString pr in
  let hashBytes := hashlib_sha256 msgBytes in
  let sig := rsa_sign rsakey (PREFIX_RSA_SHA256 +:+ hashBytes) in
  {| pki_type := pki_type pr; pki_data := pki_data pr;
     serialized_payment_details := serialized_payment_details pr;
     signature := sig |}.

(** [serialize_request] (lines 342-350) *)
Definition serialize_request (req : RequestDict) : option Envelope :=
  match make_unsigned_request req with
  | None => None
  | Some pr =>
      match req_signature req with
      | Some sig =>
          if truthy (PyStr sig) then
            match hex_decode sig with
            | None => None
            | Some s =>
                Some {| pki_type := "dnssec+btc";
                        pki_data := py_str (req_requestor req);
                        serialized_payment_details := serialized_payment_details pr;
                        signature := s |}
            end
          else Some pr
      | None => Some pr
      end
  end.

End Building.

(** ** Submitting a payment *)

(** How [requests.post] ends. *)
Inductive post_result :=
  | Response (status_code : Z) (reason content : string)
  | SSLError
  | OtherError.

(** [requests.post(url, data, verify)], [verify] being [true] for
    [verify=ca_path] and [false] for [verify=False], and
    [urlparse(u).geturl()]. *)
Class Transport := {
  requests_post : string -> string -> bool -> post_result;
  urlparse_geturl : string -> string
}.

(** How [send_ack] ends. *)
Inductive ack_outcome :=
  | AckReturned (ok : bool) (msg : string)
  | AckRaised.

Section Submitting.
Context `{Msg : Messages} `{Btc : Bitcoin} `{Net : Transport}.

(** Lines 276-286: what is made of the response. *)
Definition read_ack (r : post_result) : ack_outcome :=
  match r with
  | Response status_code reason content =>
      if 500 <=? status_code then AckReturned false reason
      else
        match pb2_PaymentACK_ParseFromString content with
        | None =>
            AckReturned false
              "PaymentACK could not be processed. Payment was sent; please manually verify that payment was received."
        | Some ack_memo => AckReturned true ack_memo
        end
  | _ => AckRaised
  end.

(** [PaymentRequest.send_ack] (lines 250-286) for a request whose details
    [pay_det] were decoded, with the posts it makes: each is the URL and
    whether certificates were verified. *)
Definition send_ack (pay_det : DetailsMessage) (raw_tx refund_addr : string)
    : ack_outcome * list (string * bool) :=
  if negb (truthy (PyStr (msg_payment_url pay_det))) then
    (AckReturned false "no url", [])
  else
    let paymnt := {| pay_merchant_data := msg_merchant_data pay_det;
                     pay_transactions := [raw_tx];
                     pay_refund_to := [pay_script refund_addr];
                     pay_memo := "Paid using Electrum" |} in
    let pm := pb2_Payment_SerializeToString paymnt in
    let payurl := urlparse_geturl (msg_payment_url pay_det) in
    match requests_post payurl pm true with
    | SSLError =>
        match requests_post payurl pm false with
        | Response status_code reason content =>
            (read_ack (Response status_code reason content),
             [(payurl, true); (payurl, false)])
        | _ =>
            (AckReturned false "Payment Message/PaymentACK Failed",
             [(payurl, true); (payurl, false)])
        end
    | OtherError => (AckRaised, [(payurl, true)])
    | Response status_code reason content =>
        (read_ack (Response status_code reason content), [(payurl, true)])
    end.

End Submitting.

(** ** InvoiceStore and its file *)

(** One entry of the saved dictionary; a key that is missing reads as
    [None] through [v.get]. *)
Record SavedInvoice := {
  saved_hex : option string;
  saved_requestor : option string;
  saved_txid : option string
}.

(** What [json.loads] makes of the file's text. *)
Inductive loaded :=
  | NotJson
  | NotAnObject
  | Object (d : gmap string SavedInvoice).

(** [json.dumps] and [json.loads] over the text of the file.
    [json_dumps] is [None] when it raises; [json_blank] is the content of
    a file that has just been opened for writing. *)
Class Json := {
  json_text : Type;
  json_dumps : gmap string SavedInvoice -> option json_text;
  json_loads : json_text -> loaded;
  json_blank : json_text
}.

(** What can go wrong in a store operation. *)
Inductive store_error :=
  | NoSuchKey
  | CannotEncode
  | NotADictionary.

Inductive store_result (A : Type) :=
  | Done (a : A)
  | Failed (e : store_error).
Arguments Done {A} a.
Arguments Failed {A} e.

Section Store.
Context `{Msg : Messages} `{Btc : Bitcoin} `{Js : Json}.

(** The store object and the file [invoices] in the configuration
    directory, [None] when there is no such file. *)
Record shelf := {
  book : InvoiceStore;
  file : option json_text
}.

(** [pr.tx = t; pr.requestor = r] (lines 390-391) *)
Definition restored (pr : PaymentRequest) (t r : option string) : PaymentRequest :=
  {| raw := raw pr; details := details pr; error := error pr;
     requestor := r; tx := t |}.

(** The body of the loop of [load_invoices] (lines 388-394); [None] when
    the entry is skipped. *)
Definition load_entry (v : SavedInvoice) : option PaymentRequest :=
  match saved_hex v with
  | None => None
  | Some h =>
      match hex_decode h with
      | None => None
      | Some data =>
          match PaymentRequest_new data with
          | None => None
          | Some (pr, _) => Some (restored pr (saved_txid v) (saved_requestor v))
          end
      end
  end.

(** [InvoiceStore.__init__] with [load_invoices] (lines 375-394) *)
Definition InvoiceStore_init (f : option json_text) : store_result InvoiceStore :=
  match f with
  | None => Done {| invoices := ∅ |}
  | Some text =>
      match json_loads text with
      | NotJson => Done {| invoices := ∅ |}
      | NotAnObject => Failed NotADictionary
      | Object d => Done {| invoices := omap load_entry d |}
      end
  end.

(** The dictionary [l] of [save] (lines 397-403) *)
Definition saved_entry (pr : PaymentRequest) : SavedInvoice :=
  {| saved_hex := Some (hex_encode (raw pr));
     saved_requestor := Some (get_requestor pr);
     saved_txid := tx pr |}.

(** [InvoiceStore.save] (lines 396-407): the file is opened for writing,
    then the dictionary is encoded and written. *)
Definition save (store : InvoiceStore) : store_result unit * option json_text :=
  match json_dumps (saved_entry <$> invoices store) with
  | Some s => (Done tt, Some s)
  | None => (Failed CannotEncode, Some json_blank)
  end.

(** The store after [save], whatever [save] did to the file. *)
Definition saving {A} (store : InvoiceStore) (a : A) : store_result A * shelf :=
  match save store with
  | (Done _, f) => (Done a, {| book := store; file := f |})
  | (Failed e, f) => (Failed e, {| book := store; file := f |})
  end.

(** [InvoiceStore.add] (lines 417-424) *)
Definition add (sh : shelf) (pr : PaymentRequest) : store_result string * shelf :=
  let key := get_id pr in
  match invoices (book sh) !! key with
  | Some _ => (Done key, sh)
  | None => saving {| invoices := <[key := pr]> (invoices (book sh)) |} key
  end.

(** [InvoiceStore.remove] (lines 426-428) *)
Definition remove (sh : shelf) (key : string) : store_result unit * shelf :=
  match invoices (book sh) !! key with
  | None => (Failed NoSuchKey, sh)
  | Some _ => saving {| invoices := delete key (invoices (book sh)) |} tt
  end.

(** [InvoiceStore.set_paid] (lines 433-435) *)
Definition set_paid (sh : shelf) (key tx_hash : string) : store_result unit * shelf :=
  match invoices (book sh) !! key with
  | None => (Failed NoSuchKey, sh)
  | Some pr =>
      saving {| invoices :=
                  <[key := restored pr (Some tx_hash) (requestor pr)]>
                    (invoices (book sh)) |} tt
  end.

(** [InvoiceStore.sorted_list] (lines 437-439): the values, in no
    particular order. *)
Definition sorted_list (store : InvoiceStore) : list PaymentRequest :=
  (map_to_list (invoices store)).*2.

End Store.

(** ** A sample shop

    A computable stand-in for the libraries used by the rest of the
    module: codecs that read back the sample messages, a toy message
    signature compatible with [Fixture.toy_verify_message], a toy RSA key
    matching [Fixture.toy_key "shop"], and a [json] whose text is the
    dictionary itself. *)

Module Shop.

Definition toy_details_text (m : DetailsMessage) : string :=
  "details(" +:+ msg_memo m +:+ ")".

Definition toy_certs_text (l : list string) : string :=
  "certs:" +:+ foldr (fun b acc => b +:+ "," +:+ acc) "" l.

(** The request dictionary of the sample invoice: 2500 for two coffees,
    valid for an hour. *)
Definition coffee : RequestDict :=
  {| req_address := "1Shop";
     req_timestamp := 1700000000;
     req_amount := Some 2500;
     req_expiration := Some 3600;
     req_memo := "two coffees";
     req_signature := None;
     req_requestor := None |}.

Definition coffee_details : DetailsMessage :=
  {| msg_outputs := [{| amount := 2500; script := "v1Shop" |}];
     msg_time := 1700000000;
     msg_expires := 1700003600;
     msg_memo := "two coffees";
     msg_payment_url := "";
     msg_merchant_data := "" |}.

Definition coffee_unsigned : Envelope :=
  {| pki_type := "none"; pki_data := "";
     serialized_payment_details := toy_details_text coffee_details;
     signature := "" |}.

Definition coffee_by_alice : Envelope :=
  {| pki_type := "dnssec+btc"; pki_data := "alice@example.org";
     serialized_payment_details := toy_details_text coffee_details;
     signature :=
       "1Alice/" +:+
       Fixture.toy_serialize
         {| pki_type := "dnssec+btc"; pki_data := "alice@example.org";
            serialized_payment_details := toy_details_text coffee_details;
            signature := "" |} |}.

Definition details_table : list (string * DetailsMessage) :=
  [(toy_details_text coffee_details, coffee_details)].

Definition raw_table : list (string * Envelope) :=
  [(Fixture.toy_serialize coffee_unsigned, coffee_unsigned);
   (Fixture.toy_serialize coffee_by_alice, coffee_by_alice)].

Definition certs_table : list (string * list string) :=
  [(toy_certs_text ["der-shop"; "der-root"], ["der-shop"; "der-root"])].

Definition ext : Externals :=
  {| pb2_PaymentRequest_ParseFromString := Fixture.lookup_table raw_table;
     pb2_PaymentDetails_ParseFromString :=
       fun s => details_of <$> Fixture.lookup_table details_table s;
     pb2_X509Certificates_ParseFromString := Fixture.lookup_table certs_table;
     pb2_SerializeToString := Fixture.toy_serialize;
     x509_parseBinary := Fixture.lookup_table Fixture.der_table;
     PREFIX_RSA_SHA256 := "p256:";
     PREFIX_RSA_SHA384 := "p384:";
     PREFIX_RSA_SHA512 := "p512:";
     hashlib_sha256 := Fixture.toy_sha256;
     hashlib_sha384 := Fixture.toy_sha384;
     hashlib_sha512 := Fixture.toy_sha512;
     bitcoin_verify_message := Fixture.toy_verify_message |}.

Definition messages : Messages (Ext := ext) :=
  {| pb2_PaymentDetails_message := Fixture.lookup_table details_table;
     pb2_PaymentDetails_agree :=
       fun s => eq_refl (details_of <$> Fixture.lookup_table details_table s);
     pb2_PaymentDetails_SerializeToString := toy_details_text;
     pb2_X509Certificates_SerializeToString := toy_certs_text;
     pb2_Payment_SerializeToString :=
       fun pay => "payment(" +:+ pay_merchant_data pay +:+ ")";
     pb2_PaymentACK_ParseFromString :=
       fun s => if String.eqb s "" then None else Some s;
     unset_pki_type := "none";
     unset_pki_data := "" |}.

(** The script for the address [a] is the hex form of ["v" +:+ a]; the
    address of the key [k] is ["1" +:+ k]; the signature of [m] under [k]
    is the address, a slash, and [m]. *)
Definition bitcoin : Bitcoin :=
  {| bitcoin_sha256 := Fixture.toy_sha256;
     get_address_from_output_script :=
       fun sc => match sc with
                 | String "v" a => Some ("address", a)
                 | _ => None
                 end;
     pay_script := fun a => hex_encode ("v" +:+ a);
     sign_message := fun k m => "1" +:+ k +:+ "/" +:+ m;
     address_from_private_key := fun k => "1" +:+ k |}.

Definition shop_key : RSAPrivateKey :=
  {| rsa_sign := fun m => "shop/" +:+ m |}.

Definition json : Json :=
  {| json_text := gmap string SavedInvoice;
     json_dumps := Some;
     json_loads := Object;
     json_blank := ∅ |}.

(** The invoice for the coffee as the constructor builds it from the
    bytes of [coffee_unsigned], and a store holding it under its id. *)
Definition coffee_bytes : string := Fixture.toy_serialize coffee_unsigned.

Definition coffee_invoice : PaymentRequest :=
  {| raw := coffee_bytes; details := Some (details_of coffee_details);
     error := None; requestor := None; tx := None |}.

Definition coffee_store : InvoiceStore :=
  {| invoices :=
       {[ request_id (Btc := bitcoin) coffee_bytes := coffee_invoice ]} |}.

(** The text [save] writes for that store. *)
Definition coffee_text : gmap string SavedInvoice :=
  saved_entry <$> invoices coffee_store.

End Shop.

Import Fixture.

(** * Properties *)

(** ** Reasoning about method bodies *)

Lemma bind_next {A B} (m : M A) (k : A -> M B) w a w' :
  m w = (Next a, w') -> bind m k w = k a w'.
Proof. intros E. unfold bind. by rewrite E. Qed.

Lemma bind_return {A B} (m : M A) (k : A -> M B) w v w' :
  m w = (Return v, w') -> bind m k w = (Return v, w').
Proof. intros E. unfold bind. by rewrite E. Qed.

Lemma bind_raise {A B} (m : M A) (k : A -> M B) w e w' :
  m w = (Raise e, w') -> bind m k w = (Raise e, w').
Proof. intros E. unfold bind. by rewrite E. Qed.

Lemma for_each_app {A St} (l1 l2 : list A) (body : A -> St -> M St) s w :
  for_each (l1 ++ l2) body s w
  = bind (for_each l1 body s) (for_each l2 body) w.
Proof.
  revert s w. induction l1 as [|a l1 IH]; intros s w; simpl.
  - reflexivity.
  - unfold bind in *. destruct (body a s w) as [[s'|v|e] w']; auto.
Qed.

Lemma range_S (a b : nat) : (a <= b)%nat -> range a (S b) = (range a b ++ [b])%list.
Proof.
  intros Hab. unfold range.
  replace (S b - a)%nat with (S (b - a)) by lia.
  rewrite seq_S. do 2 f_equal. lia.
Qed.

(** ** The two loops of [verify_x509] *)

Section Loops.
Context `{Ext : Externals}.

Lemma with_calls_nil w : with_calls [] w = w.
Proof. destruct w. unfold with_calls. simpl. by rewrite app_nil_r. Qed.

Lemma with_calls_app cs1 cs2 w :
  with_calls cs2 (with_calls cs1 w) = with_calls (cs1 ++ cs2) w.
Proof. unfold with_calls. simpl. by rewrite app_assoc. Qed.

Lemma parse_step_leaf certificate acc w b x :
  certificate !! 0%nat = Some b ->
  x509_parseBinary b = Some x ->
  check_date x = None ->
  parse_step certificate 0 acc w
  = (Next (acc ++ [x])%list,
     with_requestor (requestor_of_common_name (get_common_name x)) w).
Proof.
  intros Hb Hx Hd. unfold parse_step, bind, or_raise, ret.
  rewrite Hb, Hx. simpl. by rewrite Hd.
Qed.

Lemma parse_step_ca certificate i acc w b x :
  (1 <= i)%nat ->
  certificate !! i = Some b ->
  x509_parseBinary b = Some x ->
  check_ca x = true ->
  parse_step certificate i acc w = (Next (acc ++ [x])%list, w).
Proof.
  intros Hi Hb Hx Hc. unfold parse_step, bind, or_raise, ret.
  rewrite Hb, Hx. rewrite bool_decide_false by lia. by rewrite Hc.
Qed.

Lemma parse_loop_tail certificate chain m :
  Forall2 (fun b x => x509_parseBinary b = Some x) certificate chain ->
  (forall i x, (1 <= i)%nat -> chain !! i = Some x -> check_ca x = true) ->
  forall k w, (1 <= k)%nat -> length chain = (k + m)%nat ->
    for_each (seq k m) (parse_step certificate) (take k chain) w
    = (Next chain, w).
Proof.
  intros Hparse Hca. induction m as [|m IH]; intros k w Hk Hlen.
  - simpl. unfold ret. rewrite take_ge by lia. reflexivity.
  - simpl.
    destruct (lookup_lt_is_Some_2 chain k) as [x Hx]; [lia|].
    destruct (Forall2_lookup_r _ _ _ _ _ Hparse Hx) as (b & Hb & Hpb).
    erewrite bind_next; [|by eapply parse_step_ca; eauto].
    rewrite <- (take_S_r _ _ _ Hx). apply IH; lia.
Qed.

Lemma parse_loop certificate chain leaf w :
  supplied_chain certificate chain ->
  chain !! 0%nat = Some leaf ->
  for_each (range 0 (length certificate)) (parse_step certificate) [] w
  = (Next chain,
     with_requestor (requestor_of_common_name (get_common_name leaf)) w).
Proof.
  intros [Hparse Hdate Hca] Hleaf.
  pose proof (Forall2_length _ _ _ Hparse) as Hlen.
  destruct (Forall2_lookup_r _ _ _ _ _ Hparse Hleaf) as (b & Hb & Hpb).
  unfold range. rewrite Nat.sub_0_r.
  destruct (length certificate) as [|n] eqn:Hn.
  { apply lookup_lt_Some in Hb. lia. }
  simpl.
  erewrite bind_next; [|by eapply parse_step_leaf; eauto].
  change ([] ++ [leaf])%list with (take 1 (leaf :: drop 1 chain)).
  replace (leaf :: drop 1 chain) with chain.
  - apply parse_loop_tail; auto; lia.
  - destruct chain as [|c chain]; [done|]. simpl in *. rewrite drop_0. congruence.
Qed.

Lemma signed_by_link_verify prev_x x :
  signed_by prev_x x -> exists c, link_verify prev_x x = inl (c, true).
Proof.
  intros [sig data Hs Hv|sig data Hs Hv|sig data Hs Hv|sig data Hs Hv];
    unfold link_verify; rewrite Hs, Hv; eauto.
Qed.

Lemma badly_signed_by_link_verify prev_x x :
  badly_signed_by prev_x x -> exists c, link_verify prev_x x = inl (c, false).
Proof.
  intros [sig data Hs Hv|sig data Hs Hv|sig data Hs Hv|sig data Hs Hv];
    unfold link_verify; rewrite Hs, Hv; eauto.
Qed.

Lemma link_step_ok chain i v w prev_x x :
  chain !! i = Some x ->
  chain !! (i - 1)%nat = Some prev_x ->
  signed_by prev_x x ->
  exists c, link_step chain i v w = (Next (Some true), with_calls [c] w).
Proof.
  intros Hx Hp Hs. destruct (signed_by_link_verify _ _ Hs) as [c Hc].
  exists c. unfold link_step, bind, or_raise, ret, log.
  rewrite Hx, Hp, Hc. reflexivity.
Qed.

Lemma link_step_bad chain i v w prev_x x :
  chain !! i = Some x ->
  chain !! (i - 1)%nat = Some prev_x ->
  badly_signed_by prev_x x ->
  exists c, link_step chain i v w
    = (Return (PyBool false),
       with_error "Certificate not Signed by Provided CA Certificate Chain"
         (with_calls [c] w)).
Proof.
  intros Hx Hp Hbad. destruct (badly_signed_by_link_verify _ _ Hbad) as [c Hc].
  exists c. unfold link_step, bind, or_raise, ret, log.
  rewrite Hx, Hp, Hc. reflexivity.
Qed.

Lemma link_loop_ok chain m :
  forall k v w, (1 <= k)%nat -> (k + m <= length chain)%nat ->
    (forall i prev_x x, (k <= i < k + m)%nat ->
       chain !! (i - 1)%nat = Some prev_x -> chain !! i = Some x ->
       signed_by prev_x x) ->
    exists cs,
      for_each (seq k m) (link_step chain) v w
      = (Next (if decide (m = 0%nat) then v else Some true), with_calls cs w).
Proof.
  induction m as [|m IH]; intros k v w Hk Hlen Hsigned.
  - exists []. simpl. by rewrite with_calls_nil.
  - destruct (lookup_lt_is_Some_2 chain k) as [x Hx]; [lia|].
    destruct (lookup_lt_is_Some_2 chain (k - 1)) as [p Hp]; [lia|].
    destruct (link_step_ok chain k v w p x Hx Hp) as [c Hc].
    { eapply Hsigned; eauto. lia. }
    destruct (IH (S k) (Some true) (with_calls [c] w)) as [cs Hcs]; [lia|lia| |].
    { intros i prev_x y Hi. apply Hsigned. lia. }
    exists (c :: cs). simpl.
    erewrite bind_next; [|exact Hc].
    rewrite Hcs, with_calls_app. simpl.
    repeat case_decide; try lia; reflexivity.
Qed.

End Loops.

(** ** The phases of [verify_x509] *)

Section Phases.
Context `{Ext : Externals}.
Variable ts : TrustStore.

Lemma requestor_of_common_name_wildcard rest :
  requestor_of_common_name ("*." +:+ rest) = rest.
Proof.
  unfold requestor_of_common_name.
  change ("*." +:+ rest) with (String "*"%char (String "."%char rest)).
  by destruct rest.
Qed.

Lemma requestor_of_common_name_plain cn :
  (forall rest, cn <> "*." +:+ rest) -> requestor_of_common_name cn = cn.
Proof.
  intros Hne. unfold requestor_of_common_name.
  destruct (startswith cn "*.") eqn:Hp; [|done].
  exfalso. destruct cn as [|a [|b rest]]; cbn [startswith] in Hp; try discriminate.
  - by rewrite andb_false_r in Hp.
  - apply andb_prop in Hp as [Ha Hb]. apply andb_prop in Hb as [Hb _].
    apply Ascii.eqb_eq in Ha, Hb. subst. by apply (Hne rest).
Qed.

Lemma envelope_signed_by_verify leaf paymntreq v :
  envelope_signed_by leaf paymntreq ->
  exists c, envelope_verify (publicKey leaf) paymntreq v = (Some c, Some true).
Proof.
  intros [Hty Hv|Hty Hv]; unfold envelope_verify; simpl; rewrite Hty.
  - rewrite bool_decide_true by done. rewrite Hv. eauto.
  - rewrite bool_decide_false by done. rewrite bool_decide_true by done.
    rewrite Hv. eauto.
Qed.

(** With every link and the envelope signed, the second half succeeds and
    names [ca] in the status. *)
Lemma check_signatures_ok paymntreq ca chain leaf w :
  chain !! 0%nat = Some leaf ->
  chain_signed chain ->
  envelope_signed_by leaf paymntreq ->
  exists cs,
    check_signatures paymntreq ca chain w
    = (Return (PyBool true),
       with_error ("Signed by Trusted CA: " +:+ get_common_name ca)
         (with_calls cs w)).
Proof.
  intros Hleaf Hsigned Henv.
  destruct (link_loop_ok chain (length chain - 1) 1 None w) as [cs Hcs];
    [lia| apply lookup_lt_Some in Hleaf; lia | |].
  { intros i prev_x x Hi. apply Hsigned. lia. }
  set (v := if decide ((length chain - 1)%nat = 0%nat) then None else Some true) in *.
  destruct (envelope_signed_by_verify leaf paymntreq v Henv) as [c Hc].
  exists (cs ++ [c])%list.
  unfold check_signatures, range.
  erewrite bind_next; [|exact Hcs].
  unfold or_raise at 1. rewrite Hleaf.
  erewrite bind_next; [|reflexivity].
  fold v. rewrite Hc.
  unfold bind, log, or_raise, ret, set_error, return_. simpl.
  by rewrite with_calls_app.
Qed.

(** The last supplied certificate is itself a trusted root. *)
Lemma resolve_anchor_trusted ca chain w :
  is_Some (ca_list ts !! getFingerprint ca) ->
  resolve_anchor ts ca chain w = (Next chain, w).
Proof.
  intros [r Hr]. unfold resolve_anchor.
  rewrite bool_decide_false by congruence. reflexivity.
Qed.

(** Recovery: the trust store knows the issuer by key identifier. *)
Lemma resolve_anchor_recovered ca chain w f root :
  ca_list ts !! getFingerprint ca = None ->
  ca_keyID ts !! get_issuer_keyID ca = Some f ->
  f <> "" ->
  ca_list ts !! f = Some root ->
  resolve_anchor ts ca chain w = (Next (chain ++ [root])%list, w).
Proof.
  intros Hfp Hk Hf Hr. unfold resolve_anchor.
  rewrite bool_decide_true by done. rewrite Hk.
  rewrite bool_decide_false by done. rewrite Hr. reflexivity.
Qed.

Lemma resolve_anchor_miss ca chain w :
  ca_list ts !! getFingerprint ca = None ->
  (forall f, ca_keyID ts !! get_issuer_keyID ca = Some f -> f = "") ->
  resolve_anchor ts ca chain w
  = (Return (PyBool false),
     with_error "Supplied CA Not Found in Trusted CA Store." w).
Proof.
  intros Hfp Hk. unfold resolve_anchor.
  rewrite bool_decide_true by done.
  destruct (ca_keyID ts !! get_issuer_keyID ca) as [f|]; [|reflexivity].
  rewrite bool_decide_true by auto. reflexivity.
Qed.

(** The first half: with a non-empty trust store and a supplied chain of
    at least two certificates that passes the per-certificate checks,
    [verify_x509] records the requestor and moves on to trust-anchor
    resolution on the last supplied certificate. *)
Lemma verify_x509_front paymntreq certificate chain leaf ca w :
  ca_list ts <> ∅ ->
  pb2_X509Certificates_ParseFromString (pki_data paymntreq) = Some certificate ->
  supplied_chain certificate chain ->
  (2 <= length chain)%nat ->
  chain !! 0%nat = Some leaf ->
  last chain = Some ca ->
  verify_x509 ts paymntreq w
  = bind (resolve_anchor ts ca chain) (check_signatures paymntreq ca)
      (with_requestor (requestor_of_common_name (get_common_name leaf)) w).
Proof.
  intros Hne Hdec Hsup Hlen Hleaf Hlast.
  pose proof (Forall2_length _ _ _ (supplied_parse _ _ Hsup)) as Hl.
  unfold verify_x509. rewrite bool_decide_false by done.
  rewrite Hdec. unfold or_raise at 1.
  erewrite bind_next; [|reflexivity].
  erewrite bind_next; [|by eapply parse_loop; eauto].
  rewrite bool_decide_true by lia. simpl negb. cbv iota.
  rewrite Hl, Nat.sub_1_r, <- last_lookup, Hlast.
  reflexivity.
Qed.

(** When the recovered root did not sign the last supplied certificate,
    the last pass of the chain loop rejects the request. *)
Lemma check_signatures_bad_root paymntreq ca chain root w :
  chain_signed chain ->
  last chain = Some ca ->
  badly_signed_by ca root ->
  exists cs,
    check_signatures paymntreq ca (chain ++ [root]) w
    = (Return (PyBool false),
       with_error "Certificate not Signed by Provided CA Certificate Chain"
         (with_calls cs w)).
Proof.
  intros Hsigned Hlast Hbad.
  assert (1 <= length chain)%nat as Hn.
  { destruct chain; [done|simpl; lia]. }
  rewrite last_lookup in Hlast.
  destruct (link_loop_ok (chain ++ [root]) (length chain - 1) 1 None w)
    as [cs Hcs]; [lia|rewrite length_app; simpl; lia| |].
  { intros i prev_x x Hi Hp Hx. apply (Hsigned i); [lia| |].
    - by rewrite lookup_app_l in Hp by lia.
    - by rewrite lookup_app_l in Hx by lia. }
  destruct (link_step_bad (chain ++ [root]) (length chain)
              (if decide ((length chain - 1)%nat = 0%nat) then None else Some true)
              (with_calls cs w) ca root) as [c Hc]; auto.
  { rewrite lookup_app_r by lia. by rewrite Nat.sub_diag. }
  { rewrite lookup_app_l by lia. by rewrite Nat.sub_1_r. }
  exists (cs ++ [c])%list.
  unfold check_signatures. rewrite length_app. simpl length.
  replace (length chain + 1)%nat with (S (length chain)) by lia.
  rewrite range_S by lia.
  erewrite bind_return; [reflexivity|].
  rewrite for_each_app. unfold range.
  erewrite bind_next; [|exact Hcs].
  simpl. erewrite bind_return; [|exact Hc].
  by rewrite with_calls_app.
Qed.

(** [verify] hands a decodable, signed envelope of a certificate type to
    [verify_x509], and one of an alias type to [verify_dnssec]. *)
Lemma verify_dispatch_x509 contacts w p :
  raw (self w) <> "" ->
  pb2_PaymentRequest_ParseFromString (raw (self w)) = Some p ->
  signature p <> "" ->
  pki_type p ∈ ["x509+sha256"; "x509+sha1"] ->
  verify ts contacts w = verify_x509 ts p w.
Proof.
  intros Hraw Hdec Hsig Hty. unfold verify, get_self.
  erewrite bind_next; [|reflexivity].
  rewrite bool_decide_false by done. rewrite Hdec.
  erewrite bind_next; [|reflexivity].
  rewrite bool_decide_false by done. by rewrite bool_decide_true.
Qed.

Lemma verify_dispatch_dnssec contacts w p :
  raw (self w) <> "" ->
  pb2_PaymentRequest_ParseFromString (raw (self w)) = Some p ->
  signature p <> "" ->
  pki_type p ∈ ["dnssec+btc"; "dnssec+ecdsa"] ->
  verify ts contacts w = verify_dnssec p contacts w.
Proof.
  intros Hraw Hdec Hsig Hty. unfold verify, get_self.
  erewrite bind_next; [|reflexivity].
  rewrite bool_decide_false by done. rewrite Hdec.
  erewrite bind_next; [|reflexivity].
  rewrite bool_decide_false by done.
  rewrite bool_decide_false.
  - by rewrite bool_decide_true.
  - intros Hx. apply list_elem_of_In in Hty, Hx. simpl in Hty, Hx.
    intuition congruence.
Qed.

Lemma ca_list_nonempty fp :
  is_Some (ca_list ts !! fp) -> ca_list ts <> ∅.
Proof. intros [x Hx] He. rewrite He in Hx. by rewrite lookup_empty in Hx. Qed.

End Phases.

(** ** Reading a result backwards *)

Lemma bind_inv {A B} (m : M A) (k : A -> M B) w f w' :
  bind m k w = (f, w') ->
  (exists a w1, m w = (Next a, w1) /\ k a w1 = (f, w')) \/
  (exists v, m w = (Return v, w') /\ f = Return v) \/
  (exists e, m w = (Raise e, w') /\ f = Raise e).
Proof.
  unfold bind. destruct (m w) as [[a|v|e] w1]; intros H.
  - left. eauto.
  - right. left. injection H as <- <-. eauto.
  - right. right. injection H as <- <-. eauto.
Qed.

Lemma bind_inv_next {A B} (m : M A) (k : A -> M B) w b w' :
  bind m k w = (Next b, w') ->
  exists a w1, m w = (Next a, w1) /\ k a w1 = (Next b, w').
Proof.
  intros H. destruct (bind_inv _ _ _ _ _ H) as [?|[(v & _ & ?)|(e & _ & ?)]];
    [done|done|done].
Qed.

Lemma or_raise_inv {A} (o : option A) e w f w' :
  or_raise o e w = (f, w') ->
  (exists a, o = Some a /\ f = Next a /\ w' = w) \/ (o = None /\ f = Raise e /\ w' = w).
Proof.
  destruct o; unfold or_raise, ret, raise; intros [= <- <-]; eauto.
Qed.

Lemma run_true body w w' :
  run body w = (Returned (PyBool true), w') -> body w = (Return (PyBool true), w').
Proof.
  unfold run. destruct (body w) as [[[]|v|e] w1]; intros [= <- <-]; reflexivity.
Qed.

Section Inversion.
Context `{Ext : Externals}.
Variable ts : TrustStore.

Lemma parse_step_inv certificate i acc w acc' w' :
  parse_step certificate i acc w = (Next acc', w') ->
  exists b x,
    certificate !! i = Some b /\ x509_parseBinary b = Some x /\
    acc' = (acc ++ [x])%list /\
    ((i = 0%nat /\ check_date x = None /\
      w' = with_requestor (requestor_of_common_name (get_common_name x)) w) \/
     (i <> 0%nat /\ check_ca x = true /\ w' = w)).
Proof.
  unfold parse_step, bind, or_raise, ret, raise. intros H.
  destruct (certificate !! i) as [b|] eqn:Hb; simpl in H; [|done].
  destruct (x509_parseBinary b) as [x|] eqn:Hx; simpl in H; [|done].
  exists b, x. split; [done|]. split; [done|].
  case_bool_decide as Hi.
  - destruct (check_date x); [done|]. simpl in H. injection H as <- <-. auto.
  - destruct (check_ca x); simpl in H; [|done]. injection H as <- <-. auto.
Qed.

Lemma parse_loop_inv certificate m :
  forall k acc w chain w',
    (1 <= k)%nat ->
    for_each (seq k m) (parse_step certificate) acc w = (Next chain, w') ->
    w' = w /\
    exists xs,
      chain = (acc ++ xs)%list /\ length xs = m /\
      Forall2 (fun b x => x509_parseBinary b = Some x)
        (take m (drop k certificate)) xs /\
      Forall (fun x => check_ca x = true) xs /\
      (k + m <= max k (length certificate))%nat.
Proof.
  induction m as [|m IH]; intros k acc w chain w' Hk H.
  - simpl in H. injection H as <- <-. split; [done|].
    exists []. rewrite app_nil_r. repeat split; auto; try constructor. lia.
  - simpl in H. apply bind_inv_next in H as (acc1 & w1 & Hstep & Hrest).
    apply parse_step_inv in Hstep as (b & x & Hb & Hx & -> & [[? _]|(_ & Hca & ->)]);
      [lia|].
    apply IH in Hrest as (-> & xs & -> & Hlen & Hall & Hcas & Hle); [|lia].
    split; [done|]. exists (x :: xs). rewrite <- app_assoc. simpl.
    repeat split; auto.
    + erewrite drop_S by eassumption. simpl. by constructor.
    + apply lookup_lt_Some in Hb. lia.
Qed.

(** A first loop that runs to its end has parsed every blob, found the
    leaf in date and every other certificate flagged as a CA, and has
    recorded the leaf's name. *)
Lemma parse_loop_complete certificate w chain w' :
  (1 <= length certificate)%nat ->
  for_each (range 0 (length certificate)) (parse_step certificate) [] w
  = (Next chain, w') ->
  supplied_chain certificate chain /\
  exists leaf,
    chain !! 0%nat = Some leaf /\
    w' = with_requestor (requestor_of_common_name (get_common_name leaf)) w.
Proof.
  intros Hlen H. unfold range in H. rewrite Nat.sub_0_r in H.
  destruct certificate as [|b0 rest]; [simpl in Hlen; lia|].
  simpl in H. apply bind_inv_next in H as (acc1 & w1 & Hstep & Hrest).
  apply parse_step_inv in Hstep
    as (b & leaf & Hb & Hleaf & -> & [(_ & Hdate & ->)|[? _]]); [|done].
  simpl in Hb. injection Hb as <-.
  apply parse_loop_inv in Hrest as (-> & xs & -> & Hxs & Hall & Hcas & _); [|lia].
  simpl in Hall. rewrite drop_0, <- Hxs in Hall.
  rewrite take_ge in Hall by (apply Forall2_length in Hall; lia).
  split; [|by exists leaf].
  split.
  - simpl. by constructor.
  - intros l [= <-]. done.
  - intros [|i] x Hi Hx; [lia|]. simpl in Hx.
    rewrite Forall_lookup in Hcas. eauto.
Qed.

Lemma link_verify_signed prev_x x c :
  link_verify prev_x x = inl (c, true) -> signed_by prev_x x.
Proof.
  unfold link_verify. destruct (get_signature prev_x) as [[algo sig] data] eqn:Hs.
  destruct algo; intros [= _ Hv]; eauto using signed_by.
Qed.

Lemma link_step_inv chain i v w v' w' :
  link_step chain i v w = (Next v', w') ->
  exists prev_x x c,
    chain !! i = Some x /\ chain !! (i - 1)%nat = Some prev_x /\
    signed_by prev_x x /\ v' = Some true /\ w' = with_calls [c] w.
Proof.
  unfold link_step, bind, or_raise, ret, raise. intros H.
  destruct (chain !! i) as [x|] eqn:Hx; simpl in H; [|done].
  destruct (chain !! (i - 1)%nat) as [prev_x|] eqn:Hp; simpl in H; [|done].
  destruct (link_verify prev_x x) as [[c b]|[algorithm|]] eqn:Hv;
    simpl in H; [|done|done].
  destruct b; simpl in H; [|done]. injection H as <- <-.
  exists prev_x, x, c. split_and!; eauto using link_verify_signed.
Qed.

Lemma link_loop_inv chain m :
  forall k v w v' w',
    for_each (seq k m) (link_step chain) v w = (Next v', w') ->
    (forall i prev_x x, (k <= i < k + m)%nat ->
       chain !! (i - 1)%nat = Some prev_x -> chain !! i = Some x ->
       signed_by prev_x x) /\
    (exists cs, w' = with_calls cs w) /\
    v' = (if decide (m = 0%nat) then v else Some true) /\
    (k + m <= max k (length chain))%nat.
Proof.
  induction m as [|m IH]; intros k v w v' w' H.
  - simpl in H. injection H as <- <-. repeat split; try lia.
    exists []. by rewrite with_calls_nil.
  - simpl in H. apply bind_inv_next in H as (v1 & w1 & Hstep & Hrest).
    apply link_step_inv in Hstep as (p & x & c & Hx & Hp & Hs & -> & ->).
    apply IH in Hrest as (Hall & [cs ->] & -> & Hle).
    repeat split.
    + intros i p' x' Hi Hp' Hx'.
      destruct (decide (i = k)) as [->|Hne].
      * congruence.
      * apply (Hall i); auto. lia.
    + exists (c :: cs). by rewrite with_calls_app.
    + by repeat case_decide.
    + apply lookup_lt_Some in Hx. lia.
Qed.

Lemma resolve_anchor_inv ca chain w chain' w' :
  last chain = Some ca ->
  resolve_anchor ts ca chain w = (Next chain', w') ->
  w' = w /\ anchored ts chain chain'.
Proof.
  intros Hlast. unfold resolve_anchor.
  case_bool_decide as Hfp.
  - destruct (ca_keyID ts !! get_issuer_keyID ca) as [f|] eqn:Hk; [|done].
    case_bool_decide; [done|].
    destruct (ca_list ts !! f) as [root|] eqn:Hr; [|done].
    intros [= <- <-]. split; [done|].
    eapply anchored_recovered; eauto. by exists f.
  - intros [= <- <-]. split; [done|].
    eapply anchored_supplied; eauto.
    destruct (ca_list ts !! getFingerprint ca); [by eexists|done].
Qed.

Lemma envelope_verify_signed leaf p v c :
  pki_type p ∈ ["x509+sha256"; "x509+sha1"] ->
  envelope_verify (publicKey leaf) p v = (c, Some true) ->
  envelope_signed_by leaf p.
Proof.
  intros Hty. unfold envelope_verify. simpl.
  case_bool_decide as H256.
  - intros [= _ Hv]. by apply envelope_sha256.
  - case_bool_decide as H1.
    + intros [= _ Hv]. by apply envelope_sha1.
    + apply list_elem_of_In in Hty. simpl in Hty. intuition congruence.
Qed.

Lemma link_loop_no_true chain m :
  forall k v w w',
    for_each (seq k m) (link_step chain) v w <> (Return (PyBool true), w').
Proof.
  induction m as [|m IH]; intros k v w w' H; [done|].
  simpl in H.
  apply bind_inv in H as [(a & w2 & _ & Hr)|[(v' & Hs & [= <-])|(e & _ & ?)]];
    [by eapply IH| |done].
  unfold link_step, bind, or_raise, ret, raise in Hs.
  destruct (chain !! k) as [x|]; simpl in Hs; [|done].
  destruct (chain !! (k - 1)%nat) as [px|]; simpl in Hs; [|done].
  destruct (link_verify px x) as [[c [|]]|[algorithm|]]; simpl in Hs; done.
Qed.

Lemma check_signatures_inv p ca chain w w' :
  check_signatures p ca chain w = (Return (PyBool true), w') ->
  chain_signed chain /\
  (exists leaf,
     chain !! 0%nat = Some leaf /\
     (pki_type p ∈ ["x509+sha256"; "x509+sha1"] -> envelope_signed_by leaf p)) /\
  exists cs,
    w' = with_error ("Signed by Trusted CA: " +:+ get_common_name ca)
           (with_calls cs w).
Proof.
  unfold check_signatures, range. intros H.
  apply bind_inv in H as [(v & w1 & Hloop & H)|[(v & Hloop & [= <-])|(e & _ & ?)]];
    [| |done].
  2:{ by apply link_loop_no_true in Hloop. }
  apply link_loop_inv in Hloop as (Hall & [cs ->] & -> & _).
  destruct (chain !! 0%nat) as [leaf|] eqn:Hleaf; [|done].
  unfold or_raise at 1 in H. erewrite bind_next in H; [|reflexivity].
  destruct (envelope_verify (publicKey leaf) p _) as [c ov] eqn:Henv.
  apply bind_inv in H as [([] & w2 & Hlog & H)|[(v & Hlog & _)|(e & Hlog & _)]];
    [|by destruct c|by destruct c].
  destruct ov as [b|]; [|done].
  unfold or_raise at 1 in H. erewrite bind_next in H; [|reflexivity].
  destruct b; simpl in H; [|done].
  unfold bind, set_error, return_ in H. injection H as <-.
  split; [|split].
  - intros i px x Hi Hp Hx. apply (Hall i); auto.
    apply lookup_lt_Some in Hx. lia.
  - exists leaf. split; [done|]. intros Hty. eapply envelope_verify_signed; eauto.
  - destruct c as [c|]; unfold log, ret in Hlog; injection Hlog as <-.
    + exists (cs ++ [c])%list. by rewrite with_calls_app.
    + by exists cs.
Qed.

End Inversion.

(** ** What an acceptance by [verify_x509] stands for *)

Section Soundness.
Context `{Ext : Externals}.
Variable ts : TrustStore.

Lemma parse_loop_no_true certificate l :
  forall acc w w',
    for_each l (parse_step certificate) acc w <> (Return (PyBool true), w').
Proof.
  induction l as [|i l IH]; intros acc w w' H; [done|].
  simpl in H.
  apply bind_inv in H as [(a & w2 & _ & Hr)|[(v' & Hs & [= <-])|(e & _ & ?)]];
    [by eapply IH| |done].
  unfold parse_step, bind, or_raise, ret, raise in Hs.
  destruct (certificate !! i) as [b|]; simpl in Hs; [|done].
  destruct (x509_parseBinary b) as [x|]; simpl in Hs; [|done].
  case_bool_decide.
  - destruct (check_date x); simpl in Hs; done.
  - destruct (check_ca x); simpl in Hs; done.
Qed.

Lemma resolve_anchor_no_true ca chain w w' :
  resolve_anchor ts ca chain w <> (Return (PyBool true), w').
Proof.
  unfold resolve_anchor. case_bool_decide; [|done].
  destruct (ca_keyID ts !! get_issuer_keyID ca) as [f|]; [|done].
  case_bool_decide; [done|]. by destruct (ca_list ts !! f).
Qed.

(** What a [True] from [verify_x509] stands for. *)
Lemma verify_x509_true_inv p w w' :
  verify_x509 ts p w = (Return (PyBool true), w') ->
  exists certificate chain chain' leaf ca,
    pb2_X509Certificates_ParseFromString (pki_data p) = Some certificate /\
    supplied_chain certificate chain /\
    (2 <= length chain)%nat /\
    chain !! 0%nat = Some leaf /\
    last chain = Some ca /\
    anchored ts chain chain' /\
    chain_signed chain' /\
    (pki_type p ∈ ["x509+sha256"; "x509+sha1"] -> envelope_signed_by leaf p) /\
    requestor (self w') = Some (requestor_of_common_name (get_common_name leaf)) /\
    error (self w') = Some ("Signed by Trusted CA: " +:+ get_common_name ca).
Proof.
  unfold verify_x509. case_bool_decide as Hne; [done|].
  destruct (pb2_X509Certificates_ParseFromString (pki_data p))
    as [certificate|] eqn:Hdec; [|done].
  unfold or_raise at 1. intros H. erewrite bind_next in H; [|reflexivity].
  apply bind_inv in H as [(chain & w1 & Hloop & H)|[(v & Hloop & [= <-])|(e & _ & ?)]];
    [|by apply parse_loop_no_true in Hloop|done].
  case_bool_decide as Hnum; simpl in H; [|done].
  apply parse_loop_complete in Hloop as (Hsup & leaf & Hleaf & ->); [|lia].
  pose proof (Forall2_length _ _ _ (supplied_parse _ _ Hsup)) as Hlen.
  rewrite Hlen, Nat.sub_1_r, <- last_lookup in H.
  destruct (last chain) as [ca|] eqn:Hlast; [|done].
  unfold or_raise at 1 in H. erewrite bind_next in H; [|reflexivity].
  apply bind_inv in H as [(chain' & w2 & Hanch & H)|[(v & Hanch & [= <-])|(e & _ & ?)]];
    [|by apply resolve_anchor_no_true in Hanch|done].
  apply resolve_anchor_inv in Hanch as (-> & Hanch); [|done].
  apply check_signatures_inv in H as (Hsigned & (leaf' & Hleaf' & Henv) & cs & ->).
  assert (leaf' = leaf) as ->.
  { destruct Hanch; [congruence|].
    rewrite lookup_app_l in Hleaf' by lia. congruence. }
  exists certificate, chain, chain', leaf, ca.
  split_and!; auto. lia.
Qed.

End Soundness.

(** ** Certificate-chain verification *)

(** C1. For every two-certificate chain whose blobs parse, whose leaf is
    within its validity window, whose second certificate carries the CA
    flag and has its fingerprint in the trust store, whose leaf is signed
    by that root and whose envelope is signed by the leaf, [verify_x509]
    (and [verify], which dispatches to it) returns [True], and the
    requestor is the leaf's common name without a leading ["*."]. *)
Theorem verify_x509_accepts_two_certificate_chain `{Ext : Externals}
    (ts : TrustStore) (contacts : Contacts) (w : world) (paymntreq : Envelope)
    (b0 b1 : string) (leaf root : X509) :
  pb2_X509Certificates_ParseFromString (pki_data paymntreq) = Some [b0; b1] ->
  x509_parseBinary b0 = Some leaf ->
  x509_parseBinary b1 = Some root ->
  check_date leaf = None ->
  check_ca root = true ->
  is_Some (ca_list ts !! getFingerprint root) ->
  signed_by leaf root ->
  envelope_signed_by leaf paymntreq ->
  exists w',
    run (verify_x509 ts paymntreq) w = (Returned (PyBool true), w') /\
    (raw (self w) <> "" ->
     pb2_PaymentRequest_ParseFromString (raw (self w)) = Some paymntreq ->
     signature paymntreq <> "" ->
     run (verify ts contacts) w = (Returned (PyBool true), w')) /\
    (forall rest, get_common_name leaf = "*." +:+ rest ->
       requestor (self w') = Some rest) /\
    ((forall rest, get_common_name leaf <> "*." +:+ rest) ->
       requestor (self w') = Some (get_common_name leaf)).
Proof.
  intros Hdec Hb0 Hb1 Hdate Hca Htrust Hlink Henv.
  assert (supplied_chain [b0; b1] [leaf; root]) as Hsup.
  { split.
    - repeat constructor; assumption.
    - intros l [= <-]. assumption.
    - intros [|[|i]] x Hi Hx; simpl in Hx; try lia; [|done].
      by injection Hx as <-. }
  assert (chain_signed [leaf; root]) as Hsigned.
  { intros [|[|i]] p x Hi Hp Hx; simpl in Hp, Hx; try lia; [|done].
    injection Hp as <-. by injection Hx as <-. }
  assert (2 <= length [leaf; root])%nat as Hlen by (simpl; lia).
  pose proof (verify_x509_front ts paymntreq [b0; b1] [leaf; root] leaf root w
                (ca_list_nonempty ts _ Htrust) Hdec Hsup Hlen eq_refl eq_refl)
    as Hfront.
  rewrite (bind_next _ _ _ [leaf; root] _
             (resolve_anchor_trusted ts root _ _ Htrust)) in Hfront.
  set (w1 := with_requestor _ w) in Hfront.
  destruct (check_signatures_ok paymntreq root [leaf; root] leaf w1)
    as [cs Hcs]; [done|done|done|].
  eexists. split; [|split; [|split]].
  - unfold run. rewrite Hfront, Hcs. reflexivity.
  - intros Hraw Hp Hsig. unfold run.
    rewrite (verify_dispatch_x509 ts contacts w paymntreq), Hfront, Hcs; auto.
    destruct Henv as [-> _| -> _]; [by left|right; by left].
  - intros rest Hcn. simpl. rewrite Hcn.
    by rewrite requestor_of_common_name_wildcard.
  - intros Hcn. simpl. by rewrite requestor_of_common_name_plain.
Qed.

(** C2. When the last supplied certificate is not in the trust store: if
    the store holds a root under that certificate's issuer key identifier,
    the root is appended and verification continues on the extended
    chain. It succeeds when every link of the extended chain and the
    envelope verify; it succeeds only if the recovered root's key
    verifies the signature on the last supplied certificate, along with
    every other link; and when the RSA primitive refuses that signature
    under the recovered root's key, the chain loop fails the request with
    the not-signed status. If the store holds nothing under the
    identifier (no entry, or an empty fingerprint), verification fails
    with the untrusted-CA status. *)
Theorem verify_x509_trust_anchor_recovery `{Ext : Externals}
    (ts : TrustStore) (w : world) (paymntreq : Envelope)
    (certificate : list string) (chain : list X509) (leaf ca : X509) :
  ca_list ts <> ∅ ->
  pb2_X509Certificates_ParseFromString (pki_data paymntreq) = Some certificate ->
  supplied_chain certificate chain ->
  (2 <= length chain)%nat ->
  chain !! 0%nat = Some leaf ->
  last chain = Some ca ->
  ca_list ts !! getFingerprint ca = None ->
  let w1 := with_requestor (requestor_of_common_name (get_common_name leaf)) w in
  (forall root, trusted_root_by_keyID ts (get_issuer_keyID ca) root ->
     verify_x509 ts paymntreq w
     = check_signatures paymntreq ca (chain ++ [root]) w1 /\
     (chain_signed (chain ++ [root]) -> envelope_signed_by leaf paymntreq ->
      exists w', run (verify_x509 ts paymntreq) w = (Returned (PyBool true), w')) /\
     (forall w',
        run (verify_x509 ts paymntreq) w = (Returned (PyBool true), w') ->
        signed_by ca root /\ chain_signed (chain ++ [root])) /\
     (chain_signed chain -> badly_signed_by ca root ->
      exists cs,
        run (verify_x509 ts paymntreq) w
        = (Returned (PyBool false),
           with_error "Certificate not Signed by Provided CA Certificate Chain"
             (with_calls cs w1))))
  /\
  ((forall f, ca_keyID ts !! get_issuer_keyID ca = Some f -> f = "") ->
   run (verify_x509 ts paymntreq) w
   = (Returned (PyBool false),
      with_error "Supplied CA Not Found in Trusted CA Store." w1)).
Proof.
  intros Hne Hdec Hsup Hlen Hleaf Hlast Hfp w1.
  pose proof (verify_x509_front ts paymntreq certificate chain leaf ca w
                Hne Hdec Hsup Hlen Hleaf Hlast) as Hfront.
  fold w1 in Hfront. split.
  - intros root (f & Hk & Hf & Hroot).
    rewrite (bind_next _ _ _ (chain ++ [root])%list _
               (resolve_anchor_recovered ts ca _ _ f root Hfp Hk Hf Hroot))
      in Hfront.
    split; [exact Hfront|split; [|split]].
    + intros Hsigned Henv.
      destruct (check_signatures_ok paymntreq ca (chain ++ [root]) leaf w1)
        as [cs Hcs]; auto.
      { rewrite lookup_app_l; [done|lia]. }
      eexists. unfold run. rewrite Hfront, Hcs. reflexivity.
    + intros w' Hrun. apply run_true in Hrun. rewrite Hfront in Hrun.
      apply check_signatures_inv in Hrun as (Hsigned & _ & _).
      split; [|done].
      apply (Hsigned (length chain)); [lia| |].
      * rewrite lookup_app_l by lia. by rewrite Nat.sub_1_r, <- last_lookup.
      * rewrite lookup_app_r by lia. by rewrite Nat.sub_diag.
    + intros Hsigned Hbad.
      destruct (check_signatures_bad_root paymntreq ca chain root w1)
        as [cs Hcs]; auto.
      exists cs. unfold run. rewrite Hfront, Hcs. reflexivity.
  - intros Hk.
    rewrite (bind_return _ _ _ _ _ (resolve_anchor_miss ts ca _ _ Hfp Hk))
      in Hfront.
    unfold run. rewrite Hfront. reflexivity.
Qed.

(** C5. On every fully successful run of [verify_x509] the status is
    ["Signed by Trusted CA: "] followed by the common name of [ca], the
    last certificate of the chain as supplied. That is the trusted root
    when the supplied chain ends in one; after trust-anchor recovery it is
    the certificate below the recovered root, not the root itself. *)
Theorem verify_x509_success_status `{Ext : Externals}
    (ts : TrustStore) (w : world) (paymntreq : Envelope)
    (certificate : list string) (chain : list X509) (leaf ca : X509) :
  pb2_X509Certificates_ParseFromString (pki_data paymntreq) = Some certificate ->
  supplied_chain certificate chain ->
  (2 <= length chain)%nat ->
  chain !! 0%nat = Some leaf ->
  last chain = Some ca ->
  envelope_signed_by leaf paymntreq ->
  (is_Some (ca_list ts !! getFingerprint ca) -> chain_signed chain ->
   exists w',
     run (verify_x509 ts paymntreq) w = (Returned (PyBool true), w') /\
     error (self w') = Some ("Signed by Trusted CA: " +:+ get_common_name ca))
  /\
  (forall root,
     ca_list ts !! getFingerprint ca = None ->
     trusted_root_by_keyID ts (get_issuer_keyID ca) root ->
     chain_signed (chain ++ [root]) ->
     exists w',
       run (verify_x509 ts paymntreq) w = (Returned (PyBool true), w') /\
       error (self w') = Some ("Signed by Trusted CA: " +:+ get_common_name ca)).
Proof.
  intros Hdec Hsup Hlen Hleaf Hlast Henv. split.
  - intros Htrust Hsigned.
    pose proof (verify_x509_front ts paymntreq certificate chain leaf ca w
                  (ca_list_nonempty ts _ Htrust) Hdec Hsup Hlen Hleaf Hlast)
      as Hfront.
    rewrite (bind_next _ _ _ chain _
               (resolve_anchor_trusted ts ca _ _ Htrust)) in Hfront.
    destruct (check_signatures_ok paymntreq ca chain leaf
                (with_requestor (requestor_of_common_name (get_common_name leaf)) w))
      as [cs Hcs]; auto.
    eexists. unfold run. rewrite Hfront, Hcs. split; reflexivity.
  - intros root Hfp (f & Hk & Hf & Hroot) Hsigned.
    assert (ca_list ts <> ∅) as Hne.
    { apply (ca_list_nonempty ts f). eauto. }
    pose proof (verify_x509_front ts paymntreq certificate chain leaf ca w
                  Hne Hdec Hsup Hlen Hleaf Hlast) as Hfront.
    rewrite (bind_next _ _ _ (chain ++ [root])%list _
               (resolve_anchor_recovered ts ca _ _ f root Hfp Hk Hf Hroot))
      in Hfront.
    destruct (check_signatures_ok paymntreq ca (chain ++ [root]) leaf
                (with_requestor (requestor_of_common_name (get_common_name leaf)) w))
      as [cs Hcs]; auto.
    { rewrite lookup_app_l; [done|lia]. }
    eexists. unfold run. rewrite Hfront, Hcs. split; reflexivity.
Qed.

(** The shop's request: a leaf for [*.shop.example] signed by the trusted
    root, both supplied. *)
Lemma verify_x509_accepts_two_certificate_chain_witness :
  exists w',
    run (verify_x509 store shop_request) (start "raw:shop")
    = (Returned (PyBool true), w') /\
    run (verify store contacts) (start "raw:shop")
    = (Returned (PyBool true), w') /\
    requestor (self w') = Some "shop.example".
Proof.
  destruct (verify_x509_accepts_two_certificate_chain store contacts
              (start "raw:shop") shop_request "der-shop" "der-root"
              shop_cert root_cert)
    as (w' & Hx & Hv & Hr & _).
  - reflexivity.
  - reflexivity.
  - reflexivity.
  - reflexivity.
  - reflexivity.
  - exists root_cert. reflexivity.
  - eapply signed_sha256; reflexivity.
  - apply envelope_sha256; reflexivity.
  - exists w'. split; [exact Hx|split].
    + apply Hv; [discriminate|reflexivity|discriminate].
    + apply (Hr "shop.example"). reflexivity.
Defined.

Lemma leaf_inter_supplied : supplied_chain ["der-leaf"; "der-inter"] [leaf_cert; inter_cert].
Proof.
  split.
  - repeat constructor.
  - intros l [= <-]. reflexivity.
  - intros [|[|i]] x Hi Hx; simpl in Hx; try lia; [|done].
    by injection Hx as <-.
Defined.

Lemma leaf_inter_root_signed : chain_signed ([leaf_cert; inter_cert] ++ [root_cert]).
Proof.
  intros [|[|[|i]]] p x Hi Hp Hx; simpl in Hp, Hx; try lia; try done.
  - injection Hp as <-. injection Hx as <-. eapply signed_sha256; reflexivity.
  - injection Hp as <-. injection Hx as <-. eapply signed_sha1; reflexivity.
Defined.

Lemma store_nonempty : ca_list store <> ∅.
Proof. apply (ca_list_nonempty store "fp-root"). by exists root_cert. Qed.

Lemma root_by_keyID : trusted_root_by_keyID store (get_issuer_keyID inter_cert) root_cert.
Proof. exists "fp-root". split; [reflexivity|split; [discriminate|reflexivity]]. Defined.

(** The merchant's request supplies the leaf and the issuing CA only; the
    root is recovered from the trust store by key identifier, and the
    acceptance vouches for the root's signature on the issuing CA. *)
Lemma verify_x509_trust_anchor_recovery_witness :
  (exists w',
     run (verify_x509 store leaf_request) (start "raw:leaf")
     = (Returned (PyBool true), w')) /\
  signed_by inter_cert root_cert.
Proof.
  destruct (verify_x509_trust_anchor_recovery store (start "raw:leaf")
              leaf_request ["der-leaf"; "der-inter"] [leaf_cert; inter_cert]
              leaf_cert inter_cert) as [Hhit _].
  - exact store_nonempty.
  - reflexivity.
  - exact leaf_inter_supplied.
  - simpl. lia.
  - reflexivity.
  - reflexivity.
  - reflexivity.
  - destruct (Hhit root_cert root_by_keyID) as (_ & Hok & Honly & _).
    destruct Hok as [w' Hrun].
    + exact leaf_inter_root_signed.
    + apply envelope_sha256; reflexivity.
    + split; [by exists w'|]. apply (Honly w' Hrun).
Defined.

(** On the merchant's request the status names the issuing CA, which is
    not in the trust store, and not the recovered root. *)
Lemma verify_x509_success_status_witness :
  exists w',
    run (verify_x509 store leaf_request) (start "raw:leaf")
    = (Returned (PyBool true), w') /\
    error (self w') = Some "Signed by Trusted CA: Example Issuing CA" /\
    ca_list store !! getFingerprint inter_cert = None /\
    get_common_name root_cert = "Example Root CA".
Proof.
  destruct (verify_x509_success_status store (start "raw:leaf")
              leaf_request ["der-leaf"; "der-inter"] [leaf_cert; inter_cert]
              leaf_cert inter_cert) as [_ Hrec].
  - reflexivity.
  - exact leaf_inter_supplied.
  - simpl. lia.
  - reflexivity.
  - reflexivity.
  - apply envelope_sha256; reflexivity.
  - destruct (Hrec root_cert) as (w' & Hrun & Herr).
    + reflexivity.
    + exact root_by_keyID.
    + exact leaf_inter_root_signed.
    + exists w'. repeat split; [exact Hrun|exact Herr].
Defined.

(** ** What [verify] does to the requestor *)

Section Requestor.
Context `{Ext : Externals}.
Variable ts : TrustStore.
Variables r0 c : option string.

Lemma preserves_bind {A B} (P : world -> Prop) (m : M A) (k : A -> M B) :
  preserves P m -> (forall a, preserves P (k a)) -> preserves P (bind m k).
Proof.
  intros Hm Hk w Hw. unfold bind. specialize (Hm w Hw).
  destruct (m w) as [[a|v|e] w']; simpl in *; auto. by apply Hk.
Qed.

Lemma preserves_for_each {A St} (P : world -> Prop) (l : list A)
    (body : A -> St -> M St) :
  (forall a s, preserves P (body a s)) ->
  forall s, preserves P (for_each l body s).
Proof.
  intros Hbody. induction l as [|a l IH]; intros s; simpl.
  - by intros w Hw.
  - apply preserves_bind; auto.
Qed.

Lemma preserves_pure {A} (P : world -> Prop) (f : flow A) :
  preserves P (fun w => (f, w)).
Proof. by intros w Hw. Qed.

Lemma preserves_or_raise {A} (P : world -> Prop) (o : option A) e :
  preserves P (or_raise o e).
Proof. destruct o; apply preserves_pure. Qed.

Lemma preserves_bind_ret {A B} (P : world -> Prop) (a : A) (k : A -> M B) :
  preserves P (k a) -> preserves P (bind (ret a) k).
Proof. intros Hk w Hw. by apply Hk. Qed.

Lemma preserves_set_error msg : preserves (stays_or_claims r0 c) (set_error msg).
Proof. by intros w Hw. Qed.

Lemma preserves_log cl : preserves (stays_or_claims r0 c) (log cl).
Proof. by intros w Hw. Qed.

Lemma preserves_fail {A} msg v :
  preserves (stays_or_claims r0 c) (set_error msg ;;; @return_ A v).
Proof.
  apply preserves_bind; [apply preserves_set_error|intros; apply preserves_pure].
Qed.

Lemma preserves_set_requestor s :
  c = Some s -> preserves (stays_or_claims r0 c) (set_requestor s).
Proof. intros -> w Hw. right. split; [by eexists|done]. Qed.

Lemma preserves_parse_step certificate i chain :
  (forall b x, certificate !! 0%nat = Some b -> x509_parseBinary b = Some x ->
     c = Some (requestor_of_common_name (get_common_name x))) ->
  preserves (stays_or_claims r0 c) (parse_step certificate i chain).
Proof.
  intros Hc. unfold parse_step.
  destruct (certificate !! i) as [b|] eqn:Hb; [|apply preserves_pure].
  apply preserves_bind_ret.
  destruct (x509_parseBinary b) as [x|] eqn:Hx; [|apply preserves_pure].
  apply preserves_bind_ret.
  apply preserves_bind; [|intros; apply preserves_pure].
  case_bool_decide as Hi.
  - subst i. destruct (check_date x).
    + apply preserves_fail.
    + apply preserves_set_requestor. eauto.
  - destruct (check_ca x); simpl; [apply preserves_pure|apply preserves_fail].
Qed.

Lemma preserves_link_step chain i v :
  preserves (stays_or_claims r0 c) (link_step chain i v).
Proof.
  unfold link_step.
  apply preserves_bind; [apply preserves_or_raise|intros x].
  apply preserves_bind; [apply preserves_or_raise|intros prev_x].
  destruct (link_verify prev_x x) as [[cl b]|algorithm].
  - apply preserves_bind; [apply preserves_log|intros _].
    destruct b; simpl; [apply preserves_pure|apply preserves_fail].
  - apply preserves_bind; [apply preserves_set_error|intros _].
    apply preserves_bind; [apply preserves_or_raise|intros; apply preserves_pure].
Qed.

Lemma preserves_resolve_anchor ca chain :
  preserves (stays_or_claims r0 c) (resolve_anchor ts ca chain).
Proof.
  unfold resolve_anchor. case_bool_decide; [|apply preserves_pure].
  destruct (ca_keyID ts !! get_issuer_keyID ca) as [f|]; [|apply preserves_fail].
  case_bool_decide; [apply preserves_fail|].
  apply preserves_bind; [apply preserves_or_raise|intros; apply preserves_pure].
Qed.

Lemma preserves_check_signatures p ca chain :
  preserves (stays_or_claims r0 c) (check_signatures p ca chain).
Proof.
  unfold check_signatures.
  apply preserves_bind.
  { apply preserves_for_each. intros. apply preserves_link_step. }
  intros v. apply preserves_bind; [apply preserves_or_raise|intros x0].
  destruct (envelope_verify (publicKey x0) p v) as [cl v'].
  apply preserves_bind.
  { destruct cl; [apply preserves_log|apply preserves_pure]. }
  intros _. apply preserves_bind; [apply preserves_or_raise|intros b].
  destruct b; simpl; apply preserves_fail.
Qed.

Lemma preserves_verify_x509 p :
  (forall b rest x,
     pb2_X509Certificates_ParseFromString (pki_data p) = Some (b :: rest) ->
     x509_parseBinary b = Some x ->
     c = Some (requestor_of_common_name (get_common_name x))) ->
  preserves (stays_or_claims r0 c) (verify_x509 ts p).
Proof.
  intros Hc. unfold verify_x509.
  case_bool_decide; [apply preserves_fail|].
  destruct (pb2_X509Certificates_ParseFromString (pki_data p))
    as [certificate|] eqn:Hdec; [|apply preserves_pure].
  apply preserves_bind_ret.
  apply preserves_bind.
  { apply preserves_for_each. intros i chain. apply preserves_parse_step.
    intros b x Hb Hx. destruct certificate as [|b' rest]; [done|].
    injection Hb as ->. eauto. }
  intros chain. case_bool_decide; simpl; [|apply preserves_fail].
  apply preserves_bind; [apply preserves_or_raise|intros ca].
  apply preserves_bind; [apply preserves_resolve_anchor|intros chain'].
  apply preserves_check_signatures.
Qed.

Lemma preserves_verify_dnssec p contacts :
  (pki_type p = "dnssec+btc" -> c = Some (pki_data p)) ->
  preserves (stays_or_claims r0 c) (verify_dnssec p contacts).
Proof.
  intros Hc. unfold verify_dnssec.
  apply preserves_bind; [apply preserves_log|intros _].
  case_bool_decide; simpl; [|apply preserves_fail].
  case_bool_decide; [|apply preserves_fail].
  apply preserves_bind; [by apply preserves_set_requestor; auto|intros _].
  apply preserves_bind; [apply preserves_log|intros _].
  destruct (bitcoin_verify_message _ _ _); apply preserves_fail.
Qed.

End Requestor.

Section Dispatch.
Context `{Ext : Externals}.
Variable ts : TrustStore.

Lemma claimed_identity_x509 p b rest x :
  pki_type p ∈ ["x509+sha256"; "x509+sha1"] ->
  pb2_X509Certificates_ParseFromString (pki_data p) = Some (b :: rest) ->
  x509_parseBinary b = Some x ->
  claimed_identity p = Some (requestor_of_common_name (get_common_name x)).
Proof.
  intros Hty Hdec Hx. unfold claimed_identity.
  rewrite bool_decide_true by done. by rewrite Hdec, Hx.
Qed.

Lemma claimed_identity_btc p :
  pki_type p = "dnssec+btc" -> claimed_identity p = Some (pki_data p).
Proof.
  intros Hty. unfold claimed_identity. rewrite Hty.
  rewrite bool_decide_false.
  - by rewrite bool_decide_true.
  - intros Hx. apply list_elem_of_In in Hx. simpl in Hx. intuition congruence.
Qed.

(** [verify] leaves the requestor as it was or sets it to the identity the
    decoded envelope claims. *)
Lemma verify_requestor contacts r0 w :
  stays_or_claims r0
    (pb2_PaymentRequest_ParseFromString (raw (self w)) ≫= claimed_identity) w ->
  stays_or_claims r0
    (pb2_PaymentRequest_ParseFromString (raw (self w)) ≫= claimed_identity)
    (snd (verify ts contacts w)).
Proof.
  intros Hw. unfold verify, get_self.
  erewrite bind_next; [|reflexivity].
  case_bool_decide; [by apply preserves_fail|].
  destruct (pb2_PaymentRequest_ParseFromString (raw (self w))) as [p|];
    [|done].
  simpl in *. unfold or_raise. erewrite bind_next; [|reflexivity].
  case_bool_decide; [by apply preserves_fail|].
  case_bool_decide.
  { apply preserves_verify_x509; [|done].
    intros b rest x. by apply claimed_identity_x509. }
  case_bool_decide; [|by apply preserves_fail].
  apply preserves_verify_dnssec; [|done].
  apply claimed_identity_btc.
Qed.

End Dispatch.

(** ** What [verify] has recorded when it ends *)

Lemma bind_assoc {A B C} (m : M A) (f : A -> M B) (g : B -> M C) w :
  bind (bind m f) g w = bind m (fun a => bind (f a) g) w.
Proof. unfold bind. by destruct (m w) as [[a|v|e] w1]. Qed.

Section Recording.
Context `{Ext : Externals}.
Variable ts : TrustStore.
Variable contacts : Contacts.

Lemma recorded_stays s w :
  stays_or_claims (Some s) (Some s) w <-> requestor (self w) = Some s.
Proof.
  unfold stays_or_claims. split; [by intros [H|[_ H]]|by left].
Qed.

(** Once the leaf's name is recorded, the rest of [verify_x509] keeps it. *)
Lemma verify_x509_records p w :
  requestor (self w) = None ->
  signature p <> "" ->
  pki_type p ∈ ["x509+sha256"; "x509+sha1"] ->
  requestor (self (snd (verify_x509 ts p w))) = recorded_identity ts contacts p.
Proof.
  intros Hreq Hsig Hty. unfold recorded_identity.
  rewrite bool_decide_false by done. rewrite bool_decide_true by done.
  unfold verify_x509. case_bool_decide as Hne; [done|].
  destruct (pb2_X509Certificates_ParseFromString (pki_data p))
    as [[|b rest]|] eqn:Hdec; [done| |done].
  unfold or_raise at 1. erewrite bind_next; [|reflexivity].
  unfold range. rewrite Nat.sub_0_r. cbn [length seq for_each].
  rewrite !bind_assoc.
  destruct (x509_parseBinary b) as [x|] eqn:Hx.
  2:{ unfold parse_step, bind, or_raise. simpl. by rewrite Hx. }
  destruct (check_date x) as [msg|] eqn:Hd.
  { unfold parse_step, bind, or_raise. simpl. rewrite Hx. simpl. by rewrite Hd. }
  erewrite bind_next; [|by apply (parse_step_leaf (b :: rest) [] w b x)].
  set (s := requestor_of_common_name (get_common_name x)).
  apply recorded_stays.
  refine (preserves_bind _ _ _ _ _ (with_requestor s w) _);
    [| |by apply recorded_stays].
  - apply preserves_for_each. intros i chain. apply preserves_parse_step.
    intros b' x' [= <-] Hx'. unfold s. congruence.
  - intros chain. case_bool_decide; simpl; [|apply preserves_fail].
    apply preserves_bind; [apply preserves_or_raise|intros ca].
    apply preserves_bind; [apply preserves_resolve_anchor|intros chain'].
    apply preserves_check_signatures.
Qed.

Lemma verify_dnssec_records p w :
  requestor (self w) = None ->
  signature p <> "" ->
  pki_type p ∈ ["dnssec+btc"; "dnssec+ecdsa"] ->
  requestor (self (snd (verify_dnssec p contacts w))) = recorded_identity ts contacts p.
Proof.
  intros Hreq Hsig Hty. unfold recorded_identity.
  rewrite bool_decide_false by done.
  rewrite bool_decide_false.
  2:{ intros Hx. apply list_elem_of_In in Hty, Hx. simpl in Hty, Hx.
      intuition congruence. }
  unfold verify_dnssec, bind, log. simpl.
  case_bool_decide as Hval; simpl.
  - case_bool_decide as Hbtc; simpl; [|done].
    by destruct (bitcoin_verify_message _ _ _).
  - by case_bool_decide.
Qed.

(** The requestor [verify] leaves on an object that had none. *)
Lemma verify_records w :
  requestor (self w) = None ->
  requestor (self (snd (verify ts contacts w)))
  = if bool_decide (raw (self w) = "") then None
    else pb2_PaymentRequest_ParseFromString (raw (self w))
         ≫= recorded_identity ts contacts.
Proof.
  intros Hreq. unfold verify, get_self.
  erewrite bind_next; [|reflexivity].
  case_bool_decide as Hraw; [done|].
  destruct (pb2_PaymentRequest_ParseFromString (raw (self w))) as [p|] eqn:Hdec;
    [|done].
  unfold or_raise. erewrite bind_next; [|reflexivity]. simpl.
  case_bool_decide as Hsig.
  { unfold recorded_identity. by rewrite bool_decide_true. }
  case_bool_decide as Hx509; [by apply verify_x509_records|].
  case_bool_decide as Hdns; [by apply verify_dnssec_records|].
  unfold recorded_identity.
  rewrite !bool_decide_false; [done| |done|done].
  intros Hbtc. apply Hdns. rewrite Hbtc. by left.
Qed.

End Recording.

(** ** Failure paths *)

(** C3. [verify] does let exceptions through: a non-empty request that
    the codec cannot decode, an undecodable certificate list, and a
    certificate blob that does not parse each end the call with an
    exception, and [self.error] is left as it was. *)
Theorem verify_propagates_parse_exceptions `{Ext : Externals}
    (ts : TrustStore) (contacts : Contacts) (w : world) :
  raw (self w) <> "" ->
  (pb2_PaymentRequest_ParseFromString (raw (self w)) = None ->
   run (verify ts contacts) w = (Raised DecodeError, w)) /\
  (forall p,
     pb2_PaymentRequest_ParseFromString (raw (self w)) = Some p ->
     signature p <> "" ->
     pki_type p ∈ ["x509+sha256"; "x509+sha1"] ->
     ca_list ts <> ∅ ->
     (pb2_X509Certificates_ParseFromString (pki_data p) = None ->
      run (verify ts contacts) w = (Raised DecodeError, w)) /\
     (forall b rest,
        pb2_X509Certificates_ParseFromString (pki_data p) = Some (b :: rest) ->
        x509_parseBinary b = None ->
        run (verify ts contacts) w = (Raised CertificateParseError, w))).
Proof.
  intros Hraw. split.
  - intros Hdec. unfold run, verify, get_self.
    erewrite bind_next; [|reflexivity].
    rewrite bool_decide_false by done. rewrite Hdec. reflexivity.
  - intros p Hdec Hsig Hty Hne.
    unfold run. rewrite (verify_dispatch_x509 ts contacts w p) by done.
    unfold verify_x509. rewrite bool_decide_false by done. split.
    + intros Hc. by rewrite Hc.
    + intros b rest Hc Hb. rewrite Hc. unfold or_raise at 1.
      erewrite bind_next; [|reflexivity].
      unfold range. simpl.
      unfold bind, parse_step. simpl.
      unfold bind, or_raise. simpl. rewrite Hb. reflexivity.
Qed.

(** Bytes the codec rejects: the constructor has recorded the parse
    failure, and [verify] raises. *)
Lemma verify_propagates_parse_exceptions_witness :
  PaymentRequest_init "junk"
  = Some {| raw := "junk"; details := None;
            error := Some "cannot parse payment request";
            requestor := None; tx := None |} /\
  run (verify store contacts) (start "junk") = (Raised DecodeError, start "junk") /\
  run (verify store contacts) (start "raw:garbage-cert")
  = (Raised CertificateParseError, start "raw:garbage-cert").
Proof.
  split; [reflexivity|split].
  - apply (verify_propagates_parse_exceptions store contacts (start "junk"));
      [discriminate|reflexivity].
  - eapply (verify_propagates_parse_exceptions store contacts
              (start "raw:garbage-cert")).
    + discriminate.
    + reflexivity.
    + discriminate.
    + by left.
    + exact store_nonempty.
    + reflexivity.
    + reflexivity.
Defined.

(** C4, as the code has it. For a single-certificate chain that parses,
    [verify_x509] checks the leaf's dates first: within its validity
    window the request fails with the missing-chain status and [False],
    whatever the signatures are and without any signature being checked;
    outside it the request fails with the date error and [None]. *)
Theorem verify_x509_single_certificate `{Ext : Externals}
    (ts : TrustStore) (w : world) (p : Envelope) (b : string) (leaf : X509) :
  ca_list ts <> ∅ ->
  pb2_X509Certificates_ParseFromString (pki_data p) = Some [b] ->
  x509_parseBinary b = Some leaf ->
  (check_date leaf = None ->
   run (verify_x509 ts p) w
   = (Returned (PyBool false),
      with_error "ERROR: CA Certificate Chain Not Provided by Payment Processor"
        (with_requestor (requestor_of_common_name (get_common_name leaf)) w)))
  /\
  (forall msg, check_date leaf = Some msg ->
   run (verify_x509 ts p) w = (Returned PyNone, with_error msg w)).
Proof.
  intros Hne Hdec Hb.
  unfold run, verify_x509. rewrite bool_decide_false by done.
  rewrite Hdec. unfold or_raise at 1.
  erewrite bind_next; [|reflexivity].
  unfold range. simpl. split.
  - intros Hd. unfold bind.
    by rewrite (parse_step_leaf [b] [] w b leaf).
  - intros msg Hd. unfold bind, parse_step. simpl.
    unfold bind, or_raise. simpl. rewrite Hb. simpl. rewrite Hd. reflexivity.
Qed.

Lemma verify_x509_single_certificate_witness :
  run (verify_x509 store lone_request) (start "raw:lone")
  = (Returned (PyBool false),
     with_error "ERROR: CA Certificate Chain Not Provided by Payment Processor"
       (with_requestor "shop.example" (start "raw:lone"))).
Proof.
  apply (verify_x509_single_certificate store (start "raw:lone") lone_request
           "der-shop" shop_cert).
  - exact store_nonempty.
  - reflexivity.
  - reflexivity.
  - reflexivity.
Defined.

(** A lone leaf outside its validity window is rejected on its dates, with
    [None], before the number of certificates is looked at. *)
Lemma lone_stale_certificate_fails_on_dates :
  pb2_X509Certificates_ParseFromString (pki_data stale_request) = Some ["der-stale"] /\
  exists w',
    run (verify_x509 store stale_request) (start "raw:stale") = (Returned PyNone, w') /\
    error (self w') = Some "Certificate has expired." /\
    error (self w')
    <> Some "ERROR: CA Certificate Chain Not Provided by Payment Processor".
Proof.
  split; [reflexivity|]. eexists. split; [reflexivity|]. split; [reflexivity|].
  discriminate.
Qed.

(** ** The requestor after a failed verification *)

(** C6, as the code has it. A request that has just been constructed
    reports ["unknown"]. Once [verify] has run on it, successfully or
    not, [self.requestor] holds exactly the identity recorded on the way:
    nothing when [verify] ended before the assignment (empty request,
    bytes that do not decode, no signature, a type that is not handled,
    an empty trust store, a certificate list that does not decode or is
    empty, a first certificate that does not parse or is outside its
    validity window, an alias that is not validated, [dnssec+ecdsa]), and
    then [get_requestor] reports ["unknown"]; otherwise the first
    certificate's common name without a leading ["*."], or the
    [dnssec+btc] alias, and then [get_requestor] reports that name,
    whatever went wrong afterwards. *)
Theorem get_requestor_after_failed_verify `{Ext : Externals}
    (ts : TrustStore) (contacts : Contacts) (data : string) (pr : PaymentRequest) :
  PaymentRequest_init data = Some pr ->
  get_requestor pr = "unknown" /\
  forall cs r w',
    run (verify ts contacts) {| self := pr; calls := cs |} = (r, w') ->
    let recorded :=
      if bool_decide (data = "") then None
      else pb2_PaymentRequest_ParseFromString data ≫= recorded_identity ts contacts in
    requestor (self w') = recorded /\
    (recorded = None -> get_requestor (self w') = "unknown") /\
    (forall s, recorded = Some s -> s <> "" -> get_requestor (self w') = s).
Proof.
  intros Hinit.
  assert (raw pr = data /\ requestor pr = None) as [Hraw Hreq].
  { unfold PaymentRequest_init in Hinit.
    destruct (pb2_PaymentRequest_ParseFromString data) as [e|].
    - destruct (pb2_PaymentDetails_ParseFromString _); [|done].
      by injection Hinit as <-.
    - by injection Hinit as <-. }
  split.
  { unfold get_requestor. by rewrite Hreq. }
  intros cs r w' Hrun recorded.
  assert (requestor (self w') = recorded) as Hrec.
  { assert (w' = snd (verify ts contacts {| self := pr; calls := cs |})) as ->.
    { unfold run in Hrun.
      destruct (verify ts contacts _) as [[[]|v|e] w'']; by injection Hrun. }
    rewrite (verify_records ts contacts) by done.
    simpl. by rewrite Hraw. }
  split; [done|split].
  - intros Hnone. unfold get_requestor. by rewrite Hrec, Hnone.
  - intros s Hs Hne. unfold get_requestor. rewrite Hrec, Hs. simpl.
    by rewrite bool_decide_false.
Qed.

(** The lone, well-dated leaf of the shop is turned away for its missing
    chain after its name was recorded; the lone stale leaf and the alias
    that is not validated are turned away before. *)
Lemma get_requestor_after_failed_verify_witness :
  get_requestor (fresh "raw:lone") = "unknown" /\
  run (verify store contacts) (start "raw:lone")
  = (Returned (PyBool false),
     snd (run (verify store contacts) (start "raw:lone"))) /\
  get_requestor (self (snd (run (verify store contacts) (start "raw:lone"))))
  = "shop.example" /\
  get_requestor (self (snd (run (verify store contacts) (start "raw:stale"))))
  = "unknown" /\
  get_requestor (self (snd (run (verify store contacts) (start "raw:mallory"))))
  = "unknown".
Proof.
  assert (forall data,
            run (verify store contacts) (start data)
            = (fst (run (verify store contacts) (start data)),
               snd (run (verify store contacts) (start data)))) as Hpair.
  { intros data. apply surjective_pairing. }
  destruct (get_requestor_after_failed_verify store contacts "raw:lone"
              (fresh "raw:lone")) as [Hfresh Hlone]; [reflexivity|].
  destruct (get_requestor_after_failed_verify store contacts "raw:stale"
              (fresh "raw:stale")) as [_ Hstale]; [reflexivity|].
  destruct (get_requestor_after_failed_verify store contacts "raw:mallory"
              (fresh "raw:mallory")) as [_ Hmallory]; [reflexivity|].
  split; [exact Hfresh|]. split; [vm_compute; reflexivity|]. split; [|split].
  - destruct (Hlone [] _ _ (Hpair "raw:lone")) as (_ & _ & Hname).
    apply Hname; [vm_compute; reflexivity|discriminate].
  - destruct (Hstale [] _ _ (Hpair "raw:stale")) as (_ & Hnone & _).
    apply Hnone. vm_compute. reflexivity.
  - destruct (Hmallory [] _ _ (Hpair "raw:mallory")) as (_ & Hnone & _).
    apply Hnone. vm_compute. reflexivity.
Defined.

(** A lone, well-dated leaf: verification fails on the missing chain, and
    the requestor still reads as the leaf's name. *)
Lemma failed_verification_keeps_requestor :
  exists w',
    run (verify store contacts) (start "raw:lone") = (Returned (PyBool false), w') /\
    error (self w')
    = Some "ERROR: CA Certificate Chain Not Provided by Payment Processor" /\
    get_requestor (self w') = "shop.example" /\
    get_requestor (self w') <> "unknown".
Proof.
  eexists. split; [reflexivity|]. split; [reflexivity|]. split; [reflexivity|].
  discriminate.
Qed.

(** ** Alias verification *)

(** C7. When the resolver's answer for the alias does not carry
    [validated: True], [verify_dnssec] (and [verify], for the two alias
    types) fails with the alias status and [False]; the only external call
    made is the resolution itself, so no signature is checked, whatever
    the message-signature primitive would have answered. *)
Theorem verify_dnssec_unvalidated_alias `{Ext : Externals}
    (ts : TrustStore) (contacts : Contacts) (w : world) (p : Envelope) :
  pki_type p ∈ ["dnssec+btc"; "dnssec+ecdsa"] ->
  dict_get (contacts (pki_data p)) "validated" <> PyBool true ->
  let w' := with_error "Alias verification failed (DNSSEC)"
              (with_calls [CallResolve (pki_data p)] w) in
  run (verify_dnssec p contacts) w = (Returned (PyBool false), w') /\
  (raw (self w) <> "" ->
   pb2_PaymentRequest_ParseFromString (raw (self w)) = Some p ->
   signature p <> "" ->
   run (verify ts contacts) w = (Returned (PyBool false), w')) /\
  calls w' = (calls w ++ [CallResolve (pki_data p)])%list.
Proof.
  intros Hty Hval w'.
  assert (run (verify_dnssec p contacts) w = (Returned (PyBool false), w')) as Hrun.
  { unfold run, verify_dnssec, bind, log. simpl.
    rewrite bool_decide_false by done. reflexivity. }
  split; [exact Hrun|split; [|reflexivity]].
  intros Hraw Hdec Hsig. unfold run.
  rewrite (verify_dispatch_dnssec ts contacts w p) by done. exact Hrun.
Qed.

(** Mallory's alias resolves without DNSSEC validation; the signature on
    the request would have verified for the resolved address. *)
Lemma verify_dnssec_unvalidated_alias_witness :
  bitcoin_verify_message (PyStr "1Mallory") (signature mallory_request)
    (pb2_SerializeToString (clear_signature mallory_request)) = true /\
  run (verify store contacts) (start "raw:mallory")
  = (Returned (PyBool false),
     with_error "Alias verification failed (DNSSEC)"
       (with_calls [CallResolve "mallory@example.org"] (start "raw:mallory"))).
Proof.
  split; [reflexivity|].
  apply (verify_dnssec_unvalidated_alias store contacts (start "raw:mallory")
           mallory_request).
  - by left.
  - discriminate.
  - discriminate.
  - reflexivity.
  - discriminate.
Defined.

(** C8. A [dnssec+ecdsa] envelope with a validated alias is dispatched to
    [verify_dnssec] and fails there with ["unknown algo"] and [False];
    an envelope of an unrecognized type fails in [verify] itself with a
    different status. *)
Theorem verify_dnssec_ecdsa_not_implemented `{Ext : Externals}
    (ts : TrustStore) (contacts : Contacts) (w : world) (p : Envelope) :
  raw (self w) <> "" ->
  pb2_PaymentRequest_ParseFromString (raw (self w)) = Some p ->
  signature p <> "" ->
  pki_type p = "dnssec+ecdsa" ->
  dict_get (contacts (pki_data p)) "validated" = PyBool true ->
  run (verify ts contacts) w
  = (Returned (PyBool false),
     with_error "unknown algo" (with_calls [CallResolve (pki_data p)] w)) /\
  verify ts contacts w = verify_dnssec p contacts w /\
  (forall w2 p2,
     raw (self w2) <> "" ->
     pb2_PaymentRequest_ParseFromString (raw (self w2)) = Some p2 ->
     signature p2 <> "" ->
     pki_type p2 ∉ ["x509+sha256"; "x509+sha1"; "dnssec+btc"; "dnssec+ecdsa"] ->
     run (verify ts contacts) w2
     = (Returned (PyBool false),
        with_error "ERROR: Unsupported PKI Type for Message Signature" w2)) /\
  "unknown algo" <> "ERROR: Unsupported PKI Type for Message Signature".
Proof.
  intros Hraw Hdec Hsig Hty Hval.
  assert (verify ts contacts w = verify_dnssec p contacts w) as Hdisp.
  { apply verify_dispatch_dnssec; auto. rewrite Hty. right. by left. }
  split; [|split; [exact Hdisp|split; [|discriminate]]].
  - unfold run. rewrite Hdisp.
    unfold verify_dnssec, bind, log. simpl.
    rewrite bool_decide_true by done. simpl.
    rewrite bool_decide_false; [reflexivity|]. by rewrite Hty.
  - intros w2 p2 Hraw2 Hdec2 Hsig2 Hty2.
    unfold run, verify, get_self.
    erewrite bind_next; [|reflexivity].
    rewrite bool_decide_false by done. rewrite Hdec2.
    unfold or_raise. erewrite bind_next; [|reflexivity].
    rewrite bool_decide_false by done.
    rewrite !bool_decide_false; [reflexivity| |].
    + intros Hin. apply Hty2. apply list_elem_of_In in Hin.
      apply list_elem_of_In. simpl in *. tauto.
    + intros Hin. apply Hty2. apply list_elem_of_In in Hin.
      apply list_elem_of_In. simpl in *. tauto.
Qed.

Lemma verify_dnssec_ecdsa_not_implemented_witness :
  run (verify store contacts) (start "raw:alice-ecdsa")
  = (Returned (PyBool false),
     with_error "unknown algo"
       (with_calls [CallResolve "alice@example.org"] (start "raw:alice-ecdsa"))).
Proof.
  apply (verify_dnssec_ecdsa_not_implemented store contacts
           (start "raw:alice-ecdsa") alice_ecdsa_request).
  - discriminate.
  - reflexivity.
  - discriminate.
  - reflexivity.
  - reflexivity.
Defined.

(** ** Expiry and invoice status *)

(** C9. For a request whose details were decoded, [has_expired] is falsy
    when [expires] is 0, [True] when a non-zero [expires] is strictly
    below the current time, and [False] when it is equal to or above it. *)
Theorem has_expired_strict (now : Z) (me : PaymentRequest) (d : PaymentDetails) :
  details me = Some d ->
  (expires d = 0 ->
   exists v, has_expired now me = Returned v /\ truthy v = false) /\
  (expires d <> 0 -> expires d < now ->
   has_expired now me = Returned (PyBool true)) /\
  (expires d <> 0 -> now <= expires d ->
   has_expired now me = Returned (PyBool false)).
Proof.
  intros Hd. unfold has_expired. rewrite Hd. simpl. split; [|split].
  - intros ->. eexists. simpl. split; reflexivity.
  - intros Hne Hlt. destruct (Z.eqb_spec (expires d) 0); [done|]. simpl.
    do 2 f_equal. by apply Z.ltb_lt.
  - intros Hne Hge. destruct (Z.eqb_spec (expires d) 0); [done|]. simpl.
    do 2 f_equal. by apply Z.ltb_ge.
Qed.

Lemma has_expired_strict_witness :
  let me t := {| raw := "raw:shop"; details := Some {| expires := t |};
                 error := None; requestor := None; tx := None |} in
  truthy (PyInt 0) = false /\
  has_expired 1700000000 (me 0) = Returned (PyInt 0) /\
  has_expired 1700000000 (me 1699999999) = Returned (PyBool true) /\
  has_expired 1700000000 (me 1700000000) = Returned (PyBool false) /\
  has_expired 1700000000 (me 1700000001) = Returned (PyBool false).
Proof.
  intros me. split; [reflexivity|]. split; [reflexivity|]. split; [|split].
  - apply (has_expired_strict 1700000000 (me 1699999999) {| expires := 1699999999 |});
      [reflexivity|discriminate|reflexivity].
  - apply (has_expired_strict 1700000000 (me 1700000000) {| expires := 1700000000 |});
      [reflexivity|discriminate|discriminate].
  - apply (has_expired_strict 1700000000 (me 1700000001) {| expires := 1700000001 |});
      [reflexivity|discriminate|discriminate].
Defined.

(** C10. [get_status] returns a status only for a key that is in the
    store, and then one of paid, expired and unpaid; for a key [get] does
    not find it raises instead of returning. A stored request whose
    details were decoded, or which has a settling transaction, always
    gets a status. *)
Theorem get_status_requires_presence (now : Z) (store : InvoiceStore) (key : string) :
  (get store key = None -> get_status now store key = Raised AttributeError) /\
  (forall v, get_status now store key = Returned v ->
     is_Some (get store key) /\
     (v = PyInt PR_PAID \/ v = PyInt PR_EXPIRED \/ v = PyInt PR_UNPAID)) /\
  (forall pr, get store key = Some pr ->
     is_Some (tx pr) \/ is_Some (details pr) ->
     exists v, get_status now store key = Returned v).
Proof.
  unfold get_status. split; [|split].
  - by intros ->.
  - intros v Hv. split.
    + destruct (get store key); [by eexists|done].
    + destruct (get store key) as [pr|]; [|done].
      revert Hv. case_bool_decide; [intros [= <-]; auto|].
      destruct (has_expired now pr) as [u|]; [|done].
      destruct (truthy u); intros [= <-]; auto.
  - intros pr -> [[t Ht]|[d Hd]].
    + rewrite bool_decide_true; [eauto|]. by rewrite Ht.
    + case_bool_decide; [eauto|].
      unfold has_expired. rewrite Hd.
      repeat case_match; eauto; discriminate.
Qed.

(** * Further properties of the verification methods *)

(** ** When verification says yes *)

(** X1. Soundness of [verify]. A [True] from [verify] means: the bytes are
    non-empty and decode to a signed envelope, and either it is of a
    certificate type, its certificates form an accepted chain to a trusted
    root, the envelope is signed by the leaf, and requestor and status
    name the leaf and the last supplied certificate; or it is a
    [dnssec+btc] envelope whose alias the resolver reports as validated
    and whose signature verifies for the resolved address. *)
Theorem verify_sound `{Ext : Externals}
    (ts : TrustStore) (contacts : Contacts) (w w' : world) :
  run (verify ts contacts) w = (Returned (PyBool true), w') ->
  exists p,
    raw (self w) <> "" /\
    pb2_PaymentRequest_ParseFromString (raw (self w)) = Some p /\
    signature p <> "" /\
    ((pki_type p ∈ ["x509+sha256"; "x509+sha1"] /\
      exists leaf ca,
        accepted_chain ts p leaf ca /\
        envelope_signed_by leaf p /\
        requestor (self w')
        = Some (requestor_of_common_name (get_common_name leaf)) /\
        error (self w') = Some ("Signed by Trusted CA: " +:+ get_common_name ca))
     \/
     (pki_type p = "dnssec+btc" /\
      dict_get (contacts (pki_data p)) "validated" = PyBool true /\
      bitcoin_verify_message (dict_get (contacts (pki_data p)) "address")
        (signature p) (pb2_SerializeToString (clear_signature p)) = true /\
      requestor (self w') = Some (pki_data p) /\
      error (self w') = Some "Verified with DNSSEC")).
Proof.
  intros H. apply run_true in H. unfold verify, get_self in H.
  erewrite bind_next in H; [|reflexivity].
  case_bool_decide as Hraw; [done|].
  destruct (pb2_PaymentRequest_ParseFromString (raw (self w))) as [p|] eqn:Hdec;
    [|done].
  unfold or_raise in H. erewrite bind_next in H; [|reflexivity].
  case_bool_decide as Hsig; [done|].
  exists p. split_and!; auto.
  case_bool_decide as Hx509.
  - left. split; [done|].
    apply verify_x509_true_inv in H
      as (certificate & chain & chain' & leaf & ca & ? & ? & ? & ? & ? & ? & ? & Henv & ? & ?).
    exists leaf, ca. split_and!; auto.
    exists chain'. split; [|done]. by exists certificate, chain.
  - right. case_bool_decide as Hdns; [|done].
    unfold verify_dnssec, bind, log in H. simpl in H.
    case_bool_decide as Hval; simpl in H; [|done].
    case_bool_decide as Hbtc; simpl in H; [|done].
    destruct (bitcoin_verify_message _ _ _) eqn:Hvm; simpl in H; [|done].
    injection H as <-. split_and!; auto.
Qed.

Lemma verify_sound_witness :
  exists p,
    pb2_PaymentRequest_ParseFromString "raw:shop" = Some p /\
    exists leaf ca, accepted_chain store p leaf ca /\ envelope_signed_by leaf p.
Proof.
  assert (run (verify store contacts) (start "raw:shop")
          = (Returned (PyBool true),
             snd (run (verify store contacts) (start "raw:shop")))) as Hrun
    by (vm_compute; reflexivity).
  destruct (verify_sound store contacts (start "raw:shop") _ Hrun)
    as (p & _ & Hdec & _ & [(_ & leaf & ca & Hacc & Henv & _)|(Hty & _)]).
  - exists p. split; [vm_compute in Hdec; vm_compute; exact Hdec|].
    exists leaf, ca. split; [exact Hacc|exact Henv].
  - exfalso. vm_compute in Hdec. injection Hdec as <-. discriminate Hty.
Defined.

(** ** Where certificate verification stops *)

Lemma for_each_ext {A St} (l : list A) (body1 body2 : A -> St -> M St) s w :
  (forall a s w, a ∈ l -> body1 a s w = body2 a s w) ->
  for_each l body1 s w = for_each l body2 s w.
Proof.
  revert s w. induction l as [|a l IH]; intros s w Hext; [done|].
  simpl. unfold bind. rewrite Hext by left.
  destruct (body2 a s w) as [[s'|v|e] w1]; auto.
  apply IH. intros a' s0 w0 Ha'. apply Hext. by right.
Qed.

Section Stops.
Context `{Ext : Externals}.
Variable ts : TrustStore.

Lemma parse_step_take certificate n i acc w :
  (i < n)%nat ->
  parse_step certificate i acc w = parse_step (take n certificate) i acc w.
Proof. intros Hi. unfold parse_step. by rewrite lookup_take_lt. Qed.

(** The first loop over the positions below [n], when the first [n]
    blobs parse to [chain] and pass their checks. *)
Lemma parse_loop_prefix certificate n chain leaf w :
  (n <= length certificate)%nat ->
  supplied_chain (take n certificate) chain ->
  chain !! 0%nat = Some leaf ->
  for_each (range 0 n) (parse_step certificate) [] w
  = (Next chain,
     with_requestor (requestor_of_common_name (get_common_name leaf)) w).
Proof.
  intros Hn Hsup Hleaf.
  rewrite (for_each_ext _ _ (parse_step (take n certificate))).
  - replace n with (length (take n certificate)) at 1
      by (rewrite length_take; lia).
    by apply parse_loop.
  - intros i s w0 Hi. apply parse_step_take.
    unfold range in Hi. apply list_elem_of_In, in_seq in Hi. lia.
Qed.

Lemma anchored_nonempty chain chain' : anchored ts chain chain' -> ca_list ts <> ∅.
Proof.
  intros [ca _ Hin|ca root _ _ (f & _ & _ & Hroot)].
  - by eapply ca_list_nonempty.
  - eapply ca_list_nonempty. eauto.
Qed.

Lemma resolve_anchor_anchored ca chain chain' w :
  last chain = Some ca ->
  anchored ts chain chain' ->
  resolve_anchor ts ca chain w = (Next chain', w).
Proof.
  intros Hlast [ca' Hlast' Hin|ca' root Hlast' Hfp (f & Hk & Hf & Hroot)];
    assert (ca' = ca) as -> by congruence.
  - by apply resolve_anchor_trusted.
  - by eapply resolve_anchor_recovered.
Qed.

Lemma anchored_leaf chain chain' leaf :
  anchored ts chain chain' -> chain !! 0%nat = Some leaf -> chain' !! 0%nat = Some leaf.
Proof.
  intros [|] Hleaf; [done|].
  rewrite lookup_app_l; [done|]. by apply lookup_lt_Some in Hleaf.
Qed.

(** With an accepted chain, [verify_x509] comes down to the second half
    run on the anchored chain. *)
Lemma verify_x509_back p certificate chain chain' leaf ca w :
  pb2_X509Certificates_ParseFromString (pki_data p) = Some certificate ->
  supplied_chain certificate chain ->
  (2 <= length chain)%nat ->
  chain !! 0%nat = Some leaf ->
  last chain = Some ca ->
  anchored ts chain chain' ->
  verify_x509 ts p w
  = check_signatures p ca chain'
      (with_requestor (requestor_of_common_name (get_common_name leaf)) w).
Proof.
  intros Hdec Hsup Hlen Hleaf Hlast Hanch.
  rewrite (verify_x509_front ts p certificate chain leaf ca w); auto.
  - erewrite bind_next; [reflexivity|]. by apply resolve_anchor_anchored.
  - by eapply anchored_nonempty.
Qed.

(** With a presented chain, [verify_x509] comes down to the second half
    run on the anchored chain, which starts with the leaf and has at least
    two certificates. *)
Lemma presented_back p leaf ca chain' w :
  presented_chain ts p leaf ca chain' ->
  verify_x509 ts p w
  = check_signatures p ca chain'
      (with_requestor (requestor_of_common_name (get_common_name leaf)) w) /\
  (2 <= length chain')%nat /\
  chain' !! 0%nat = Some leaf.
Proof.
  intros (certificate & chain & Hdec & Hsup & Hlen & Hleaf & Hlast & Hanch).
  split_and!.
  - by eapply verify_x509_back.
  - destruct Hanch; [done|]. rewrite length_app. lia.
  - by eapply anchored_leaf.
Qed.

(** The chain loop on a chain whose links below [i] are signed. *)
Lemma link_loop_upto chain i w :
  (1 <= i <= length chain)%nat ->
  (forall j prev_x x, (1 <= j < i)%nat ->
     chain !! (j - 1)%nat = Some prev_x -> chain !! j = Some x ->
     signed_by prev_x x) ->
  exists cs,
    for_each (range 1 i) (link_step chain) None w
    = (Next (if decide (i = 1%nat) then None else Some true), with_calls cs w).
Proof.
  intros Hi Hsigned.
  destruct (link_loop_ok chain (i - 1) 1 None w) as [cs Hcs]; [lia|lia| |].
  { intros j p x Hj. apply Hsigned. lia. }
  exists cs. unfold range. rewrite Hcs. repeat case_decide; try lia; done.
Qed.

End Stops.

(** X2. Called on an envelope whose [pki_type] is neither [x509+sha256]
    nor [x509+sha1], [verify_x509] accepts on the strength of the chain
    alone: with an accepted chain it returns [True] whatever the
    envelope's signature is, since neither branch of the final check
    applies and [verify] still holds the result of the last chain link.
    ([verify] itself only passes the two certificate types on.) *)
Theorem verify_x509_other_type_skips_envelope_check `{Ext : Externals}
    (ts : TrustStore) (w : world) (p : Envelope) (leaf ca : X509) :
  accepted_chain ts p leaf ca ->
  pki_type p ∉ ["x509+sha256"; "x509+sha1"] ->
  exists cs,
    run (verify_x509 ts p) w
    = (Returned (PyBool true),
       with_error ("Signed by Trusted CA: " +:+ get_common_name ca)
         (with_calls cs
            (with_requestor (requestor_of_common_name (get_common_name leaf)) w))).
Proof.
  intros (chain' & Hpres & Hsigned) Hty.
  pose proof (presented_back ts p leaf ca chain' w Hpres) as (Hback & Hlen' & Hleaf').
  set (w1 := with_requestor _ w) in *.
  destruct (link_loop_ok chain' (length chain' - 1) 1 None w1) as [cs Hcs];
    [lia|lia| |].
  { intros i px x Hi. apply Hsigned. lia. }
  exists cs. unfold run. rewrite Hback.
  unfold check_signatures, range.
  erewrite bind_next; [|exact Hcs].
  rewrite Hleaf'.
  unfold or_raise at 1. erewrite bind_next; [|reflexivity].
  unfold envelope_verify. simpl.
  rewrite !bool_decide_false.
  - case_decide; [lia|]. reflexivity.
  - intros E. apply Hty. rewrite E. right. by left.
  - intros E. apply Hty. rewrite E. by left.
Qed.

Lemma range_split (a i b : nat) :
  (a <= i < b)%nat -> range a b = (range a i ++ i :: range (S i) b)%list.
Proof.
  intros Hi. unfold range.
  replace (b - a)%nat with ((i - a) + S (b - S i))%nat by lia.
  rewrite seq_app. simpl. do 3 f_equal; lia.
Qed.

(** X3. A certificate after the leaf that lacks the CA flag ends
    [verify_x509] at that certificate: when the blobs before position [i]
    parse and pass their checks and the certificate at [i] parses but is
    not a CA, the method returns [None] with the supplied-CA status; the
    leaf's name has been recorded and no signature has been checked. *)
Theorem verify_x509_rejects_unflagged_certificate `{Ext : Externals}
    (ts : TrustStore) (w : world) (p : Envelope)
    (certificate : list string) (i : nat) (chain : list X509) (leaf x : X509)
    (b : string) :
  ca_list ts <> ∅ ->
  pb2_X509Certificates_ParseFromString (pki_data p) = Some certificate ->
  (1 <= i)%nat ->
  supplied_chain (take i certificate) chain ->
  chain !! 0%nat = Some leaf ->
  certificate !! i = Some b ->
  x509_parseBinary b = Some x ->
  check_ca x = false ->
  run (verify_x509 ts p) w
  = (Returned PyNone,
     with_error "ERROR: Supplied CA Certificate Error"
       (with_requestor (requestor_of_common_name (get_common_name leaf)) w)).
Proof.
  intros Hne Hdec Hi Hsup Hleaf Hb Hx Hca.
  pose proof (lookup_lt_Some _ _ _ Hb) as Hlt.
  unfold run, verify_x509. rewrite bool_decide_false by done.
  rewrite Hdec. unfold or_raise at 1. erewrite bind_next; [|reflexivity].
  erewrite bind_return; [reflexivity|].
  rewrite (range_split 0 i) by lia. rewrite for_each_app.
  erewrite bind_next; [|apply parse_loop_prefix; eauto; lia].
  simpl. erewrite bind_return; [reflexivity|].
  unfold parse_step, bind, or_raise, ret. rewrite Hb, Hx. simpl.
  rewrite bool_decide_false by lia. by rewrite Hca.
Qed.

(** X4. A leaf outside its validity window ends [verify_x509] at once,
    whatever follows it in the list: the method returns [None] with the
    message of the date check, the requestor is not recorded, and the
    other blobs are not even parsed. *)
Theorem verify_x509_rejects_leaf_outside_window `{Ext : Externals}
    (ts : TrustStore) (w : world) (p : Envelope)
    (b : string) (rest : list string) (leaf : X509) (msg : string) :
  ca_list ts <> ∅ ->
  pb2_X509Certificates_ParseFromString (pki_data p) = Some (b :: rest) ->
  x509_parseBinary b = Some leaf ->
  check_date leaf = Some msg ->
  run (verify_x509 ts p) w = (Returned PyNone, with_error msg w).
Proof.
  intros Hne Hdec Hb Hd.
  unfold run, verify_x509. rewrite bool_decide_false by done.
  rewrite Hdec. unfold or_raise at 1. erewrite bind_next; [|reflexivity].
  erewrite bind_return; [reflexivity|].
  unfold range. simpl. erewrite bind_return; [reflexivity|].
  unfold parse_step, bind, or_raise, ret. simpl. rewrite Hb. simpl.
  by rewrite Hd.
Qed.

(** X5. The chain loop stops at the first link that does not verify.
    With a presented chain whose links below [i] are signed: if the
    signature on certificate [i-1] names an algorithm other than the four
    handled, [verify_x509] sets ["Algorithm not supported"] and asks the
    identifier for its [algorithm] component in order to print it; it
    returns [False] when that call answers, and ends with
    [AttributeError] when the identifier has no such method. If the
    algorithm is one of the four and the RSA primitive refuses the
    signature under the public key of certificate [i], [verify_x509]
    returns [False] with the not-signed status. *)
Theorem verify_x509_stops_at_first_bad_link `{Ext : Externals}
    (ts : TrustStore) (w : world) (p : Envelope) (leaf ca : X509)
    (chain' : list X509) (i : nat) (prev_x x : X509) :
  presented_chain ts p leaf ca chain' ->
  (1 <= i)%nat ->
  chain' !! (i - 1)%nat = Some prev_x ->
  chain' !! i = Some x ->
  (forall j px y, (1 <= j < i)%nat ->
     chain' !! (j - 1)%nat = Some px -> chain' !! j = Some y -> signed_by px y) ->
  let w1 := with_requestor (requestor_of_common_name (get_common_name leaf)) w in
  (forall algorithm sig data,
     get_signature prev_x = (ALGO_OTHER algorithm, sig, data) ->
     exists cs,
       run (verify_x509 ts p) w
       = (match algorithm with
          | Some _ => Returned (PyBool false)
          | None => Raised AttributeError
          end,
          with_error "Algorithm not supported" (with_calls cs w1))) /\
  (badly_signed_by prev_x x ->
   exists cs,
     run (verify_x509 ts p) w
     = (Returned (PyBool false),
        with_error "Certificate not Signed by Provided CA Certificate Chain"
          (with_calls cs w1))).
Proof.
  intros Hpres Hi Hp Hx Hsigned w1.
  pose proof (presented_back ts p leaf ca chain' w Hpres) as (Hback & Hlen & _).
  fold w1 in Hback.
  pose proof (lookup_lt_Some _ _ _ Hx) as Hlt.
  destruct (link_loop_upto chain' i w1) as [cs Hcs]; [lia|done|].
  split.
  - intros algorithm sig data Hs.
    assert (link_verify prev_x x = inr algorithm) as Hv.
    { unfold link_verify. by rewrite Hs. }
    assert (link_step chain' i (if decide (i = 1%nat) then None else Some true)
              (with_calls cs w1)
            = (match algorithm with
               | Some _ => Return (PyBool false)
               | None => Raise AttributeError
               end,
               with_error "Algorithm not supported" (with_calls cs w1))) as Hstep.
    { unfold link_step, bind, or_raise, ret. rewrite Hx, Hp. simpl.
      rewrite Hv. by destruct algorithm. }
    exists cs. unfold run. rewrite Hback.
    unfold check_signatures.
    rewrite (range_split 1 i) by lia.
    unfold bind at 1. rewrite for_each_app.
    erewrite bind_next; [|exact Hcs].
    simpl. unfold bind at 1. rewrite Hstep. by destruct algorithm.
  - intros Hbad.
    destruct (link_step_bad chain' i
                (if decide (i = 1%nat) then None else Some true)
                (with_calls cs w1) prev_x x Hx Hp Hbad) as [c Hc].
    exists (cs ++ [c])%list. unfold run. rewrite Hback.
    unfold check_signatures. erewrite bind_return; [reflexivity|].
    rewrite (range_split 1 i) by lia. rewrite for_each_app.
    erewrite bind_next; [|exact Hcs].
    simpl. erewrite bind_return; [|exact Hc].
    by rewrite with_calls_app.
Qed.

(** X6. With an accepted chain and a certificate [pki_type], an envelope
    signature that does not verify under the leaf's key makes
    [verify_x509] return [False] with the invalid-signature status; the
    leaf's name stays recorded as requestor. *)
Theorem verify_x509_rejects_bad_envelope_signature `{Ext : Externals}
    (ts : TrustStore) (w : world) (p : Envelope) (leaf ca : X509) :
  accepted_chain ts p leaf ca ->
  pki_type p ∈ ["x509+sha256"; "x509+sha1"] ->
  ~ envelope_signed_by leaf p ->
  exists cs,
    run (verify_x509 ts p) w
    = (Returned (PyBool false),
       with_error "ERROR: Invalid Signature for Payment Request Data"
         (with_calls cs
            (with_requestor (requestor_of_common_name (get_common_name leaf)) w))).
Proof.
  intros (chain' & Hpres & Hsigned) Hty Hbad.
  pose proof (presented_back ts p leaf ca chain' w Hpres) as (Hback & Hlen & Hleaf).
  set (w1 := with_requestor _ w) in *.
  destruct (link_loop_ok chain' (length chain' - 1) 1 None w1) as [cs Hcs];
    [lia|lia| |].
  { intros i px x Hi. apply Hsigned. lia. }
  set (v := if decide ((length chain' - 1)%nat = 0%nat) then None else Some true) in *.
  assert (exists c, envelope_verify (publicKey leaf) p v = (Some c, Some false))
    as [c Hc].
  { unfold envelope_verify. simpl.
    apply list_elem_of_In in Hty. simpl in Hty.
    destruct Hty as [Hty|[Hty|[]]]; symmetry in Hty.
    - rewrite bool_decide_true by done.
      destruct (rsa_verify _ _ _) eqn:Hv; [|eauto].
      exfalso. apply Hbad. by apply envelope_sha256.
    - rewrite bool_decide_false by (rewrite Hty; done).
      rewrite bool_decide_true by done.
      destruct (hashAndVerify _ _ _) eqn:Hv; [|eauto].
      exfalso. apply Hbad. by apply envelope_sha1. }
  exists (cs ++ [c])%list. unfold run. rewrite Hback.
  unfold check_signatures, range.
  erewrite bind_next; [|exact Hcs].
  rewrite Hleaf. unfold or_raise at 1. erewrite bind_next; [|reflexivity].
  fold v. rewrite Hc.
  unfold bind, log, or_raise, ret, set_error, return_. simpl.
  by rewrite with_calls_app.
Qed.

(** X7. For a decodable, signed [dnssec+btc] envelope whose alias is
    reported as validated, [verify] returns exactly what
    [bitcoin.verify_message] answers for the resolved address, the
    envelope's signature and the envelope serialized with its signature
    cleared. Either way the alias is recorded as requestor; the status
    is ["Verified with DNSSEC"] or ["verify failed"]. *)
Theorem verify_dnssec_btc_outcome `{Ext : Externals}
    (ts : TrustStore) (contacts : Contacts) (w : world) (p : Envelope) :
  raw (self w) <> "" ->
  pb2_PaymentRequest_ParseFromString (raw (self w)) = Some p ->
  signature p <> "" ->
  pki_type p = "dnssec+btc" ->
  dict_get (contacts (pki_data p)) "validated" = PyBool true ->
  let ok := bitcoin_verify_message (dict_get (contacts (pki_data p)) "address")
              (signature p) (pb2_SerializeToString (clear_signature p)) in
  run (verify ts contacts) w
  = (Returned (PyBool ok),
     with_error (if ok then "Verified with DNSSEC" else "verify failed")
       (with_calls [CallVerifyMessage]
          (with_requestor (pki_data p)
             (with_calls [CallResolve (pki_data p)] w)))).
Proof.
  intros Hraw Hdec Hsig Hty Hval ok.
  unfold run. rewrite (verify_dispatch_dnssec ts contacts w p); auto.
  2:{ rewrite Hty. by left. }
  unfold verify_dnssec, bind, log. simpl.
  rewrite bool_decide_true by done. simpl.
  rewrite bool_decide_true by done. simpl.
  fold ok. by destruct ok.
Qed.

(** ** How [verify] ends, and what it leaves alone *)

Section Ends.
Context `{Ext : Externals}.
Variable ts : TrustStore.

Lemma ends_bind {A B} R (Q1 : A -> world -> Prop) (Q : B -> world -> Prop)
    (m : M A) (k : A -> M B) :
  ends_with R Q1 m -> (forall a, ends_with R Q (k a)) -> ends_with R Q (bind m k).
Proof.
  intros Hm Hk w. unfold bind. specialize (Hm w).
  destruct (m w) as [[a|v|e] w1]; auto. apply Hk.
Qed.

Lemma ends_weaken {A} R (Q1 Q : A -> world -> Prop) (m : M A) :
  (forall a w, Q1 a w -> Q a w) -> ends_with R Q1 m -> ends_with R Q m.
Proof.
  intros HQ Hm w. specialize (Hm w). destruct (m w) as [[a|v|e] w1]; auto.
Qed.

Lemma ends_or_raise {A} R (o : option A) e :
  ends_with R (fun _ _ => True) (or_raise o e).
Proof. intros w. by destruct o. Qed.

Lemma ends_for_each {A St} R (l : list A) (body : A -> St -> M St) :
  (forall a s, ends_with R (fun _ _ => True) (body a s)) ->
  forall s, ends_with R (fun _ _ => True) (for_each l body s).
Proof.
  intros Hbody. induction l as [|a l IH]; intros s; simpl.
  - by intros w.
  - eapply ends_bind; [apply Hbody|apply IH].
Qed.

Lemma ends_fail {A} (Q : A -> world -> Prop) msg v :
  v = PyNone \/ v = PyBool false ->
  ends_with status_reported Q (set_error msg ;;; return_ v).
Proof.
  intros Hv w. unfold bind, set_error, return_. simpl.
  split; [by eexists|]. destruct Hv; auto.
Qed.

Lemma ends_parse_step certificate i chain :
  ends_with status_reported (fun _ _ => True) (parse_step certificate i chain).
Proof.
  unfold parse_step.
  eapply ends_bind; [apply ends_or_raise|intros b].
  eapply ends_bind; [apply ends_or_raise|intros x].
  eapply ends_bind with (Q1 := fun _ _ => True); [|by intros _ w].
  case_bool_decide.
  - destruct (check_date x); [apply ends_fail; auto|by intros w].
  - destruct (check_ca x); simpl; [by intros w|apply ends_fail; auto].
Qed.

Lemma ends_link_step chain i v :
  ends_with status_reported (fun _ _ => True) (link_step chain i v).
Proof.
  unfold link_step.
  eapply ends_bind; [apply ends_or_raise|intros x].
  eapply ends_bind; [apply ends_or_raise|intros prev_x].
  destruct (link_verify prev_x x) as [[c b]|algorithm].
  - eapply ends_bind with (Q1 := fun _ _ => True); [by intros w|intros _].
    destruct b; simpl; [by intros w|apply ends_fail; auto].
  - intros w. destruct algorithm; [|done].
    apply (ends_fail _ "Algorithm not supported" (PyBool false)). auto.
Qed.

Lemma ends_resolve_anchor ca chain :
  ends_with status_reported (fun _ _ => True) (resolve_anchor ts ca chain).
Proof.
  unfold resolve_anchor. case_bool_decide; [|by intros w].
  destruct (ca_keyID ts !! get_issuer_keyID ca) as [f|]; [|apply ends_fail; auto].
  case_bool_decide; [apply ends_fail; auto|].
  eapply ends_bind; [apply ends_or_raise|by intros root w].
Qed.

Lemma ends_check_signatures p ca chain :
  ends_with status_reported (fun _ _ => False) (check_signatures p ca chain).
Proof.
  unfold check_signatures.
  eapply ends_bind.
  { apply ends_for_each. intros. apply ends_link_step. }
  intros v. eapply ends_bind; [apply ends_or_raise|intros x0].
  destruct (envelope_verify (publicKey x0) p v) as [c v'].
  eapply ends_bind with (Q1 := fun _ _ => True).
  { by destruct c; intros w. }
  intros _. eapply ends_bind; [apply ends_or_raise|intros b].
  destruct b; simpl; [|apply ends_fail; auto].
  intros w. unfold bind, set_error, return_. simpl.
  split; [by eexists|]. right. right. split; [done|]. right. by eexists.
Qed.

Lemma ends_verify_x509 p :
  ends_with status_reported (fun _ _ => False) (verify_x509 ts p).
Proof.
  unfold verify_x509. case_bool_decide; [apply ends_fail; auto|].
  eapply ends_bind; [apply ends_or_raise|intros certificate].
  eapply ends_bind.
  { apply ends_for_each. intros. apply ends_parse_step. }
  intros chain. case_bool_decide; simpl; [|apply ends_fail; auto].
  eapply ends_bind; [apply ends_or_raise|intros ca].
  eapply ends_bind; [apply ends_resolve_anchor|intros chain'].
  apply ends_check_signatures.
Qed.

Lemma ends_verify_dnssec p contacts :
  ends_with status_reported (fun _ _ => False) (verify_dnssec p contacts).
Proof.
  unfold verify_dnssec.
  eapply ends_bind with (Q1 := fun _ _ => True); [by intros w|intros _].
  case_bool_decide; simpl; [|apply ends_fail; auto].
  case_bool_decide; [|apply ends_fail; auto].
  eapply ends_bind with (Q1 := fun _ _ => True); [by intros w|intros _].
  eapply ends_bind with (Q1 := fun _ _ => True); [by intros w|intros _].
  destruct (bitcoin_verify_message _ _ _); [|apply ends_fail; auto].
  intros w. unfold bind, set_error, return_. simpl.
  split; [by eexists|]. right. right. split; [done|]. by left.
Qed.

Lemma ends_verify contacts :
  ends_with status_reported (fun _ _ => False) (verify ts contacts).
Proof.
  unfold verify.
  eapply ends_bind with (Q1 := fun _ _ => True); [by intros w|intros me].
  case_bool_decide; [apply ends_fail; auto|].
  eapply ends_bind; [apply ends_or_raise|intros p].
  case_bool_decide; [apply ends_fail; auto|].
  case_bool_decide; [apply ends_verify_x509|].
  case_bool_decide; [apply ends_verify_dnssec|apply ends_fail; auto].
Qed.

(** [verify] acts on the world only through [set_error], [set_requestor]
    and the call log: a property of the world that these three keep is
    kept by [verify], however it ends. *)
Lemma verify_frame (P : world -> Prop) contacts :
  (forall msg, preserves P (set_error msg)) ->
  (forall r, preserves P (set_requestor r)) ->
  (forall c, preserves P (log c)) ->
  preserves P (verify ts contacts).
Proof.
  intros Herr Hreq Hlog.
  assert (forall A msg v, preserves P (set_error msg ;;; @return_ A v)) as Hfail.
  { intros. apply preserves_bind; [apply Herr|intros; apply preserves_pure]. }
  assert (forall certificate i chain, preserves P (parse_step certificate i chain))
    as Hparse.
  { intros. unfold parse_step.
    apply preserves_bind; [apply preserves_or_raise|intros b].
    apply preserves_bind; [apply preserves_or_raise|intros x].
    apply preserves_bind; [|intros; apply preserves_pure].
    case_bool_decide.
    - destruct (check_date x); [apply Hfail|apply Hreq].
    - destruct (check_ca x); simpl; [apply preserves_pure|apply Hfail]. }
  assert (forall chain i v, preserves P (link_step chain i v)) as Hlink.
  { intros. unfold link_step.
    apply preserves_bind; [apply preserves_or_raise|intros x].
    apply preserves_bind; [apply preserves_or_raise|intros prev_x].
    destruct (link_verify prev_x x) as [[cl b]|algorithm].
    - apply preserves_bind; [apply Hlog|intros _].
      destruct b; simpl; [apply preserves_pure|apply Hfail].
    - apply preserves_bind; [apply Herr|intros _].
      apply preserves_bind; [apply preserves_or_raise|intros; apply preserves_pure]. }
  unfold verify.
  apply preserves_bind; [by intros w Hw|intros me].
  case_bool_decide; [apply Hfail|].
  apply preserves_bind; [apply preserves_or_raise|intros p].
  case_bool_decide; [apply Hfail|].
  case_bool_decide; [|case_bool_decide; [|apply Hfail]].
  - unfold verify_x509. case_bool_decide; [apply Hfail|].
    apply preserves_bind; [apply preserves_or_raise|intros certificate].
    apply preserves_bind; [by apply preserves_for_each|intros chain].
    case_bool_decide; simpl; [|apply Hfail].
    apply preserves_bind; [apply preserves_or_raise|intros ca].
    apply preserves_bind.
    { unfold resolve_anchor. case_bool_decide; [|apply preserves_pure].
      destruct (ca_keyID ts !! get_issuer_keyID ca) as [f|]; [|apply Hfail].
      case_bool_decide; [apply Hfail|].
      apply preserves_bind; [apply preserves_or_raise|intros; apply preserves_pure]. }
    intros chain'. unfold check_signatures.
    apply preserves_bind; [by apply preserves_for_each|intros v].
    apply preserves_bind; [apply preserves_or_raise|intros x0].
    destruct (envelope_verify (publicKey x0) p v) as [cl v'].
    apply preserves_bind.
    { destruct cl; [apply Hlog|apply preserves_pure]. }
    intros _. apply preserves_bind; [apply preserves_or_raise|intros b].
    destruct b; simpl; apply Hfail.
  - unfold verify_dnssec.
    apply preserves_bind; [apply Hlog|intros _].
    case_bool_decide; simpl; [|apply Hfail].
    case_bool_decide; [|apply Hfail].
    apply preserves_bind; [apply Hreq|intros _].
    apply preserves_bind; [apply Hlog|intros _].
    destruct (bitcoin_verify_message _ _ _); apply Hfail.
Qed.

End Ends.

(** X8. Every return of [verify] reports a status: whenever [verify]
    returns rather than raises, [self.error] has been set, the value is
    [None], [False] or [True], and [True] only comes with ["Verified with
    DNSSEC"] or a ["Signed by Trusted CA: ..."] status. *)
Theorem verify_reports_status `{Ext : Externals}
    (ts : TrustStore) (contacts : Contacts) (w w' : world) (v : pyval) :
  run (verify ts contacts) w = (Returned v, w') ->
  status_reported v w'.
Proof.
  intros H. pose proof (ends_verify ts contacts w) as Hend.
  unfold run in H.
  destruct (verify ts contacts w) as [[[]|v0|e] w1]; [done| |done].
  by injection H as <- <-.
Qed.

(** X9. [verify] changes nothing of the request but its status and its
    requestor: the raw bytes, the decoded details and the settling
    transaction are the same afterwards, whether it returned or raised. *)
Theorem verify_keeps_payload `{Ext : Externals}
    (ts : TrustStore) (contacts : Contacts) (w : world) :
  same_payload (self w) (snd (run (verify ts contacts) w)).
Proof.
  assert (same_payload (self w) (snd (verify ts contacts w))) as H.
  { apply (verify_frame ts (same_payload (self w))); try by intros ? w0 Hw0.
    by split_and!. }
  unfold run. by destruct (verify ts contacts w) as [[[]|v0|e] w1].
Qed.

(** ** The further properties on sample requests *)

Lemma shop_root_supplied :
  supplied_chain (Ext := Samples.ext) ["der-shop"; "der-root"] [shop_cert; root_cert].
Proof.
  split.
  - repeat constructor.
  - intros l [= <-]. reflexivity.
  - intros [|[|i]] x Hi Hx; simpl in Hx; try lia; [|done].
    by injection Hx as <-.
Qed.

Lemma shop_root_presented p :
  pki_data p = "certs:shop,root" ->
  presented_chain (Ext := Samples.ext) store p shop_cert root_cert [shop_cert; root_cert].
Proof.
  intros Hp. exists ["der-shop"; "der-root"], [shop_cert; root_cert].
  split_and!.
  - rewrite Hp. reflexivity.
  - exact shop_root_supplied.
  - simpl. lia.
  - reflexivity.
  - reflexivity.
  - apply (anchored_supplied _ _ root_cert); [reflexivity|].
    exists root_cert. reflexivity.
Qed.

Lemma shop_root_accepted p :
  pki_data p = "certs:shop,root" ->
  accepted_chain (Ext := Samples.ext) store p shop_cert root_cert.
Proof.
  intros Hp. exists [shop_cert; root_cert]. split; [by apply shop_root_presented|].
  intros [|[|i]] px x Hi Hpx Hx; simpl in Hpx, Hx; try lia; [|done].
  injection Hpx as <-. injection Hx as <-. eapply signed_sha256; reflexivity.
Qed.

Lemma sample_store_nonempty : ca_list store <> ∅.
Proof. apply (ca_list_nonempty store "fp-root"). by exists root_cert. Qed.

(** An envelope of type ["none"] with the shop's certificates and an
    arbitrary signature is accepted by [verify_x509]. *)
Lemma verify_x509_other_type_skips_envelope_check_witness :
  signature Samples.untyped_request = "anything" /\
  exists w',
    run (verify_x509 (Ext := Samples.ext) store Samples.untyped_request)
      (Samples.start "raw:untyped")
    = (Returned (PyBool true), w').
Proof.
  split; [reflexivity|].
  destruct (verify_x509_other_type_skips_envelope_check (Ext := Samples.ext)
              store (Samples.start "raw:untyped") Samples.untyped_request
              shop_cert root_cert) as [cs Hcs].
  - by apply shop_root_accepted.
  - intros Hin. apply list_elem_of_In in Hin. simpl in Hin.
    destruct Hin as [Hin|[Hin|[]]]; discriminate Hin.
  - eexists. exact Hcs.
Defined.

Lemma verify_x509_rejects_unflagged_certificate_witness :
  run (verify_x509 (Ext := Samples.ext) store Samples.unflagged_request)
    (Samples.start "raw:unflagged")
  = (Returned PyNone,
     with_error "ERROR: Supplied CA Certificate Error"
       (with_requestor "shop.example" (Samples.start "raw:unflagged"))).
Proof.
  apply (verify_x509_rejects_unflagged_certificate (Ext := Samples.ext) store
           (Samples.start "raw:unflagged") Samples.unflagged_request
           ["der-shop"; "der-leaf"] 1 [shop_cert] shop_cert leaf_cert "der-leaf").
  - exact sample_store_nonempty.
  - reflexivity.
  - lia.
  - split.
    + repeat constructor.
    + intros l [= <-]. reflexivity.
    + intros [|i] x Hi Hx; [lia|done].
  - reflexivity.
  - reflexivity.
  - reflexivity.
  - reflexivity.
Defined.

(** The second blob of this request is not a certificate at all; the
    stale leaf is rejected before that is noticed. *)
Lemma verify_x509_rejects_leaf_outside_window_witness :
  x509_parseBinary (Externals := Samples.ext) "not a certificate" = None /\
  run (verify_x509 (Ext := Samples.ext) store Samples.stale_chain_request)
    (Samples.start "raw:stale-chain")
  = (Returned PyNone,
     with_error "Certificate has expired." (Samples.start "raw:stale-chain")).
Proof.
  split; [reflexivity|].
  apply (verify_x509_rejects_leaf_outside_window (Ext := Samples.ext) store
           (Samples.start "raw:stale-chain") Samples.stale_chain_request
           "der-stale" ["not a certificate"] stale_cert).
  - exact sample_store_nonempty.
  - reflexivity.
  - reflexivity.
  - reflexivity.
Defined.

Lemma leaf_root_presented :
  presented_chain (Ext := Samples.ext) store Samples.mislinked_request
    leaf_cert root_cert [leaf_cert; root_cert].
Proof.
  exists ["der-leaf"; "der-root"], [leaf_cert; root_cert]. split_and!.
  - reflexivity.
  - split.
    + repeat constructor.
    + intros l [= <-]. reflexivity.
    + intros [|[|i]] x Hi Hx; simpl in Hx; try lia; [|done].
      by injection Hx as <-.
  - simpl. lia.
  - reflexivity.
  - reflexivity.
  - apply (anchored_supplied _ _ root_cert); [reflexivity|].
    exists root_cert. reflexivity.
Qed.

Lemma odd_root_presented :
  presented_chain (Ext := Samples.ext) store Samples.odd_request
    Samples.odd_cert root_cert [Samples.odd_cert; root_cert].
Proof.
  exists ["der-odd"; "der-root"], [Samples.odd_cert; root_cert]. split_and!.
  - reflexivity.
  - split.
    + repeat constructor.
    + intros l [= <-]. reflexivity.
    + intros [|[|i]] x Hi Hx; simpl in Hx; try lia; [|done].
      by injection Hx as <-.
  - simpl. lia.
  - reflexivity.
  - reflexivity.
  - apply (anchored_supplied _ _ root_cert); [reflexivity|].
    exists root_cert. reflexivity.
Qed.

(** One leaf was signed by the issuing CA, but its request presents the
    root as its issuer; the other carries an ECDSA signature, whose
    identifier is a string and cannot be asked for a component. *)
Lemma verify_x509_stops_at_first_bad_link_witness :
  (exists cs,
     run (verify_x509 (Ext := Samples.ext) store Samples.mislinked_request)
       (Samples.start "raw:mislinked")
     = (Returned (PyBool false),
        with_error "Certificate not Signed by Provided CA Certificate Chain"
          (with_calls cs
             (with_requestor "merchant.example" (Samples.start "raw:mislinked")))))
  /\
  (exists cs,
     run (verify_x509 (Ext := Samples.ext) store Samples.odd_request)
       (Samples.start "raw:odd")
     = (Raised AttributeError,
        with_error "Algorithm not supported"
          (with_calls cs
             (with_requestor "odd.example" (Samples.start "raw:odd"))))).
Proof.
  split.
  - destruct (verify_x509_stops_at_first_bad_link (Ext := Samples.ext) store
                (Samples.start "raw:mislinked") Samples.mislinked_request
                leaf_cert root_cert [leaf_cert; root_cert] 1 leaf_cert root_cert)
      as [_ Hbad].
    + exact leaf_root_presented.
    + lia.
    + reflexivity.
    + reflexivity.
    + intros j px y Hj. lia.
    + apply Hbad. eapply refused_sha256; reflexivity.
  - destruct (verify_x509_stops_at_first_bad_link (Ext := Samples.ext) store
                (Samples.start "raw:odd") Samples.odd_request
                Samples.odd_cert root_cert [Samples.odd_cert; root_cert] 1
                Samples.odd_cert root_cert)
      as [Hnone _].
    + exact odd_root_presented.
    + lia.
    + reflexivity.
    + reflexivity.
    + intros j px y Hj. lia.
    + apply (Hnone None "ecdsa-sig" "tbs-odd"). reflexivity.
Defined.

Lemma verify_x509_rejects_bad_envelope_signature_witness :
  exists cs,
    run (verify_x509 (Ext := Samples.ext) store Samples.forged_shop_request)
      (Samples.start "raw:shop-forged")
    = (Returned (PyBool false),
       with_error "ERROR: Invalid Signature for Payment Request Data"
         (with_calls cs
            (with_requestor "shop.example" (Samples.start "raw:shop-forged")))).
Proof.
  apply (verify_x509_rejects_bad_envelope_signature (Ext := Samples.ext) store
           (Samples.start "raw:shop-forged") Samples.forged_shop_request
           shop_cert root_cert).
  - by apply shop_root_accepted.
  - by left.
  - intros [_ Hv|Hty _]; [|discriminate Hty].
    vm_compute in Hv. discriminate Hv.
Defined.

Lemma verify_dnssec_btc_outcome_witness :
  run (verify (Ext := Samples.ext) store contacts) (Samples.start "raw:alice")
  = (Returned (PyBool true),
     with_error "Verified with DNSSEC"
       (with_calls [CallVerifyMessage]
          (with_requestor "alice@example.org"
             (with_calls [CallResolve "alice@example.org"]
                (Samples.start "raw:alice"))))) /\
  run (verify (Ext := Samples.ext) store contacts) (Samples.start "raw:alice-forged")
  = (Returned (PyBool false),
     with_error "verify failed"
       (with_calls [CallVerifyMessage]
          (with_requestor "alice@example.org"
             (with_calls [CallResolve "alice@example.org"]
                (Samples.start "raw:alice-forged"))))).
Proof.
  split.
  - apply (verify_dnssec_btc_outcome (Ext := Samples.ext) store contacts
             (Samples.start "raw:alice") Samples.alice_request).
    + discriminate.
    + reflexivity.
    + discriminate.
    + reflexivity.
    + reflexivity.
  - apply (verify_dnssec_btc_outcome (Ext := Samples.ext) store contacts
             (Samples.start "raw:alice-forged") alice_forged_request).
    + discriminate.
    + reflexivity.
    + discriminate.
    + reflexivity.
    + reflexivity.
Defined.

Lemma verify_reports_status_witness :
  status_reported (PyBool false)
    (snd (run (verify (Ext := Samples.ext) store contacts)
            (Samples.start "raw:mislinked"))).
Proof.
  apply (verify_reports_status (Ext := Samples.ext) store contacts
           (Samples.start "raw:mislinked")).
  vm_compute. reflexivity.
Defined.

(** * Properties of the rest of the module *)

(** ** Hexadecimal strings *)

Lemma hex_value_digit (n : N) : (n < 16)%N -> hex_value (hex_digit n) = Some n.
Proof.
  intros Hn. destruct n as [|p]; [reflexivity|].
  do 4 (try destruct p as [p|p|]); try reflexivity; lia.
Qed.

Lemma hex_pair (a : ascii) :
  hex_value (hex_digit (N_of_ascii a / 16)) = Some (N_of_ascii a / 16)%N /\
  hex_value (hex_digit (N_of_ascii a mod 16)) = Some (N_of_ascii a mod 16)%N /\
  ascii_of_N (16 * (N_of_ascii a / 16) + N_of_ascii a mod 16) = a.
Proof.
  pose proof (N_ascii_bounded a) as Hb.
  split_and!.
  - apply hex_value_digit. apply N.Div0.div_lt_upper_bound. lia.
  - apply hex_value_digit. apply N.mod_lt. lia.
  - rewrite <- N.div_mod by lia. apply ascii_N_embedding.
Qed.

(** Hex encoding is lossless: decoding the hex form of any byte string
    gives the string back. *)
Lemma hex_decode_encode (s : string) : hex_decode (hex_encode s) = Some s.
Proof.
  induction s as [|a s IH]; [reflexivity|].
  cbn [hex_encode hex_decode].
  destruct (hex_pair a) as (-> & -> & ->). by rewrite IH.
Qed.

(** ** InvoiceStore *)

Section StoreFacts.
Context `{Msg : Messages} `{Btc : Bitcoin} `{Js : Json}.

Lemma saving_book {A} store (a : A) r sh' :
  saving store a = (r, sh') ->
  book sh' = store /\
  ((r = Done a /\ file sh' = json_dumps (saved_entry <$> invoices store) /\
    is_Some (json_dumps (saved_entry <$> invoices store))) \/
   (r = Failed CannotEncode /\ file sh' = Some json_blank /\
    json_dumps (saved_entry <$> invoices store) = None)).
Proof.
  unfold saving, save.
  destruct (json_dumps (saved_entry <$> invoices store)) as [text|] eqn:Hd;
    intros [= <- <-]; simpl; (split; [done|]); [left|right]; split_and!; eauto.
Qed.

Lemma PaymentRequest_new_raw data pr a :
  PaymentRequest_new data = Some (pr, a) ->
  raw pr = data /\ requestor pr = None /\ tx pr = None.
Proof.
  unfold PaymentRequest_new.
  destruct (pb2_PaymentRequest_ParseFromString data) as [e|].
  - destruct (pb2_PaymentDetails_message _) as [m|]; [|done].
    destruct (parse_outputs _); [|done]. by intros [= <- <-].
  - by intros [= <- <-].
Qed.

(** The full constructor and the one restricted to the attributes the
    verification methods use build the same object. *)
Lemma PaymentRequest_new_init data pr a :
  PaymentRequest_new data = Some (pr, a) -> PaymentRequest_init data = Some pr.
Proof.
  unfold PaymentRequest_new, PaymentRequest_init.
  destruct (pb2_PaymentRequest_ParseFromString data) as [e|]; [|by intros [= <- <-]].
  rewrite pb2_PaymentDetails_agree.
  destruct (pb2_PaymentDetails_message _) as [m|]; [|done]. simpl.
  destruct (parse_outputs _); [|done]. by intros [= <- <-].
Qed.

Lemma get_requestor_restored pr0 t pr :
  get_requestor (restored pr0 t (Some (get_requestor pr))) = get_requestor pr.
Proof.
  unfold get_requestor, restored. cbn [requestor].
  destruct (requestor pr) as [r|]; [|reflexivity].
  destruct (truthy (PyStr r)) eqn:Hr; [by rewrite Hr|reflexivity].
Qed.

Lemma load_saved_entry pr :
  load_entry (saved_entry pr)
  = match PaymentRequest_new (raw pr) with
    | Some (pr0, _) => Some (restored pr0 (tx pr) (Some (get_requestor pr)))
    | None => None
    end.
Proof.
  unfold load_entry, saved_entry. simpl. rewrite hex_decode_encode.
  by destruct (PaymentRequest_new (raw pr)) as [[pr0 a]|].
Qed.

Lemma get_status_tx now store store' key pr pr' :
  get store key = Some pr -> get store' key = Some pr' ->
  tx pr' = tx pr -> details pr' = details pr ->
  get_status now store' key = get_status now store key.
Proof.
  intros Hg Hg' Htx Hd. unfold get_status. rewrite Hg, Hg', Htx.
  unfold has_expired. by rewrite Hd.
Qed.

End StoreFacts.

(** X10. [add] stores a request under its id only if the id is new: for
    a new id the request is found by [get] afterwards, every other entry
    is as before, and the file holds the new snapshot (or, when
    [json.dumps] raises, has been truncated while the request stays in
    memory); for an id already present, [add] returns the id and changes
    neither the store nor the file, keeping the request that was there. *)
Theorem add_then_get `{Msg : Messages} `{Btc : Bitcoin} `{Js : Json}
    (sh : shelf) (pr : PaymentRequest) :
  (get (book sh) (get_id pr) = None ->
   forall r sh', add sh pr = (r, sh') ->
     get (book sh') (get_id pr) = Some pr /\
     (forall k, k <> get_id pr -> get (book sh') k = get (book sh) k) /\
     ((r = Done (get_id pr) /\
       file sh' = json_dumps (saved_entry <$> invoices (book sh')) /\
       is_Some (file sh')) \/
      (r = Failed CannotEncode /\ file sh' = Some json_blank))) /\
  (forall old, get (book sh) (get_id pr) = Some old ->
     add sh pr = (Done (get_id pr), sh)).
Proof.
  unfold add, get. split.
  - intros Hnone r sh' H. rewrite Hnone in H.
    apply saving_book in H as (Hbook & Hfile). rewrite Hbook. simpl.
    split_and!.
    + apply lookup_insert_eq.
    + intros k Hk. by apply lookup_insert_ne.
    + destruct Hfile as [(-> & -> & Hs)|(-> & -> & _)]; [left|right]; auto.
  - intros old Hold. by rewrite Hold.
Qed.

(** X11. [remove] of an id that is in the store makes [get] return
    [None] for it and leaves every other entry as it was; [remove] of an
    id that is not in the store raises [KeyError] and changes neither the
    store nor the file. *)
Theorem remove_then_get `{Msg : Messages} `{Btc : Bitcoin} `{Js : Json}
    (sh : shelf) (key : string) :
  (get (book sh) key = None -> remove sh key = (Failed NoSuchKey, sh)) /\
  (is_Some (get (book sh) key) ->
   forall r sh', remove sh key = (r, sh') ->
     get (book sh') key = None /\
     (forall k, k <> key -> get (book sh') k = get (book sh) k) /\
     (r = Done tt \/ r = Failed CannotEncode)).
Proof.
  unfold remove, get. split.
  - by intros ->.
  - intros [pr Hpr] r sh' H. rewrite Hpr in H.
    apply saving_book in H as (Hbook & Hfile). rewrite Hbook. simpl.
    split_and!.
    + apply lookup_delete_eq.
    + intros k Hk. by apply lookup_delete_ne.
    + destruct Hfile as [(-> & _)|(-> & _)]; auto.
Qed.

(** X12. Paid takes precedence: after [set_paid] on an id that is in the
    store, [get_status] is [PR_PAID] at any time and whatever the expiry
    of the request, the request keeps its bytes, details and requestor,
    and the other entries are as before; on an id that is not in the
    store [set_paid] raises [KeyError] and changes nothing. *)
Theorem set_paid_then_status `{Msg : Messages} `{Btc : Bitcoin} `{Js : Json}
    (sh : shelf) (key tx_hash : string) :
  (get (book sh) key = None -> set_paid sh key tx_hash = (Failed NoSuchKey, sh)) /\
  (forall pr, get (book sh) key = Some pr ->
   forall r sh', set_paid sh key tx_hash = (r, sh') ->
     (forall now, get_status now (book sh') key = Returned (PyInt PR_PAID)) /\
     get (book sh') key = Some (restored pr (Some tx_hash) (requestor pr)) /\
     (forall k, k <> key -> get (book sh') k = get (book sh) k)).
Proof.
  unfold set_paid, get. split.
  - by intros ->.
  - intros pr Hpr r sh' H. rewrite Hpr in H.
    apply saving_book in H as (Hbook & _). rewrite Hbook.
    split_and!.
    + intros now. unfold get_status, get. simpl. by rewrite lookup_insert_eq.
    + simpl. apply lookup_insert_eq.
    + intros k Hk. simpl. by apply lookup_insert_ne.
Qed.

(** X13. Save and reload. When [json.dumps] accepts the snapshot and
    [json.loads] reads it back, a store initialised from the saved file
    holds, under the same id, every request whose bytes the constructor
    accepts, and only those; each comes back with the same bytes and
    settling transaction, with [get_requestor] unchanged (a requestor
    that was [None] comes back as the string ["unknown"]) and without its
    verification status; and its [get_status] is unchanged if its details
    were the ones its bytes decode to. *)
Theorem save_then_reload `{Msg : Messages} `{Btc : Bitcoin} `{Js : Json}
    (store : InvoiceStore) (text : json_text) :
  json_dumps (saved_entry <$> invoices store) = Some text ->
  json_loads text = Object (saved_entry <$> invoices store) ->
  exists store',
    save store = (Done tt, Some text) /\
    InvoiceStore_init (Some text) = Done store' /\
    (forall k, get store k = None -> get store' k = None) /\
    (forall k pr, get store k = Some pr ->
       PaymentRequest_new (raw pr) = None -> get store' k = None) /\
    (forall k pr pr0 a, get store k = Some pr ->
       PaymentRequest_new (raw pr) = Some (pr0, a) ->
       exists pr',
         get store' k = Some pr' /\
         raw pr' = raw pr /\ tx pr' = tx pr /\
         get_requestor pr' = get_requestor pr /\
         requestor pr' = Some (get_requestor pr) /\
         error pr' = error pr0 /\
         (details pr = details pr0 ->
          forall now, get_status now store' k = get_status now store k)).
Proof.
  intros Hdumps Hloads.
  exists {| invoices := omap load_entry (saved_entry <$> invoices store) |}.
  unfold save, InvoiceStore_init. rewrite Hdumps, Hloads.
  assert (forall k,
            omap load_entry (saved_entry <$> invoices store) !! k
            = invoices store !! k ≫= fun pr => load_entry (saved_entry pr)) as Hk.
  { intros k. rewrite lookup_omap, lookup_fmap.
    by destruct (invoices store !! k). }
  split_and!; auto.
  - intros k Hnone. unfold get in *. simpl. by rewrite Hk, Hnone.
  - intros k pr Hpr Hnew. unfold get in *. simpl.
    rewrite Hk, Hpr. simpl. by rewrite load_saved_entry, Hnew.
  - intros k pr pr0 a Hpr Hnew.
    pose proof (PaymentRequest_new_raw _ _ _ Hnew) as (Hraw & _ & _).
    exists (restored pr0 (tx pr) (Some (get_requestor pr))).
    assert (get {| invoices := omap load_entry (saved_entry <$> invoices store) |} k
            = Some (restored pr0 (tx pr) (Some (get_requestor pr)))) as Hget.
    { unfold get in *. simpl. rewrite Hk, Hpr. simpl.
      by rewrite load_saved_entry, Hnew. }
    split_and!; auto.
    + apply get_requestor_restored.
    + intros Hd now. by eapply get_status_tx.
Qed.

(** X14. The keys of the store are the ids of its requests, and the
    operations keep it so: if every entry of the store sits under the id
    of its request, the same holds after [add], [remove] and [set_paid],
    however they end. *)
Theorem store_keys_are_ids `{Msg : Messages} `{Btc : Bitcoin} `{Js : Json}
    (sh : shelf) :
  (forall k pr, get (book sh) k = Some pr -> k = get_id pr) ->
  (forall pr0 r sh', add sh pr0 = (r, sh') ->
     forall k pr, get (book sh') k = Some pr -> k = get_id pr) /\
  (forall key r sh', remove sh key = (r, sh') ->
     forall k pr, get (book sh') k = Some pr -> k = get_id pr) /\
  (forall key tx_hash r sh', set_paid sh key tx_hash = (r, sh') ->
     forall k pr, get (book sh') k = Some pr -> k = get_id pr).
Proof.
  intros Hinv. unfold get in *. split_and!.
  - intros pr0 r sh' H k pr. unfold add in H.
    destruct (invoices (book sh) !! get_id pr0) eqn:Hold.
    + injection H as <- <-. apply Hinv.
    + apply saving_book in H as (-> & _). simpl.
      destruct (decide (k = get_id pr0)) as [->|Hne].
      * rewrite lookup_insert_eq. by intros [= <-].
      * rewrite lookup_insert_ne by done. apply Hinv.
  - intros key r sh' H k pr. unfold remove in H.
    destruct (invoices (book sh) !! key) eqn:Hold.
    + apply saving_book in H as (-> & _). simpl.
      destruct (decide (k = key)) as [->|Hne].
      * by rewrite lookup_delete_eq.
      * rewrite lookup_delete_ne by done. apply Hinv.
    + injection H as <- <-. apply Hinv.
  - intros key tx_hash r sh' H k pr. unfold set_paid in H.
    destruct (invoices (book sh) !! key) as [old|] eqn:Hold.
    + apply saving_book in H as (-> & _). simpl.
      destruct (decide (k = key)) as [->|Hne].
      * rewrite lookup_insert_eq. intros [= <-].
        by apply Hinv in Hold.
      * rewrite lookup_insert_ne by done. apply Hinv.
    + injection H as <- <-. apply Hinv.
Qed.

(** ** Amounts *)

Section Amounts.
Context `{Msg : Messages} `{Btc : Bitcoin}.

Lemma parse_outputs_amounts os outs :
  parse_outputs os = Some outs ->
  map (fun x => x.2) outs = map amount os /\
  Forall (fun x => x.1.1 = "address") outs.
Proof.
  revert outs. induction os as [|o os IH]; intros outs.
  - intros [= <-]. by split.
  - simpl. destruct (get_address_from_output_script (script o)) as [[ty addr]|];
      [|done].
    destruct (parse_outputs os) as [rest|]; [|done].
    intros [= <-]. destruct (IH rest eq_refl) as [Hm Hf].
    split; [simpl; by rewrite Hm|by constructor].
Qed.

Lemma parse_outputs_total os :
  Forall (fun o => is_Some (get_address_from_output_script (script o))) os ->
  is_Some (parse_outputs os).
Proof.
  induction 1 as [|o os [[ty addr] Ho] _ [rest IH]]; [by eexists|].
  simpl. rewrite Ho, IH. by eexists.
Qed.

End Amounts.

(** X15. The amount of a constructed request is the sum of the amounts of
    the outputs in its details, whatever their scripts decode to; every
    output is recorded with the type ["address"]; and with [uint64]
    amounts the sum is not negative (Python integers do not wrap). *)
Theorem get_amount_sums_outputs `{Msg : Messages} `{Btc : Bitcoin}
    (data : string) (me : PaymentRequest) (a : Attributes) :
  PaymentRequest_new data = Some (me, Some a) ->
  get_amount a = foldr Z.add 0 (map amount (msg_outputs (message a))) /\
  length (outputs a) = length (msg_outputs (message a)) /\
  Forall (fun x => x.1.1 = "address") (outputs a) /\
  (Forall (fun o => uint64 (amount o) = true) (msg_outputs (message a)) ->
   0 <= get_amount a).
Proof.
  unfold PaymentRequest_new.
  destruct (pb2_PaymentRequest_ParseFromString data) as [e|]; [|done].
  destruct (pb2_PaymentDetails_message _) as [m|]; [|done].
  destruct (parse_outputs (msg_outputs m)) as [outs|] eqn:Hp; [|done].
  intros [= <- <-]. simpl.
  destruct (parse_outputs_amounts _ _ Hp) as [Hm Hf].
  unfold get_amount. simpl. rewrite Hm. split_and!; auto.
  - apply (f_equal length) in Hm. by rewrite !length_map in Hm.
  - clear. induction 1 as [|o os Ho _ IH]; simpl; [lia|].
    unfold uint64 in Ho. apply andb_prop in Ho as [Ho _]. lia.
Qed.

(** ** Building and signing requests *)

Section Signing.
Context `{Msg : Messages} `{Btc : Bitcoin}.
Variable ts : TrustStore.

(** With an accepted chain and the envelope signed by the leaf,
    [verify_x509] returns [True]. *)
Lemma verify_x509_accepts p leaf ca w :
  accepted_chain ts p leaf ca ->
  envelope_signed_by leaf p ->
  exists cs,
    run (verify_x509 ts p) w
    = (Returned (PyBool true),
       with_error ("Signed by Trusted CA: " +:+ get_common_name ca)
         (with_calls cs
            (with_requestor (requestor_of_common_name (get_common_name leaf)) w))).
Proof.
  intros (chain' & Hpres & Hsigned) Henv.
  pose proof (presented_back ts p leaf ca chain' w Hpres) as (Hback & _ & Hleaf).
  destruct (check_signatures_ok p ca chain' leaf
              (with_requestor (requestor_of_common_name (get_common_name leaf)) w))
    as [cs Hcs]; auto.
  exists cs. unfold run. by rewrite Hback, Hcs.
Qed.

Lemma request_details_fields req pd :
  request_details req = Some pd ->
  map amount (msg_outputs pd) = [default 0 (req_amount req)] /\
  msg_memo pd = req_memo req /\
  msg_time pd = req_timestamp req /\
  msg_expires pd
  = match req_expiration req with
    | Some e => if bool_decide (e = 0) then 0 else req_timestamp req + e
    | None => 0
    end /\
  0 <= msg_expires pd.
Proof.
  unfold request_details.
  destruct (hex_decode _) as [sc|]; [|done].
  destruct (uint64 _ && uint64 _ && uint64 _) eqn:Hu; [|done].
  intros [= <-]. simpl.
  apply andb_prop in Hu as [_ Hu]. unfold uint64 in Hu.
  apply andb_prop in Hu as [Hu _]. apply Z.leb_le in Hu.
  split_and!; auto.
  destruct (req_expiration req) as [e|]; [|done]. simpl.
  case_bool_decide as He.
  - subst. reflexivity.
  - destruct (Z.eqb_spec e 0); [done|reflexivity].
Qed.

End Signing.

(** X16. An unsigned request read back. When the details built by
    [make_unsigned_request] and the envelope around them decode to what
    was serialized and the output script has an address, the request
    constructed from the bytes has the amount of [req] (0 when it is
    [None]) and its memo, and it expires exactly when [req] gives a
    non-zero expiration whose sum with the timestamp is non-zero and lies
    before the current time; without an expiration it never expires. *)
Theorem unsigned_request_read_back `{Msg : Messages} `{Btc : Bitcoin}
    (req : RequestDict) (pd : DetailsMessage) (pr : Envelope) (now : Z) :
  request_details req = Some pd ->
  make_unsigned_request req = Some pr ->
  pb2_PaymentRequest_ParseFromString (pb2_SerializeToString pr) = Some pr ->
  pb2_PaymentDetails_message (pb2_PaymentDetails_SerializeToString pd) = Some pd ->
  Forall (fun o => is_Some (get_address_from_output_script (script o)))
    (msg_outputs pd) ->
  exists me a,
    PaymentRequest_new (pb2_SerializeToString pr) = Some (me, Some a) /\
    signature pr = "" /\
    get_amount a = default 0 (req_amount req) /\
    memo a = req_memo req /\
    exists v,
      has_expired now me = Returned v /\
      (truthy v = true <->
       exists e, req_expiration req = Some e /\ e <> 0 /\
                 req_timestamp req + e <> 0 /\ req_timestamp req + e < now).
Proof.
  intros Hpd Hpr Henv Hdet Hscripts.
  unfold make_unsigned_request in Hpr. rewrite Hpd in Hpr. injection Hpr as <-.
  destruct (parse_outputs_total _ Hscripts) as [outs Houts].
  destruct (parse_outputs_amounts _ _ Houts) as [Hamounts _].
  destruct (request_details_fields req pd Hpd) as (Hamt & Hmemo & _ & Hexp & Hpos).
  eexists _, _. split.
  { unfold PaymentRequest_new. rewrite Henv. simpl. rewrite Hdet, Houts.
    reflexivity. }
  split; [reflexivity|]. split.
  { unfold get_amount. simpl. rewrite Hamounts, Hamt. simpl. lia. }
  split; [done|].
  unfold has_expired. simpl.
  destruct (Z.eqb_spec (msg_expires pd) 0) as [Hz|Hnz]; simpl.
  - eexists. split; [reflexivity|]. rewrite Hz. simpl. split; [done|].
    intros (e & He & Hne & Hsum & _). rewrite He in Hexp.
    rewrite bool_decide_false in Hexp by done. lia.
  - eexists. split; [reflexivity|]. simpl. rewrite Z.ltb_lt. split.
    + intros Hlt. destruct (req_expiration req) as [e|]; [|done].
      case_bool_decide; [done|]. exists e. split_and!; auto; lia.
    + intros (e & He & Hne & Hsum & Hlt). rewrite He in Hexp.
      rewrite bool_decide_false in Hexp by done. lia.
Qed.

(** X17. Signing with an alias, then verifying. A request whose signature
    field is empty when it is signed by [sign_request_with_alias] is
    accepted by [verify_dnssec] (and by [verify], once the bytes decode to
    it) whenever the resolver reports the alias as validated with the
    address of the signing key and the message-signature primitive
    accepts its own signature: the bytes that are verified, the envelope
    with its signature cleared, are the bytes that were signed. *)
Theorem signed_with_alias_verifies `{Msg : Messages} `{Btc : Bitcoin}
    (ts : TrustStore) (contacts : Contacts) (pr : Envelope)
    (alias alias_privkey : string) (w : world) :
  signature pr = "" ->
  let signed := sign_request_with_alias pr alias alias_privkey in
  let message := pb2_SerializeToString (clear_signature signed) in
  dict_get (contacts alias) "validated" = PyBool true ->
  dict_get (contacts alias) "address"
  = PyStr (address_from_private_key alias_privkey) ->
  bitcoin_verify_message (PyStr (address_from_private_key alias_privkey))
    (sign_message alias_privkey message) message = true ->
  let w' := with_error "Verified with DNSSEC"
              (with_calls [CallVerifyMessage]
                 (with_requestor alias (with_calls [CallResolve alias] w))) in
  run (verify_dnssec signed contacts) w = (Returned (PyBool true), w') /\
  (raw (self w) <> "" ->
   pb2_PaymentRequest_ParseFromString (raw (self w)) = Some signed ->
   signature signed <> "" ->
   run (verify ts contacts) w = (Returned (PyBool true), w')).
Proof.
  intros Hsig signed message Hval Haddr Hok w'.
  assert (run (verify_dnssec signed contacts) w = (Returned (PyBool true), w'))
    as Hrun.
  { subst w' message signed.
    unfold sign_request_with_alias, clear_signature in *. simpl in *.
    rewrite Hsig in *.
    unfold run, verify_dnssec, bind, log, clear_signature. simpl.
    rewrite bool_decide_true by done. simpl.
    by rewrite Haddr, Hok. }
  split; [exact Hrun|].
  intros Hraw Hdec Hne. unfold run.
  rewrite (verify_dispatch_dnssec ts contacts w signed); auto. by left.
Qed.

(** X18. Signing with a certificate key, then verifying. A request whose
    signature field is empty when it is signed by
    [sign_request_with_x509] carries an envelope signature that verifies
    under the public key [leaf] whenever that key accepts what the private
    key signs; so with a chain for [leaf] that [verify_x509] accepts, the
    signed request verifies. *)
Theorem signed_with_x509_verifies `{Msg : Messages} `{Btc : Bitcoin}
    (ts : TrustStore) (pr : Envelope) (rsakey : RSAPrivateKey)
    (x509List : list string) (leaf ca : X509) (w : world) :
  signature pr = "" ->
  let signed := sign_request_with_x509 pr rsakey x509List in
  let padded := PREFIX_RSA_SHA256 +:+
                hashlib_sha256 (pb2_SerializeToString (clear_signature signed)) in
  rsa_verify (publicKey leaf) (rsa_sign rsakey padded) padded = true ->
  envelope_signed_by leaf signed /\
  (accepted_chain ts signed leaf ca ->
   exists w', run (verify_x509 ts signed) w = (Returned (PyBool true), w')).
Proof.
  intros Hsig signed padded Hok.
  assert (envelope_signed_by leaf signed) as Henv.
  { apply envelope_sha256; [reflexivity|].
    assert (signature signed = rsa_sign rsakey padded) as ->; [|exact Hok].
    unfold signed, padded, sign_request_with_x509, clear_signature. simpl.
    by rewrite Hsig. }
  split; [exact Henv|]. intros Hacc.
  destruct (verify_x509_accepts ts signed leaf ca w Hacc Henv) as [cs Hcs].
  eauto.
Qed.

Lemma hex_encode_nonempty s : s <> "" -> truthy (PyStr (hex_encode s)) = true.
Proof. by destruct s. Qed.

(** X19. [serialize_request] rebuilds a signed request from its hex
    signature. For a dictionary from which [make_unsigned_request] builds
    [pr]: without a signature (missing or empty) the result is [pr]; with
    the hex form of a non-empty signature it is [pr] typed [dnssec+btc]
    with that signature and the requestor as alias (the string ["None"]
    when the requestor is missing); in particular, given the hex of the
    signature made by [sign_request_with_alias] and its alias, the result
    is the request [sign_request_with_alias] made. A signature that is
    not hexadecimal makes it raise. *)
Theorem serialize_request_rebuilds `{Msg : Messages} `{Btc : Bitcoin}
    (req : RequestDict) (pr : Envelope) :
  make_unsigned_request req = Some pr ->
  (req_signature req = None \/ req_signature req = Some "" ->
   serialize_request req = Some pr) /\
  (forall sig, sig <> "" -> req_signature req = Some (hex_encode sig) ->
     serialize_request req
     = Some {| pki_type := "dnssec+btc";
               pki_data := py_str (req_requestor req);
               serialized_payment_details := serialized_payment_details pr;
               signature := sig |}) /\
  (forall alias alias_privkey,
     signature (sign_request_with_alias pr alias alias_privkey) <> "" ->
     req_signature req
     = Some (hex_encode (signature (sign_request_with_alias pr alias alias_privkey))) ->
     req_requestor req = Some alias ->
     serialize_request req = Some (sign_request_with_alias pr alias alias_privkey)) /\
  (forall sig, sig <> "" -> req_signature req = Some sig ->
     hex_decode sig = None -> serialize_request req = None).
Proof.
  intros Hpr.
  assert (forall sig, sig <> "" -> req_signature req = Some (hex_encode sig) ->
     serialize_request req
     = Some {| pki_type := "dnssec+btc";
               pki_data := py_str (req_requestor req);
               serialized_payment_details := serialized_payment_details pr;
               signature := sig |}) as Hhex.
  { intros sig Hne Hs. unfold serialize_request. rewrite Hpr, Hs.
    rewrite hex_encode_nonempty by done. by rewrite hex_decode_encode. }
  split_and!.
  - intros [Hs|Hs]; unfold serialize_request; by rewrite Hpr, Hs.
  - exact Hhex.
  - intros alias k Hne Hs Hreq. rewrite (Hhex _ Hne Hs), Hreq. reflexivity.
  - intros sig Hne Hs Hd. unfold serialize_request. rewrite Hpr, Hs, Hd.
    by destruct sig.
Qed.

(** ** Submitting a payment *)

(** X20. The posts of [send_ack]. Without a payment URL nothing is
    posted and the result is [(False, "no url")]. Otherwise the payment is
    posted once with certificate verification; it is posted a second
    time, without verification, exactly when the first post ended in an
    SSL error, and never a third time. A failure of the first post that
    is not an SSL error leaves [send_ack] as an exception, while any
    failure of the second is reported as [(False, "Payment
    Message/PaymentACK Failed")]. *)
Theorem send_ack_posts `{Msg : Messages} `{Btc : Bitcoin} `{Net : Transport}
    (pay_det : DetailsMessage) (raw_tx refund_addr : string) :
  let url := urlparse_geturl (msg_payment_url pay_det) in
  let pm := pb2_Payment_SerializeToString
              {| pay_merchant_data := msg_merchant_data pay_det;
                 pay_transactions := [raw_tx];
                 pay_refund_to := [pay_script refund_addr];
                 pay_memo := "Paid using Electrum" |} in
  let result := send_ack pay_det raw_tx refund_addr in
  (msg_payment_url pay_det = "" -> result = (AckReturned false "no url", [])) /\
  (msg_payment_url pay_det <> "" ->
   (requests_post url pm true <> SSLError -> result.2 = [(url, true)]) /\
   (requests_post url pm true = SSLError ->
    result.2 = [(url, true); (url, false)]) /\
   (requests_post url pm true = OtherError -> result.1 = AckRaised) /\
   (requests_post url pm true = SSLError ->
    (forall s r c, requests_post url pm false <> Response s r c) ->
    result.1 = AckReturned false "Payment Message/PaymentACK Failed")).
Proof.
  intros url pm result. unfold result, send_ack. split.
  - by intros ->.
  - intros Hurl.
    assert (truthy (PyStr (msg_payment_url pay_det)) = true) as ->.
    { simpl. by rewrite bool_decide_false. }
    simpl negb. cbv iota. fold pm url.
    destruct (requests_post url pm true) as [s r c| |] eqn:H1; split_and!;
      try done.
    + by destruct (requests_post url pm false).
    + intros _ Hno. destruct (requests_post url pm false) as [s r c| |]; try done.
      by destruct (Hno s r c).
Qed.

(** X21. When [send_ack] reports success. [send_ack] returns [(True,
    memo)] exactly when there is a payment URL and the deciding response
    (the first post's, or the second's after an SSL error) has a status
    code below 500 and a body that parses as an acknowledgment with that
    memo; a status of 500 or more gives [(False, reason)] without the
    body being parsed. *)
Theorem send_ack_success `{Msg : Messages} `{Btc : Bitcoin} `{Net : Transport}
    (pay_det : DetailsMessage) (raw_tx refund_addr : string) (ack_memo : string) :
  let url := urlparse_geturl (msg_payment_url pay_det) in
  let pm := pb2_Payment_SerializeToString
              {| pay_merchant_data := msg_merchant_data pay_det;
                 pay_transactions := [raw_tx];
                 pay_refund_to := [pay_script refund_addr];
                 pay_memo := "Paid using Electrum" |} in
  let deciding :=
    match requests_post url pm true with
    | SSLError => requests_post url pm false
    | r => r
    end in
  ((send_ack pay_det raw_tx refund_addr).1 = AckReturned true ack_memo <->
   msg_payment_url pay_det <> "" /\
   exists s r c,
     deciding = Response s r c /\ s < 500 /\
     pb2_PaymentACK_ParseFromString c = Some ack_memo) /\
  (msg_payment_url pay_det <> "" ->
   forall s r c, deciding = Response s r c -> 500 <= s ->
     (send_ack pay_det raw_tx refund_addr).1 = AckReturned false r).
Proof.
  intros url pm deciding.
  assert (forall s r c,
            (read_ack (Response s r c) = AckReturned true ack_memo <->
             s < 500 /\ pb2_PaymentACK_ParseFromString c = Some ack_memo)) as Hread.
  { intros s r c. unfold read_ack.
    destruct (Z.leb_spec 500 s).
    - split; [done|]. intros [? _]. lia.
    - destruct (pb2_PaymentACK_ParseFromString c) as [m|].
      + split; [intros [= ->]; by split|intros [_ [= ->]]; done].
      + split; [done|]. by intros [_ ?]. }
  unfold send_ack. destruct (decide (msg_payment_url pay_det = "")) as [Hurl|Hurl].
  { rewrite Hurl. simpl. split; [|done]. split; [done|]. by intros [? _]. }
  assert (truthy (PyStr (msg_payment_url pay_det)) = true) as ->.
  { simpl. by rewrite bool_decide_false. }
  simpl negb. cbv iota. fold pm url. unfold deciding. split.
  - destruct (requests_post url pm true) as [s r c| |] eqn:H1.
    + cbn [fst]. rewrite Hread. split.
      * intros [? ?]. split; [done|]. by exists s, r, c.
      * intros (_ & s' & r' & c' & [= -> -> ->] & ?). done.
    + destruct (requests_post url pm false) as [s r c| |] eqn:H2; cbn [fst].
      * rewrite Hread. split.
        -- intros [? ?]. split; [done|]. by exists s, r, c.
        -- intros (_ & s' & r' & c' & [= -> -> ->] & ?). done.
      * split; [done|]. by intros (_ & s' & r' & c' & ? & _).
      * split; [done|]. by intros (_ & s' & r' & c' & ? & _).
    + cbn [fst]. split; [done|]. by intros (_ & s' & r' & c' & ? & _).
  - intros _ s r c Hd Hs.
    assert (read_ack (Response s r c) = AckReturned false r) as Hr.
    { unfold read_ack. by destruct (Z.leb_spec 500 s); [|lia]. }
    destruct (requests_post url pm true) as [s1 r1 c1| |] eqn:H1.
    + injection Hd as -> -> ->. exact Hr.
    + rewrite Hd. exact Hr.
    + done.
Qed.

(** ** The sample shop *)

Section ShopSamples.
#[local] Existing Instance Shop.ext | 0.
#[local] Existing Instance Shop.messages | 0.
#[local] Existing Instance Shop.bitcoin | 0.
#[local] Existing Instance Shop.json | 0.

Lemma coffee_constructed :
  PaymentRequest_new Shop.coffee_bytes
  = Some (Shop.coffee_invoice,
          Some {| outputs := [("address", "1Shop", 2500)];
                  memo := "two coffees"; payment_url := "";
                  message := Shop.coffee_details |}).
Proof. vm_compute. reflexivity. Qed.

Lemma save_then_reload_witness :
  exists store',
    save (Js := Shop.json) Shop.coffee_store
    = (Done tt, Some (Shop.coffee_text : json_text (Json := Shop.json))) /\
    InvoiceStore_init (Js := Shop.json)
      (Some (Shop.coffee_text : json_text (Json := Shop.json)))
    = Done store' /\
    exists pr',
      get store' (request_id Shop.coffee_bytes) = Some pr' /\
      raw pr' = Shop.coffee_bytes /\
      requestor pr' = Some "unknown".
Proof.
  destruct (save_then_reload (Js := Shop.json) Shop.coffee_store Shop.coffee_text)
    as (store' & Hsave & Hinit & _ & _ & Hkeep); [reflexivity|reflexivity|].
  exists store'. split; [exact Hsave|]. split; [exact Hinit|].
  destruct (Hkeep (request_id Shop.coffee_bytes) Shop.coffee_invoice
              Shop.coffee_invoice _ (lookup_singleton_eq _ _) coffee_constructed)
    as (pr' & Hget & Hraw & _ & _ & Hreq & _).
  exists pr'. split; [exact Hget|]. split; [exact Hraw|exact Hreq].
Defined.

Lemma store_keys_are_ids_witness :
  exists pr,
    get (book (set_paid (Js := Shop.json)
                 {| book := Shop.coffee_store; file := None |}
                 (request_id Shop.coffee_bytes) "txid-1").2)
      (request_id Shop.coffee_bytes) = Some pr /\
    tx pr = Some "txid-1" /\
    request_id Shop.coffee_bytes = get_id pr.
Proof.
  destruct (store_keys_are_ids (Js := Shop.json)
              {| book := Shop.coffee_store; file := None |})
    as (_ & _ & Hpaid).
  - intros k pr H. unfold get, Shop.coffee_store in H. simpl in H.
    apply lookup_singleton_Some in H as [<- <-]. reflexivity.
  - exists (restored Shop.coffee_invoice (Some "txid-1") None).
    assert (get (book (set_paid (Js := Shop.json)
                         {| book := Shop.coffee_store; file := None |}
                         (request_id Shop.coffee_bytes) "txid-1").2)
              (request_id Shop.coffee_bytes)
            = Some (restored Shop.coffee_invoice (Some "txid-1") None)) as Hget.
    { unfold set_paid, get, Shop.coffee_store. simpl.
      rewrite lookup_singleton_eq. simpl. apply lookup_insert_eq. }
    split; [exact Hget|]. split; [reflexivity|].
    eapply (Hpaid (request_id Shop.coffee_bytes) "txid-1"); [|exact Hget].
    apply surjective_pairing.
Defined.

Lemma get_amount_sums_outputs_witness :
  get_amount {| outputs := [("address", "1Shop", 2500)];
                memo := "two coffees"; payment_url := "";
                message := Shop.coffee_details |}
  = foldr Z.add 0 [2500].
Proof.
  apply (get_amount_sums_outputs Shop.coffee_bytes Shop.coffee_invoice).
  exact coffee_constructed.
Defined.

Lemma coffee_details_built : request_details Shop.coffee = Some Shop.coffee_details.
Proof. vm_compute. reflexivity. Qed.

Lemma coffee_unsigned_built :
  make_unsigned_request Shop.coffee = Some Shop.coffee_unsigned.
Proof. vm_compute. reflexivity. Qed.

(** Read at 1700003601, one second after its hour, the coffee request
    has expired. *)
Lemma unsigned_request_read_back_witness :
  exists me a,
    PaymentRequest_new (pb2_SerializeToString Shop.coffee_unsigned)
    = Some (me, Some a) /\
    get_amount a = 2500 /\
    has_expired 1700003601 me = Returned (PyBool true).
Proof.
  destruct (unsigned_request_read_back Shop.coffee Shop.coffee_details
              Shop.coffee_unsigned 1700003601)
    as (me & a & Hnew & _ & Hamt & _ & v & Hexp & Hiff).
  - exact coffee_details_built.
  - exact coffee_unsigned_built.
  - vm_compute. reflexivity.
  - vm_compute. reflexivity.
  - constructor; [|constructor]. eexists. vm_compute. reflexivity.
  - exists me, a. split; [exact Hnew|]. split; [exact Hamt|].
    assert (truthy v = true) as Hv.
    { apply Hiff. exists 3600. split; [reflexivity|]. cbn. lia. }
    rewrite Hexp. unfold has_expired in Hexp.
    destruct (details me) as [d|]; [|discriminate Hexp].
    destruct (truthy (PyInt (expires d))) eqn:Ht; injection Hexp as <-.
    + cbn [truthy] in Hv. by rewrite Hv.
    + congruence.
Defined.

Lemma signed_with_alias_verifies_witness :
  sign_request_with_alias Shop.coffee_unsigned "alice@example.org" "Alice"
  = Shop.coffee_by_alice /\
  exists w',
    run (verify_dnssec Shop.coffee_by_alice contacts)
      {| self := Shop.coffee_invoice; calls := [] |}
    = (Returned (PyBool true), w').
Proof.
  split; [vm_compute; reflexivity|].
  destruct (signed_with_alias_verifies store contacts Shop.coffee_unsigned
              "alice@example.org" "Alice"
              {| self := Shop.coffee_invoice; calls := [] |})
    as [Hrun _].
  - reflexivity.
  - vm_compute. reflexivity.
  - vm_compute. reflexivity.
  - vm_compute. reflexivity.
  - eexists. exact Hrun.
Defined.

Lemma signed_with_x509_verifies_witness :
  envelope_signed_by shop_cert
    (sign_request_with_x509 Shop.coffee_unsigned Shop.shop_key
       ["der-shop"; "der-root"]).
Proof.
  apply (signed_with_x509_verifies store Shop.coffee_unsigned Shop.shop_key
           ["der-shop"; "der-root"] shop_cert root_cert
           {| self := Shop.coffee_invoice; calls := [] |}).
  - reflexivity.
  - vm_compute. reflexivity.
Defined.

Lemma serialize_request_rebuilds_witness :
  serialize_request
    {| req_address := "1Shop"; req_timestamp := 1700000000;
       req_amount := Some 2500; req_expiration := Some 3600;
       req_memo := "two coffees";
       req_signature := Some (hex_encode (signature Shop.coffee_by_alice));
       req_requestor := Some "alice@example.org" |}
  = Some Shop.coffee_by_alice.
Proof.
  destruct (serialize_request_rebuilds
              {| req_address := "1Shop"; req_timestamp := 1700000000;
                 req_amount := Some 2500; req_expiration := Some 3600;
                 req_memo := "two coffees";
                 req_signature := Some (hex_encode (signature Shop.coffee_by_alice));
                 req_requestor := Some "alice@example.org" |}
              Shop.coffee_unsigned) as (_ & Hhex & _).
  - vm_compute. reflexivity.
  - rewrite (Hhex (signature Shop.coffee_by_alice)); [reflexivity|discriminate|reflexivity].
Defined.

End ShopSamples.
